(** * Cluck: wire codec, connection dispatcher and shared registry

    A shallow embedding of [cluck_message.py] (the length-prefixed frame
    codec) and [cluck_server.py] (the asyncio protocol class [CluckServer]
    and [validate_username]), followed by the properties of the codec, of
    username validation, of the dispatcher and of the connection registry.

    Conventions of the embedding:
    - Python [int] is [Z]; [bytes] is [list byte]; [str] is the list of
      its code points; [None]-able values are [option];
    - a Python exception is the [Raise] outcome of [result];
    - methods of [CluckServer] run in a state-and-exception monad over the
      protocol object together with the objects shared by all protocols. *)

From Stdlib Require Import ZArith Lia List Strings.Byte Strings.String DecimalString.
From Stdlib Require DecimalFacts DecimalPos.
From stdpp Require Import base option list gmap.

Open Scope Z_scope.

(** ** Python values *)

Abbreviation bytes := (list byte).

(** A [str]: the sequence of its code points. *)
Abbreviation str := (list Z).

Definition Z_of_byte (b : byte) : Z := Z.of_N (Byte.to_N b).

(** The byte of value [z], for [0 <= z < 256]. *)
Definition byte_of_Z (z : Z) : byte :=
  match Byte.of_N (Z.to_N z) with
  | Some b => b
  | None => x00
  end.

(** [len(x)] *)
Definition len {A} (l : list A) : Z := Z.of_nat (length l).

(** [x[a:b]] for [0 <= a]; as in Python the slice is cut at the end of [x]
    and is empty when [b <= a]. *)
Definition slice {A} (x : list A) (a b : Z) : list A :=
  take (Z.to_nat (b - a)) (drop (Z.to_nat a) x).

(** A source literal: every literal of the two modules is ASCII. *)
Fixpoint lit (s : string) : str :=
  match s with
  | EmptyString => []
  | String a s' => Z.of_N (Ascii.N_of_ascii a) :: lit s'
  end.

(** ** Exceptions *)

Inductive exn : Set :=
  | TypeError
  | StructError
  | ValueError
  | KeyError
  | AttributeError
  | UnicodeDecodeError
  | UnicodeEncodeError
  | TransportError.

Inductive result (A : Type) : Type :=
  | Ok (a : A)
  | Raise (e : exn).
Arguments Ok {A} a.
Arguments Raise {A} e.

Definition rbind {A B} (r : result A) (k : A -> result B) : result B :=
  match r with
  | Ok a => k a
  | Raise e => Raise e
  end.

Declare Scope result_scope.
Delimit Scope result_scope with R.
Notation "x <- e ;; k" := (rbind e (fun x => k))
  (at level 100, e at next level, right associativity) : result_scope.

(** ** [struct] with format ['!H']: one big-endian unsigned 16-bit integer *)

Definition struct_pack_H (n : Z) : result bytes :=
  if (0 <=? n) && (n <=? 65535)
  then Ok [byte_of_Z (n / 256); byte_of_Z (n mod 256)]
  else Raise StructError.

Definition struct_unpack_H (b : bytes) : result Z :=
  match b with
  | [hi; lo] => Ok (256 * Z_of_byte hi + Z_of_byte lo)
  | _ => Raise StructError
  end.

(** ** UTF-8, the default codec of [bytes.decode()] and [str.encode()] *)

Definition utf8_encode_char (c : Z) : result bytes :=
  if c <? 0 then Raise UnicodeEncodeError
  else if c <? 0x80 then Ok [byte_of_Z c]
  else if c <? 0x800 then
    Ok [byte_of_Z (0xC0 + c / 64); byte_of_Z (0x80 + c mod 64)]
  else if (0xD800 <=? c) && (c <=? 0xDFFF) then Raise UnicodeEncodeError
  else if c <? 0x10000 then
    Ok [byte_of_Z (0xE0 + c / 4096); byte_of_Z (0x80 + (c / 64) mod 64);
        byte_of_Z (0x80 + c mod 64)]
  else if c <? 0x110000 then
    Ok [byte_of_Z (0xF0 + c / 262144); byte_of_Z (0x80 + (c / 4096) mod 64);
        byte_of_Z (0x80 + (c / 64) mod 64); byte_of_Z (0x80 + c mod 64)]
  else Raise UnicodeEncodeError.

(** [text.encode()] *)
Fixpoint str_encode (text : str) : result bytes :=
  match text with
  | [] => Ok []
  | c :: text' =>
      (b <- utf8_encode_char c ;;
       bs <- str_encode text' ;;
       Ok (b ++ bs))%R
  end.

Definition in_range (lo hi x : Z) : bool := (lo <=? x) && (x <=? hi).

Definition push (c : Z) (r : result str) : result str :=
  (s <- r ;; Ok (c :: s))%R.

(** [data.decode()]: strict UTF-8; overlong forms, surrogates, code points
    above U+10FFFF and truncated sequences raise [UnicodeDecodeError]. *)
Fixpoint bytes_decode (bs : bytes) : result str :=
  match bs with
  | [] => Ok []
  | b0 :: r0 =>
      let c0 := Z_of_byte b0 in
      if c0 <? 0x80 then push c0 (bytes_decode r0)
      else if c0 <? 0xC2 then Raise UnicodeDecodeError
      else if c0 <? 0xE0 then
        match r0 with
        | b1 :: r1 =>
            let c1 := Z_of_byte b1 in
            if in_range 0x80 0xBF c1
            then push ((c0 - 0xC0) * 64 + (c1 - 0x80)) (bytes_decode r1)
            else Raise UnicodeDecodeError
        | _ => Raise UnicodeDecodeError
        end
      else if c0 <? 0xF0 then
        match r0 with
        | b1 :: b2 :: r2 =>
            let c1 := Z_of_byte b1 in
            let c2 := Z_of_byte b2 in
            let lo := if c0 =? 0xE0 then 0xA0 else 0x80 in
            let hi := if c0 =? 0xED then 0x9F else 0xBF in
            if in_range lo hi c1 && in_range 0x80 0xBF c2
            then push ((c0 - 0xE0) * 4096 + (c1 - 0x80) * 64 + (c2 - 0x80))
                      (bytes_decode r2)
            else Raise UnicodeDecodeError
        | _ => Raise UnicodeDecodeError
        end
      else if c0 <? 0xF5 then
        match r0 with
        | b1 :: b2 :: b3 :: r3 =>
            let c1 := Z_of_byte b1 in
            let c2 := Z_of_byte b2 in
            let c3 := Z_of_byte b3 in
            let lo := if c0 =? 0xF0 then 0x90 else 0x80 in
            let hi := if c0 =? 0xF4 then 0x8F else 0xBF in
            if in_range lo hi c1 && in_range 0x80 0xBF c2 && in_range 0x80 0xBF c3
            then push ((c0 - 0xF0) * 262144 + (c1 - 0x80) * 4096
                       + (c2 - 0x80) * 64 + (c3 - 0x80))
                      (bytes_decode r3)
            else Raise UnicodeDecodeError
        | _ => Raise UnicodeDecodeError
        end
      else Raise UnicodeDecodeError
  end.

(** ** cluck_message.py *)

Definition CODE_SIZE : Z := 2.
Definition LENGTH_SIZE : Z := 2.
Definition HEADER_SIZE : Z := CODE_SIZE + LENGTH_SIZE.

Definition EMPTY_LENGTH : Z := 0.

Definition CODE_MOTD : Z := 1.
Definition CODE_MOTD_REQUEST : Z := 2.
Definition CODE_COMMAND_SUCCESS : Z := 10.
Definition CODE_COMMAND_ERROR : Z := 11.
Definition CODE_REGISTER_USER : Z := 100.
Definition CODE_USER_STATUS : Z := 101.
Definition CODE_WHOAMI : Z := 110.

(** The fixed enumeration of message codes. *)
Definition message_codes : list Z :=
  [CODE_MOTD; CODE_MOTD_REQUEST; CODE_COMMAND_SUCCESS; CODE_COMMAND_ERROR;
   CODE_REGISTER_USER; CODE_USER_STATUS; CODE_WHOAMI].

(** [class Message]: [data] is [None] when not present. *)
Record Message : Type := mkMessage { code : Z; data : option bytes }.

(** [if x:] on a [None]-able sequence: [None] and the empty sequence are
    false. *)
Definition truthy {A} (x : option (list A)) : bool :=
  match x with
  | Some (_ :: _) => true
  | _ => false
  end.

Definition get_code (m : Message) : Z := code m.

Definition get_length (m : Message) : Z :=
  if truthy (data m)
  then match data m with Some d => len d | None => EMPTY_LENGTH end
  else EMPTY_LENGTH.

Definition get_data (m : Message) : option bytes := data m.

(** [self.data.decode()]; on [None] the attribute lookup fails. *)
Definition get_data_ascii (m : Message) : result str :=
  match data m with
  | Some d => bytes_decode d
  | None => Raise AttributeError
  end.

Definition has_data (m : Message) : bool :=
  if truthy (data m) then true else false.

Definition _pack_code (m : Message) : result bytes := struct_pack_H (code m).

Definition _pack_length (m : Message) : result bytes :=
  struct_pack_H (get_length m).

Definition _pack_header (m : Message) : result bytes :=
  (c <- _pack_code m ;;
   l <- _pack_length m ;;
   Ok (c ++ l))%R.

(** [self._pack_header() + self.data]: [bytes + None] is a [TypeError]. *)
Definition pack (m : Message) : result bytes :=
  (header <- _pack_header m ;;
   match data m with
   | Some d => Ok (header ++ d)
   | None => Raise TypeError
   end)%R.

Definition unpack_code (raw : bytes) : result Z :=
  struct_unpack_H (slice raw 0 CODE_SIZE).

Definition unpack_length (raw : bytes) : result Z :=
  struct_unpack_H (slice raw CODE_SIZE (CODE_SIZE + LENGTH_SIZE)).

Definition unpack_data (raw : bytes) (length : Z) : option bytes :=
  if (length >? 0) && (length <? len raw)
  then Some (slice raw HEADER_SIZE (HEADER_SIZE + length))
  else None.

Definition decode (raw : bytes) : result Message :=
  (code <- unpack_code raw ;;
   length <- unpack_length raw ;;
   let data := unpack_data raw length in
   Ok (mkMessage code data))%R.

(** Utility methods for creating messages. *)

Definition pack_with (c : Z) (text : str) : result bytes :=
  (d <- str_encode text ;; pack (mkMessage c (Some d)))%R.

Definition pack_motd (text : str) : result bytes := pack_with CODE_MOTD text.

Definition pack_motd_req : result bytes :=
  pack (mkMessage CODE_MOTD_REQUEST None).

Definition pack_cmd_success (text : str) : result bytes :=
  pack_with CODE_COMMAND_SUCCESS text.

Definition pack_cmd_error (text : str) : result bytes :=
  pack_with CODE_COMMAND_ERROR text.

Definition pack_register_user (text : str) : result bytes :=
  pack_with CODE_REGISTER_USER text.

Definition pack_user_status (text : str) : result bytes :=
  pack_with CODE_USER_STATUS text.

Definition pack_whoami : result bytes := pack (mkMessage CODE_WHOAMI None).

(** ** Text formatting used by the server's replies *)

(** [str(n)] of an [int], as [format] renders it. *)
Definition int_str (n : Z) : str := lit (NilZero.string_of_int (Z.to_int n)).

Definition hexdigit (n : Z) : Z := if n <? 10 then 48 + n else 87 + n.

(** One byte of [repr(bytes)] inside the quote character [quote]. *)
Definition repr_byte (quote : Z) (b : byte) : str :=
  let c := Z_of_byte b in
  if (c =? quote) || (c =? 92) then [92; c]
  else if c =? 9 then [92; 116]
  else if c =? 10 then [92; 110]
  else if c =? 13 then [92; 114]
  else if (c <? 32) || (c >=? 127) then [92; 120; hexdigit (c / 16); hexdigit (c mod 16)]
  else [c].

(** [repr(data)] of a [bytes] object, which is what ['{}'.format(data)]
    inserts: [b'...'], or [b"..."] when the data has a single quote and no
    double quote. *)
Definition bytes_repr (bs : bytes) : str :=
  let squotes := existsb (fun b => Z_of_byte b =? 39) bs in
  let dquotes := existsb (fun b => Z_of_byte b =? 34) bs in
  let quote := if squotes && negb dquotes then 34 else 39 in
  [98; quote] ++ flat_map (repr_byte quote) bs ++ [quote].

(** ** What the server takes from outside the repository

    [str.isalpha] above the ASCII range is a table of the interpreter's
    Unicode database, and the banner is drawn by [pyfiglet]. *)
Class External : Type := {
  (** whether the one-character string of a code point above 127 is
      alphabetic *)
  unicode_isalpha : Z -> bool;
  (** [Figlet(font='slant').renderText] *)
  renderText : str -> str
}.

(** The code points for which [\s] matches in a [str] pattern: the
    white space of the interpreter's Unicode tables (Unicode 6.3 and
    later). *)
Definition char_isspace (c : Z) : bool :=
  in_range 9 13 c || in_range 28 32 c || (c =? 0x85) || (c =? 0xA0)
  || (c =? 0x1680) || in_range 0x2000 0x200A c || (c =? 0x2028)
  || (c =? 0x2029) || (c =? 0x202F) || (c =? 0x205F) || (c =? 0x3000).

(** [re.search(r"\s", s)], as a truth value. *)
Definition re_search_space (s : str) : bool := existsb char_isspace s.

Section Validation.
Context `{External}.

Definition char_isalpha (c : Z) : bool :=
  if c <? 128 then in_range 65 90 c || in_range 97 122 c
  else unicode_isalpha c.

(** [s.isalpha()]: at least one character and all of them alphabetic. *)
Definition str_isalpha (s : str) : bool :=
  match s with
  | [] => false
  | _ => forallb char_isalpha s
  end.

(** Validation functions.  [username[0]] is read only after the length
    test has excluded the empty string; it is the one-character string
    [take 1 username]. *)
Definition validate_username (username : str) : option str :=
  if len username <? 1 then
    Some (lit "user names must contain least one character.")
  else if len username >? 12 then
    Some (lit "user names cannot contain more than twelve characters.")
  else if negb (str_isalpha (take 1 username)) then
    Some (lit "user names must begin with alphanumeric characters.")
  else if re_search_space username then
    Some (lit "user names cannot contain whitespace.")
  else None.

End Validation.

(** ** cluck_server.py: shared objects and the protocol object *)

(** A transport object, by identity. *)
Abbreviation handle := nat.

Inductive conn_state : Set :=
  | STATE_CONNECTED
  | STATE_READY
  | STATE_ERROR.

Definition conn_state_eqb (a b : conn_state) : bool :=
  match a, b with
  | STATE_CONNECTED, STATE_CONNECTED => true
  | STATE_READY, STATE_READY => true
  | STATE_ERROR, STATE_ERROR => true
  | _, _ => false
  end.

Inductive level : Set := DEBUG | INFO | WARNING | ERROR.

(** A call of [logging]: its level and what it reports (the rendered text
    of a record, which includes the peer name, is not modelled). *)
Inductive log_record : Type :=
  | Log_connection_made (lv : level)
  | Log_data_received (lv : level) (data : bytes)
  | Log_bad_header (lv : level) (data : bytes)
  | Log_bad_code (lv : level) (code : Z)
  | Log_exception (lv : level) (e : exn)
  | Log_connection_lost (lv : level)
  | Log_register_error (lv : level) (error : str)
  | Log_creating_user (lv : level) (user : str).

(** The objects every protocol shares: the two registry objects made by
    [run_server] ([connections], [connection_states]), the transports (the
    [write] calls that went through, in order, the [close] calls, and the
    transports whose [write] raises) and the log. *)
Record Shared : Type := mkShared {
  connections : list handle;
  connection_states : gmap handle conn_state;
  wire : list (handle * bytes);
  closed : list handle;
  faulty : gset handle;
  log : list log_record
}.

(** The attributes of a [CluckServer] object; [transport] is unset until
    [_initialize_connection]. *)
Record CluckServer : Type := mkCluckServer {
  user : option str;
  transport : option handle
}.

(** [CluckServer(connections, connection_states)] *)
Definition new_server : CluckServer := mkCluckServer None None.

Record State : Type := mkState { self : CluckServer; shared : Shared }.

(** A method body: it may raise, and what it changed before stays changed. *)
Definition M (A : Type) : Type := State -> result A * State.

Definition ret {A} (a : A) : M A := fun s => (Ok a, s).

Definition bind {A B} (m : M A) (k : A -> M B) : M B :=
  fun s =>
    match m s with
    | (Ok a, s') => k a s'
    | (Raise e, s') => (Raise e, s')
    end.

Definition lift {A} (r : result A) : M A := fun s => (r, s).

(** [try: body except Exception as e: handler] *)
Definition try_except (body : M unit) (handler : exn -> M unit) : M unit :=
  fun s =>
    match body s with
    | (Ok a, s') => (Ok a, s')
    | (Raise e, s') => handler e s'
    end.

Declare Scope method_scope.
Delimit Scope method_scope with M.
Notation "x <- e ;; k" := (bind e (fun x => k))
  (at level 100, e at next level, right associativity) : method_scope.
Notation "e ;; k" := (bind e (fun _ => k))
  (at level 100, right associativity) : method_scope.

(** [for x in xs: body] *)
Fixpoint for_each {A} (xs : list A) (body : A -> M unit) : M unit :=
  match xs with
  | [] => ret tt
  | x :: xs' => (body x ;; for_each xs' body)%M
  end.

Definition modify_shared (f : Shared -> Shared) : M unit :=
  fun s => (Ok tt, mkState (self s) (f (shared s))).

Definition modify_self (f : CluckServer -> CluckServer) : M unit :=
  fun s => (Ok tt, mkState (f (self s)) (shared s)).

(** [self.transport] *)
Definition self_transport : M handle :=
  fun s =>
    match transport (self s) with
    | Some t => (Ok t, s)
    | None => (Raise AttributeError, s)
    end.

(** [self.user] *)
Definition self_user : M (option str) := fun s => (Ok (user (self s)), s).

(** [self.connections] *)
Definition self_connections : M (list handle) :=
  fun s => (Ok (connections (shared s)), s).

(** Updates of the shared objects, one field at a time. *)

Definition with_connections (c : list handle) (sh : Shared) : Shared :=
  mkShared c (connection_states sh) (wire sh) (closed sh) (faulty sh) (log sh).

Definition with_states (m : gmap handle conn_state) (sh : Shared) : Shared :=
  mkShared (connections sh) m (wire sh) (closed sh) (faulty sh) (log sh).

Definition written (t : handle) (d : bytes) (sh : Shared) : Shared :=
  mkShared (connections sh) (connection_states sh) (wire sh ++ [(t, d)])
           (closed sh) (faulty sh) (log sh).

Definition closing (t : handle) (sh : Shared) : Shared :=
  mkShared (connections sh) (connection_states sh) (wire sh)
           (closed sh ++ [t]) (faulty sh) (log sh).

Definition logged (r : log_record) (sh : Shared) : Shared :=
  mkShared (connections sh) (connection_states sh) (wire sh) (closed sh)
           (faulty sh) (log sh ++ [r]).

Definition logging (r : log_record) : M unit := modify_shared (logged r).

(** [transport.get_extra_info('peername')]: the value is used in log text
    only. *)
Definition get_extra_info (t : handle) : M unit := ret tt.

(** [transport.write(data)] *)
Definition transport_write (t : handle) (d : bytes) : M unit :=
  fun s =>
    if decide (t ∈ faulty (shared s)) then (Raise TransportError, s)
    else modify_shared (written t d) s.

(** [transport.close()] *)
Definition transport_close (t : handle) : M unit := modify_shared (closing t).

(** [xs.remove(x)]: drops the first occurrence, [None] when there is none. *)
Fixpoint list_remove (x : handle) (xs : list handle) : option (list handle) :=
  match xs with
  | [] => None
  | y :: xs' =>
      if decide (x = y) then Some xs'
      else match list_remove x xs' with
           | Some r => Some (y :: r)
           | None => None
           end
  end.

(** [self.connections.append(t)] *)
Definition connections_append (t : handle) : M unit :=
  modify_shared (fun sh => with_connections (connections sh ++ [t]) sh).

(** [self.connections.remove(t)] *)
Definition connections_remove (t : handle) : M unit :=
  fun s =>
    match list_remove t (connections (shared s)) with
    | Some r => modify_shared (with_connections r) s
    | None => (Raise ValueError, s)
    end.

(** [self.connection_states[t]] *)
Definition states_getitem (t : handle) : M conn_state :=
  fun s =>
    match connection_states (shared s) !! t with
    | Some st => (Ok st, s)
    | None => (Raise KeyError, s)
    end.

(** [self.connection_states[t] = st] *)
Definition states_setitem (t : handle) (st : conn_state) : M unit :=
  modify_shared (fun sh => with_states (<[t := st]> (connection_states sh)) sh).

(** [self.connection_states.pop(t)] *)
Definition states_pop (t : handle) : M unit :=
  fun s =>
    match connection_states (shared s) !! t with
    | Some _ =>
        modify_shared (fun sh => with_states (delete t (connection_states sh)) sh) s
    | None => (Raise KeyError, s)
    end.

Section Methods.
Context `{External}.

Definition _send_to (d : bytes) (t : handle) : M unit := transport_write t d.

Definition _send (d : bytes) : M unit :=
  (t <- self_transport ;; _send_to d t)%M.

Definition _broadcast (d : bytes) : M unit :=
  (conns <- self_connections ;;
   for_each conns (fun t =>
     conn_state <- states_getitem t ;;
     if conn_state_eqb conn_state STATE_READY then _send_to d t else ret tt))%M.

Definition _get_state : M conn_state :=
  (t <- self_transport ;; states_getitem t)%M.

Definition _set_state (st : conn_state) : M unit :=
  (t <- self_transport ;; states_setitem t st)%M.

Definition _initialize_connection (t : handle) : M unit :=
  (modify_self (fun p => mkCluckServer (user p) (Some t)) ;;
   connections_append t ;;
   states_setitem t STATE_CONNECTED)%M.

Definition get_motd : M str := ret (renderText (lit "Cluck!")).

Definition _handle_whoami_request (message : Message) : M unit :=
  (user <- self_user ;;
   if truthy user then
     frame <- lift (pack_user_status (default [] user)) ;;
     _send frame
   else
     let error := lit "user_status: host has no registered users." in
     frame <- lift (pack_cmd_error error) ;;
     _send frame)%M.

Definition _handle_register_user (message : Message) : M unit :=
  (user <- (if has_data message then lift (get_data_ascii message)
            else ret []) ;;
   let error := validate_username user in
   if truthy error then
     let error := default [] error in
     logging (Log_register_error DEBUG error) ;;
     let response := lit "register_user_error: " ++ error in
     frame <- lift (pack_cmd_error response) ;;
     _send frame
   else
     logging (Log_creating_user INFO user) ;;
     modify_self (fun p => mkCluckServer (Some user) (transport p)) ;;
     let response := lit "register_user_success: " ++ user ++ lit " confirmed." in
     frame <- lift (pack_cmd_success response) ;;
     _send frame)%M.

Definition _handle_motd_request (message : Message) : M unit :=
  (motd <- get_motd ;;
   frame <- lift (pack_motd motd) ;;
   _send frame)%M.

(** [self._protocol_paths], built by [__init__]. *)
Definition _protocol_paths (code : Z) : option (Message -> M unit) :=
  if code =? CODE_MOTD_REQUEST then Some _handle_motd_request
  else if code =? CODE_REGISTER_USER then Some _handle_register_user
  else if code =? CODE_WHOAMI then Some _handle_whoami_request
  else None.

Definition connection_made (t : handle) : M unit :=
  (get_extra_info t ;;
   logging (Log_connection_made INFO) ;;
   _initialize_connection t)%M.

(** The handler of the [except] clause logs the exception;
    [traceback.print_exc()] writes to the error stream only. *)
Definition data_received (d : bytes) : M unit :=
  (t <- self_transport ;;
   get_extra_info t ;;
   logging (Log_data_received DEBUG d) ;;
   try_except
     (if len d <? HEADER_SIZE then
        logging (Log_bad_header WARNING d) ;;
        let error := lit "malformed_packet_error: incomplete header, "
                     ++ bytes_repr d in
        frame <- lift (pack_cmd_error error) ;;
        _send frame
      else
        message <- lift (decode d) ;;
        let code := get_code message in
        match _protocol_paths code with
        | Some handler => handler message
        | None =>
            logging (Log_bad_code WARNING code) ;;
            let error := lit "malformed_packet_error: bad message code ("
                         ++ int_str code ++ lit ")" in
            frame <- lift (pack_cmd_error error) ;;
            _send frame
        end)
     (fun e => logging (Log_exception ERROR e)))%M.

Definition connection_lost : M unit :=
  (t <- self_transport ;;
   get_extra_info t ;;
   logging (Log_connection_lost INFO) ;;
   t1 <- self_transport ;;
   transport_close t1 ;;
   t2 <- self_transport ;;
   connections_remove t2 ;;
   t3 <- self_transport ;;
   states_pop t3)%M.

End Methods.

(** ** The event loop

    [asyncio] makes one [CluckServer] per accepted connection, calls
    [connection_made] on it once with a new transport, then [data_received]
    any number of times, then [connection_lost] once.  Live protocol
    objects are kept by their transport.  An exception that leaves a
    callback is reported by the loop and the server goes on. *)

Record World : Type := mkWorld {
  protocols : gmap handle CluckServer;
  net : Shared
}.

Inductive event : Type :=
  | Connect (t : handle)
  | Receive (t : handle) (d : bytes)
  | Disconnect (t : handle).

(** The server as [run_server] starts it: no connection, and any set of
    transports that will refuse writes. *)
Definition start (bad : gset handle) : World :=
  mkWorld ∅ (mkShared [] ∅ [] [] bad []).

Section Loop.
Context `{External}.

Inductive step : World -> event -> World -> Prop :=
  | step_connect w t r s' :
      protocols w !! t = None ->
      connection_made t (mkState new_server (net w)) = (r, s') ->
      step w (Connect t) (mkWorld (<[t := self s']> (protocols w)) (shared s'))
  | step_receive w t p d r s' :
      protocols w !! t = Some p ->
      data_received d (mkState p (net w)) = (r, s') ->
      step w (Receive t d) (mkWorld (<[t := self s']> (protocols w)) (shared s'))
  | step_disconnect w t p r s' :
      protocols w !! t = Some p ->
      connection_lost (mkState p (net w)) = (r, s') ->
      step w (Disconnect t) (mkWorld (delete t (protocols w)) (shared s')).

Inductive reachable : World -> Prop :=
  | reachable_start bad : reachable (start bad)
  | reachable_step w e w' : reachable w -> step w e w' -> reachable w'.

End Loop.

(** Whether [_broadcast] writes to the transport [t]. *)
Definition is_ready (sh : Shared) (t : handle) : bool :=
  match connection_states sh !! t with
  | Some st => conn_state_eqb st STATE_READY
  | None => false
  end.

(** The shared objects after [d] has been written to each transport of
    [ts], in order. *)
Definition delivered (d : bytes) (ts : list handle) (sh : Shared) : Shared :=
  mkShared (connections sh) (connection_states sh)
           (wire sh ++ map (fun t => (t, d)) ts)
           (closed sh) (faulty sh) (log sh).

(** One round of the loop of [_broadcast]. *)
Definition broadcast_body (d : bytes) (t : handle) : M unit :=
  (conn_state <- states_getitem t ;;
   if conn_state_eqb conn_state STATE_READY then _send_to d t else ret tt)%M.

(** Registries for closed examples: two ready transports of which the
    first refuses writes; and one connecting and two ready transports. *)
Definition first_refuses : Shared :=
  mkShared [1%nat; 2%nat]
           (<[1%nat := STATE_READY]> (<[2%nat := STATE_READY]> ∅))
           [] [] {[1%nat]} [].

Definition one_connecting_two_ready : Shared :=
  mkShared [1%nat; 2%nat; 3%nat]
           (<[1%nat := STATE_CONNECTED]>
              (<[2%nat := STATE_READY]> (<[3%nat := STATE_READY]> ∅)))
           [] [] ∅ [].

(** The state of a protocol after [connection_made] on transport 7 of a
    server just started, and after [connection_lost] on it. *)
Definition once_connected : State :=
  snd (connection_made 7%nat (mkState new_server (net (start ∅)))).

Definition once_lost : State := snd (connection_lost once_connected).

(** A method run from [s] to [s'] has left the registry alone: the
    connection list, the state map, the transport of the protocol and the
    set of refusing transports are as before. *)
Definition same_registry (s s' : State) : Prop :=
  connections (shared s') = connections (shared s)
  /\ connection_states (shared s') = connection_states (shared s)
  /\ faulty (shared s') = faulty (shared s)
  /\ transport (self s') = transport (self s).

Definition keeps {A} (m : M A) : Prop :=
  forall s, same_registry s (snd (m s)).

(** The invariant of the event loop. *)
Record registry_inv (w : World) : Prop := mkRegistryInv {
  inv_live : forall t, In t (connections (net w)) <-> is_Some (protocols w !! t);
  inv_nodup : List.NoDup (connections (net w));
  inv_connecting : forall t, In t (connections (net w)) ->
                             connection_states (net w) !! t = Some STATE_CONNECTED;
  inv_states : forall t st, connection_states (net w) !! t = Some st ->
                            st = STATE_CONNECTED;
  inv_transport : forall t p, protocols w !! t = Some p -> transport p = Some t
}.

(** Chunks for closed examples: a bare [WHOAMI] header, [REGISTER_USER]
    with the payload [Bob], and [REGISTER_USER] with the three-byte payload
    61 c3 a9, the UTF-8 form of the two characters U+0061 U+00E9. *)
Definition whoami_chunk : bytes := [x00; x6e; x00; x00].

Definition register_bob_chunk : bytes := [x00; x64; x00; x03; x42; x6f; x62].

Definition register_utf8_chunk : bytes := [x00; x64; x00; x03; x61; xc3; xa9].

(** The world after the first connection, on transport 7. *)
Definition after_connect : World :=
  mkWorld (<[7%nat := self once_connected]> ∅) (shared once_connected).

(** An instance of [External] for closed examples: the alphabetic code
    points of Latin-1 above ASCII, and a banner that is its text. *)
Definition latin1_isalpha (c : Z) : bool :=
  (c =? 0xAA) || (c =? 0xB5) || (c =? 0xBA) || in_range 0xC0 0xD6 c
  || in_range 0xD8 0xF6 c || in_range 0xF8 0xFF c.

Definition latin1 : External :=
  {| unicode_isalpha := latin1_isalpha; renderText := fun text => text |}.

(** Whether every character of a text is in the ASCII range. *)
Definition ascii_text (s : str) : bool :=
  forallb (fun c => (0 <=? c) && (c <? 128)) s.

(** The codes of the frames the server writes. *)
Definition response_codes : list Z :=
  [CODE_MOTD; CODE_COMMAND_SUCCESS; CODE_COMMAND_ERROR; CODE_USER_STATUS].

(** The outcome of packing a reply and sending it on the transport [t] of
    the protocol [p]: the packing may raise, and so may the write. *)
Definition reply (r : result bytes) (p : CluckServer) (sh : Shared) (t : handle)
  : result unit * State :=
  match r with
  | Raise e => (Raise e, mkState p sh)
  | Ok frame =>
      if decide (t ∈ faulty sh) then (Raise TransportError, mkState p sh)
      else (Ok tt, mkState p (written t frame sh))
  end.

(** What a callback on the protocol of transport [t], started with the
    shared objects [sh], may have done when it ends in [s']: the registry,
    the closed transports and the binding of the protocol are as before,
    and at most one frame has been written, a reply, to [t]. *)
Definition contained (t : handle) (sh : Shared) (s' : State) : Prop :=
  transport (self s') = Some t
  /\ connections (shared s') = connections sh
  /\ connection_states (shared s') = connection_states sh
  /\ faulty (shared s') = faulty sh
  /\ closed (shared s') = closed sh
  /\ (wire (shared s') = wire sh
      \/ ((t ∉ faulty sh)
          /\ exists c text frame,
               In c response_codes /\ pack_with c text = Ok frame
               /\ wire (shared s') = wire sh ++ [(t, frame)])).

(** The name [_handle_register_user] reads from a message. *)
Definition requested_name (m : Message) : result str :=
  if has_data m then get_data_ascii m else Ok [].

Section Effects.
Context `{External}.

(** What a received chunk [d] may have done to the user of the protocol
    [p] when the callback ends in [s']: nothing, or the chunk was a
    [REGISTER_USER] message whose name passed validation and is now the
    user. *)
Definition user_effect (d : bytes) (p : CluckServer) (s' : State) : Prop :=
  user (self s') = user p
  \/ exists m name,
       decode d = Ok m /\ get_code m = CODE_REGISTER_USER
       /\ requested_name m = Ok name /\ validate_username name = None
       /\ user (self s') = Some name.

(** The user of a protocol, when there is one, passes validation. *)
Definition valid_user (p : CluckServer) : Prop :=
  forall name, user p = Some name -> validate_username name = None.

(** What holds of the written frames and of the users in every world the
    loop can reach. *)
Record replies_inv (w : World) : Prop := mkRepliesInv {
  inv_frames : forall t frame, In (t, frame) (wire (net w)) ->
      exists m, decode frame = Ok m /\ In (get_code m) response_codes;
  inv_users : forall t p, protocols w !! t = Some p -> valid_user p
}.

End Effects.

(** More data for closed examples: a protocol connected on transport 7
    when that transport refuses writes; chunks with a code outside the
    recognised set, with a name that does not start with a letter, with a
    payload that is not UTF-8, and for the banner; and the world after the
    first connection has registered the name [Bob]. *)
Definition refusing_connected : State :=
  snd (connection_made 7%nat (mkState new_server (net (start {[7%nat]})))).

Definition unknown_chunk : bytes := [x27; x0f; x00; x00].

Definition register_digit_chunk : bytes :=
  [x00; x64; x00; x04; x31; x61; x62; x63].

Definition register_broken_chunk : bytes := [x00; x64; x00; x01; xff].

Definition motd_chunk : bytes := [x00; x02; x00; x00].

Definition after_register : World :=
  mkWorld
    (<[7%nat := self (snd (@data_received latin1 register_bob_chunk once_connected))]>
       (protocols after_connect))
    (shared (snd (@data_received latin1 register_bob_chunk once_connected))).

(** * Properties of the codec *)

Lemma Z_of_byte_range (b : byte) : 0 <= Z_of_byte b < 256.
Proof.
  unfold Z_of_byte. pose proof (Byte.to_N_bounded b). lia.
Qed.

Lemma Z_of_byte_of_Z (z : Z) : 0 <= z < 256 -> Z_of_byte (byte_of_Z z) = z.
Proof.
  intros Hz. unfold Z_of_byte, byte_of_Z.
  destruct (Byte.of_N (Z.to_N z)) as [b|] eqn:E.
  - apply Byte.to_of_N in E. rewrite E. lia.
  - apply Byte.of_N_None_iff in E. lia.
Qed.

Lemma byte_of_Z_of_byte (b : byte) : byte_of_Z (Z_of_byte b) = b.
Proof.
  unfold Z_of_byte, byte_of_Z. rewrite N2Z.id, Byte.of_to_N. reflexivity.
Qed.

Lemma len_nonneg {A} (l : list A) : 0 <= len l.
Proof. unfold len. lia. Qed.

Lemma len_app {A} (l k : list A) : len (l ++ k) = len l + len k.
Proof. unfold len. rewrite length_app. lia. Qed.

(** ['!H'] packs every 16-bit value into two bytes that unpack to it. *)
Lemma struct_pack_unpack_H (n : Z) :
  0 <= n <= 65535 ->
  exists hi lo, struct_pack_H n = Ok [hi; lo] /\ struct_unpack_H [hi; lo] = Ok n.
Proof.
  intros Hn. unfold struct_pack_H.
  replace ((0 <=? n) && (n <=? 65535)) with true
    by (symmetry; apply andb_true_intro; split; lia).
  eexists _, _. split; [reflexivity|]. cbn [struct_unpack_H].
  rewrite !Z_of_byte_of_Z.
  - f_equal. pose proof (Z.div_mod n 256). lia.
  - apply Z.mod_pos_bound. lia.
  - split; [apply Z.div_pos; lia | apply Z.div_lt_upper_bound; lia].
Qed.

Lemma struct_pack_H_out_of_range (n : Z) :
  n < 0 \/ 65535 < n -> struct_pack_H n = Raise StructError.
Proof.
  intros Hn. unfold struct_pack_H.
  replace ((0 <=? n) && (n <=? 65535)) with false; [reflexivity|].
  symmetry. apply andb_false_iff. lia.
Qed.

(** Two bytes always unpack, to a 16-bit value. *)
Lemma struct_unpack_H_range (hi lo : byte) :
  exists n, struct_unpack_H [hi; lo] = Ok n /\ 0 <= n <= 65535.
Proof.
  eexists. split; [reflexivity|].
  pose proof (Z_of_byte_range hi). pose proof (Z_of_byte_range lo). lia.
Qed.

(** The shape of a frame of at least four bytes. *)
Lemma header_split (raw : bytes) :
  4 <= len raw ->
  exists c1 c2 l1 l2 rest, raw = c1 :: c2 :: l1 :: l2 :: rest.
Proof.
  unfold len.
  destruct raw as [|c1 [|c2 [|l1 [|l2 rest]]]]; cbn [length]; intros; try lia.
  eauto 6.
Qed.

Lemma slice_payload (c1 c2 l1 l2 : byte) (rest : bytes) (L : Z) :
  0 <= L ->
  slice (c1 :: c2 :: l1 :: l2 :: rest) HEADER_SIZE (HEADER_SIZE + L)
  = take (Z.to_nat L) rest.
Proof.
  intros HL. unfold slice, HEADER_SIZE, CODE_SIZE, LENGTH_SIZE.
  replace (2 + 2 + L - (2 + 2)) with L by lia. reflexivity.
Qed.

(** What [decode] computes on a frame with a whole header. *)
Lemma decode_frame (c1 c2 l1 l2 : byte) (rest : bytes) :
  let L := 256 * Z_of_byte l1 + Z_of_byte l2 in
  decode (c1 :: c2 :: l1 :: l2 :: rest)
  = Ok (mkMessage (256 * Z_of_byte c1 + Z_of_byte c2)
          (if (L >? 0) && (L <? 4 + len rest)
           then Some (take (Z.to_nat L) rest) else None)).
Proof.
  intros L. unfold decode, unpack_code, unpack_length. cbn [slice]. 
  change (slice (c1 :: c2 :: l1 :: l2 :: rest) 0 CODE_SIZE) with [c1; c2].
  change (slice (c1 :: c2 :: l1 :: l2 :: rest) CODE_SIZE (CODE_SIZE + LENGTH_SIZE))
    with [l1; l2].
  cbn [struct_unpack_H rbind]. fold L. unfold unpack_data.
  replace (len (c1 :: c2 :: l1 :: l2 :: rest)) with (4 + len rest)
    by (unfold len; cbn [length]; lia).
  destruct ((L >? 0) && (L <? 4 + len rest)) eqn:E; [|reflexivity].
  rewrite slice_payload; [reflexivity|].
  rewrite Z.gtb_ltb in E. apply andb_prop in E.
  destruct E as [E%Z.ltb_lt _]. lia.
Qed.

(** What [pack] computes on a message that carries a byte sequence. *)
Lemma pack_bytes (c : Z) (d : bytes) :
  0 <= c <= 65535 -> len d <= 65535 ->
  exists c1 c2 l1 l2,
    pack (mkMessage c (Some d)) = Ok (c1 :: c2 :: l1 :: l2 :: d)
    /\ 256 * Z_of_byte c1 + Z_of_byte c2 = c
    /\ 256 * Z_of_byte l1 + Z_of_byte l2 = len d.
Proof.
  intros Hc Hd.
  destruct (struct_pack_unpack_H c Hc) as (c1 & c2 & Hpc & Huc).
  assert (HL : get_length (mkMessage c (Some d)) = len d).
  { unfold get_length. destruct d; reflexivity. }
  destruct (struct_pack_unpack_H (len d)) as (l1 & l2 & Hpl & Hul).
  { pose proof (len_nonneg d). lia. }
  exists c1, c2, l1, l2.
  unfold pack, _pack_header, _pack_code, _pack_length. rewrite HL.
  cbn [code data]. rewrite Hpc, Hpl. cbn [rbind app].
  cbn [struct_unpack_H] in Huc, Hul.
  split; [reflexivity|]. split; congruence.
Qed.

Lemma message_codes_range (c : Z) : In c message_codes -> 0 <= c <= 65535.
Proof.
  unfold message_codes, CODE_MOTD, CODE_MOTD_REQUEST, CODE_COMMAND_SUCCESS,
    CODE_COMMAND_ERROR, CODE_REGISTER_USER, CODE_USER_STATUS, CODE_WHOAMI.
  cbn [In]. intros Hc. lia.
Qed.

(** C1.  Round trip: for every code of the enumeration and every byte
    sequence [d] of at most 65535 bytes, [pack] succeeds on the message
    [(c, d)] and [decode] of the frame gives back the code [c], the length
    of [d] and the bytes [d]; when [d] is empty the decoded payload is
    absent ([None]) and the reported length is 0. *)
Theorem pack_decode_round_trip (c : Z) (d : bytes) :
  In c message_codes -> 0 <= len d <= 65535 ->
  exists raw m,
    pack (mkMessage c (Some d)) = Ok raw
    /\ decode raw = Ok m
    /\ get_code m = c
    /\ get_length m = len d
    /\ get_data m = match d with [] => None | _ :: _ => Some d end.
Proof.
  intros Hc Hd. apply message_codes_range in Hc.
  destruct (pack_bytes c d Hc) as (c1 & c2 & l1 & l2 & Hp & Hcode & Hlen); [lia|].
  eexists _, _. split; [exact Hp|]. split; [apply decode_frame|].
  cbn zeta. rewrite Hcode, Hlen.
  unfold get_code, get_length, get_data. cbn [code data].
  split; [reflexivity|].
  destruct d as [|b d'].
  - cbn. split; reflexivity.
  - assert (Hpos : (len (b :: d') >? 0) && (len (b :: d') <? 4 + len (b :: d')) = true).
    { rewrite Z.gtb_ltb. apply andb_true_intro. unfold len. cbn [length].
      split; apply Z.ltb_lt; lia. }
    assert (Htake : take (Z.to_nat (len (b :: d'))) (b :: d') = b :: d')
      by (unfold len; rewrite Nat2Z.id; apply firstn_all).
    rewrite Hpos, Htake. split; reflexivity.
Qed.

(** The round trip of the frame of [REGISTER_USER] with the three bytes of
    [Bob]. *)
Lemma pack_decode_round_trip_witness :
  (In CODE_REGISTER_USER message_codes /\ 0 <= len [x42; x6f; x62] <= 65535)
  /\ exists raw m,
       pack (mkMessage CODE_REGISTER_USER (Some [x42; x6f; x62])) = Ok raw
       /\ decode raw = Ok m
       /\ get_code m = CODE_REGISTER_USER
       /\ get_length m = len [x42; x6f; x62]
       /\ get_data m = Some [x42; x6f; x62].
Proof.
  assert (Hc : In CODE_REGISTER_USER message_codes) by (cbn; tauto).
  assert (Hd : 0 <= len [x42; x6f; x62] <= 65535) by (vm_compute; split; discriminate).
  split; [split; assumption|].
  exact (pack_decode_round_trip CODE_REGISTER_USER [x42; x6f; x62] Hc Hd).
Defined.

(** C2, as the specification words it, fails: the one-byte payload of this
    five-byte frame has exactly the declared length, [L = len raw - 4 = 1],
    and [decode] keeps it. *)
Lemma exact_length_payload_is_kept :
  4 <= len [x00; x01; x00; x01; x41]
  /\ unpack_length [x00; x01; x00; x01; x41] = Ok 1
  /\ 1 = len [x00; x01; x00; x01; x41] - 4
  /\ exists m, decode [x00; x01; x00; x01; x41] = Ok m
               /\ get_data m = Some [x41]
               /\ get_data m <> None.
Proof.
  split; [vm_compute; discriminate|].
  split; [reflexivity|]. split; [reflexivity|].
  eexists. split; [reflexivity|]. split; [reflexivity|discriminate].
Qed.

(** C2, amended.  On a frame of at least four bytes with declared length
    [L], [decode] captures a payload exactly when [0 < L < len raw], the
    length of the whole frame, header included; the payload is then
    [raw[4:4+L]].  So a payload whose declared length is exactly the number
    of bytes after the header, [L = len raw - 4 > 0], is kept whole. *)
Theorem decode_payload_guard (raw : bytes) :
  4 <= len raw ->
  exists L m,
    unpack_length raw = Ok L
    /\ decode raw = Ok m
    /\ (get_data m <> None <-> 0 < L < len raw)
    /\ (0 < L < len raw -> get_data m = Some (slice raw 4 (4 + L)))
    /\ (L = len raw - 4 -> 0 < L -> get_data m = Some (drop 4 raw)).
Proof.
  intros Hraw. destruct (header_split raw Hraw) as (c1 & c2 & l1 & l2 & rest & ->).
  eexists _, _. split; [reflexivity|]. split; [apply decode_frame|].
  cbn zeta. unfold get_data. cbn [data].
  set (L := 256 * Z_of_byte l1 + Z_of_byte l2).
  replace (len (c1 :: c2 :: l1 :: l2 :: rest)) with (4 + len rest)
    by (unfold len; cbn [length]; lia).
  pose proof (slice_payload c1 c2 l1 l2 rest L) as Hslice.
  unfold HEADER_SIZE, CODE_SIZE, LENGTH_SIZE in Hslice.
  change (2 + 2) with 4 in Hslice.
  rewrite Z.gtb_ltb.
  destruct ((0 <? L) && (L <? 4 + len rest)) eqn:E.
  - apply andb_prop in E. destruct E as [E1%Z.ltb_lt E2%Z.ltb_lt].
    split; [split; [intros _; lia|discriminate]|].
    split.
    + intros _. rewrite Hslice by lia. reflexivity.
    + intros HL _. f_equal. cbn [drop].
      replace L with (len rest) by lia. unfold len.
      rewrite Nat2Z.id. apply firstn_all.
  - apply andb_false_iff in E. rewrite !Z.ltb_ge in E.
    pose proof (len_nonneg rest).
    split; [split; [congruence|lia]|].
    split; intros; lia.
Qed.

Lemma decode_payload_guard_witness :
  4 <= len [x00; x01; x00; x01; x41]
  /\ exists L m,
       unpack_length [x00; x01; x00; x01; x41] = Ok L
       /\ decode [x00; x01; x00; x01; x41] = Ok m
       /\ (get_data m <> None <-> 0 < L < len [x00; x01; x00; x01; x41])
       /\ (0 < L < len [x00; x01; x00; x01; x41] ->
           get_data m = Some (slice [x00; x01; x00; x01; x41] 4 (4 + L)))
       /\ (L = len [x00; x01; x00; x01; x41] - 4 -> 0 < L ->
           get_data m = Some (drop 4 [x00; x01; x00; x01; x41])).
Proof.
  assert (Hraw : 4 <= len [x00; x01; x00; x01; x41]) by (vm_compute; discriminate).
  split; [exact Hraw|].
  exact (decode_payload_guard [x00; x01; x00; x01; x41] Hraw).
Defined.

(** C3 at its failing input.  A message built without data cannot be
    packed: the header is computed, with a zero length field, and adding
    [None] to it raises.  [pack_whoami] and [pack_motd_req] therefore never
    return a frame. *)
Theorem pack_without_data_raises :
  pack_whoami = Raise TypeError
  /\ pack_motd_req = Raise TypeError
  /\ _pack_header (mkMessage CODE_WHOAMI None) = Ok [x00; x6e; x00; x00]
  /\ forall c, exists e, pack (mkMessage c None) = Raise e.
Proof.
  split; [reflexivity|]. split; [reflexivity|]. split; [reflexivity|].
  intros c. unfold pack. destruct (_pack_header (mkMessage c None)); cbn; eauto.
Qed.

(** With data present the frame is the header followed by the data, and
    empty data gives the bare header with a zero length field. *)
Lemma pack_layout (c : Z) (d : bytes) :
  0 <= c <= 65535 -> len d <= 65535 ->
  pack (mkMessage c (Some d))
  = Ok ([byte_of_Z (c / 256); byte_of_Z (c mod 256);
         byte_of_Z (len d / 256); byte_of_Z (len d mod 256)] ++ d).
Proof.
  intros Hc Hd. pose proof (len_nonneg d).
  unfold pack, _pack_header, _pack_code, _pack_length, struct_pack_H.
  replace (get_length (mkMessage c (Some d))) with (len d)
    by (unfold get_length; destruct d; reflexivity).
  cbn [code data].
  replace ((0 <=? c) && (c <=? 65535)) with true
    by (symmetry; apply andb_true_intro; split; lia).
  replace ((0 <=? len d) && (len d <=? 65535)) with true
    by (symmetry; apply andb_true_intro; split; lia).
  reflexivity.
Qed.

(** C10.  [decode] is total on frames of at least four bytes: it returns a
    message whose code is the 16-bit value of the first two bytes, and whose
    payload is either absent or the first [L] bytes after the header, cut
    at the end of the frame when the declared length [L] exceeds the bytes
    present. *)
Theorem decode_total (raw : bytes) :
  4 <= len raw ->
  exists m L,
    decode raw = Ok m
    /\ unpack_length raw = Ok L
    /\ 0 <= get_code m <= 65535
    /\ 0 <= L <= 65535
    /\ (get_data m = None
        \/ exists d, get_data m = Some d
                     /\ d = take (Z.to_nat L) (drop 4 raw)
                     /\ len d = Z.min L (len raw - 4)).
Proof.
  intros Hraw. destruct (header_split raw Hraw) as (c1 & c2 & l1 & l2 & rest & ->).
  eexists _, _. split; [apply decode_frame|]. split; [reflexivity|].
  cbn zeta. unfold get_code, get_data. cbn [code data drop].
  pose proof (Z_of_byte_range c1). pose proof (Z_of_byte_range c2).
  pose proof (Z_of_byte_range l1). pose proof (Z_of_byte_range l2).
  split; [lia|]. split; [lia|].
  set (L := 256 * Z_of_byte l1 + Z_of_byte l2) in *.
  rewrite Z.gtb_ltb.
  destruct ((0 <? L) && (L <? 4 + len rest)) eqn:E; [right|left; reflexivity].
  apply andb_prop in E. destruct E as [E1%Z.ltb_lt E2%Z.ltb_lt].
  eexists. split; [reflexivity|]. split; [reflexivity|].
  unfold len. cbn [length]. rewrite length_take. lia.
Qed.

Lemma decode_total_witness :
  4 <= len [x00; x6e; xff; xff; x41]
  /\ exists m L,
       decode [x00; x6e; xff; xff; x41] = Ok m
       /\ unpack_length [x00; x6e; xff; xff; x41] = Ok L
       /\ 0 <= get_code m <= 65535
       /\ 0 <= L <= 65535
       /\ (get_data m = None
           \/ exists d, get_data m = Some d
                        /\ d = take (Z.to_nat L) (drop 4 [x00; x6e; xff; xff; x41])
                        /\ len d = Z.min L (len [x00; x6e; xff; xff; x41] - 4)).
Proof.
  assert (Hraw : 4 <= len [x00; x6e; xff; xff; x41]) by (vm_compute; discriminate).
  split; [exact Hraw|].
  exact (decode_total [x00; x6e; xff; xff; x41] Hraw).
Defined.

(** * Properties of username validation *)

Section ValidationProperties.
Context `{External}.

Lemma str_isalpha_first (c : Z) (rest : str) :
  str_isalpha (take 1 (c :: rest)) = char_isalpha c.
Proof. cbn. apply andb_true_r. Qed.

Lemma re_search_space_spec (s : str) :
  re_search_space s = true <-> exists c, In c s /\ char_isspace c = true.
Proof. unfold re_search_space. apply existsb_exists. Qed.

(** C4, amended.  The four rules are applied in order and the first that
    fails decides: an empty name gives an error; a name of more than twelve
    characters, a first character that is not alphabetic, and a whitespace
    character anywhere give the three texts below, each the text of the
    rule after the words [user names ]; a name that passes all four gives
    no error.  The table of the specification follows. *)
Theorem validate_username_rules (username : str) :
  (len username < 1 -> exists error, validate_username username = Some error)
  /\ (12 < len username ->
      validate_username username
      = Some (lit "user names cannot contain more than twelve characters."))
  /\ (forall c rest, username = c :: rest -> len username <= 12 ->
      char_isalpha c = false ->
      validate_username username
      = Some (lit "user names must begin with alphanumeric characters."))
  /\ (forall c rest, username = c :: rest -> len username <= 12 ->
      char_isalpha c = true ->
      (exists w, In w username /\ char_isspace w = true) ->
      validate_username username
      = Some (lit "user names cannot contain whitespace."))
  /\ (forall c rest, username = c :: rest -> len username <= 12 ->
      char_isalpha c = true ->
      (forall w, In w username -> char_isspace w = false) ->
      validate_username username = None)
  /\ (exists error, validate_username (lit "") = Some error)
  /\ validate_username (lit "aaaaaaaaaaaaa")
     = Some (lit "user names cannot contain more than twelve characters.")
  /\ validate_username (lit "1abc")
     = Some (lit "user names must begin with alphanumeric characters.")
  /\ validate_username (lit "ab cd")
     = Some (lit "user names cannot contain whitespace.")
  /\ validate_username (lit "Alice") = None.
Proof.
  assert (Hlong : forall u : str, 12 < len u -> (len u <? 1) = false /\ (len u >? 12) = true).
  { intros u Hu. rewrite Z.gtb_ltb. split; [apply Z.ltb_ge | apply Z.ltb_lt]; lia. }
  assert (Hmid : forall (c : Z) (rest : str), len (c :: rest) <= 12 ->
            (len (c :: rest) <? 1) = false /\ (len (c :: rest) >? 12) = false).
  { intros c rest Hu. rewrite Z.gtb_ltb.
    split; apply Z.ltb_ge; [unfold len; cbn [length]|]; lia. }
  split; [|split; [|split; [|split; [|split]]]].
  - intros Hlen. unfold validate_username.
    replace (len username <? 1) with true by (symmetry; apply Z.ltb_lt; lia).
    eauto.
  - intros Hlen. unfold validate_username.
    destruct (Hlong _ Hlen) as [-> ->]. reflexivity.
  - intros c rest -> Hlen Hc. unfold validate_username.
    destruct (Hmid _ _ Hlen) as [-> ->].
    rewrite str_isalpha_first, Hc. reflexivity.
  - intros c rest -> Hlen Hc Hw. unfold validate_username.
    destruct (Hmid _ _ Hlen) as [-> ->].
    rewrite str_isalpha_first, Hc. apply re_search_space_spec in Hw.
    rewrite Hw. reflexivity.
  - intros c rest -> Hlen Hc Hw. unfold validate_username.
    destruct (Hmid _ _ Hlen) as [-> ->].
    rewrite str_isalpha_first, Hc.
    destruct (re_search_space (c :: rest)) eqn:E; [|reflexivity].
    apply re_search_space_spec in E. destruct E as (w & Hin & Hsp).
    rewrite (Hw w Hin) in Hsp. discriminate.
  - split; [eexists; reflexivity|]. repeat split; reflexivity.
Qed.

End ValidationProperties.

(** C4, as worded, fails on the empty name: the text returned is not the
    text the specification lists for the first rule. *)
Lemma empty_username_error_text :
  @validate_username latin1 (lit "")
  = Some (lit "user names must contain least one character.")
  /\ @validate_username latin1 (lit "")
     <> Some (lit "must contain at least one character.").
Proof. split; [reflexivity|discriminate]. Qed.

(** * Properties of the registry *)

(** Running a method body: unfold the monad and the primitives that do not
    branch on the registry. *)
Ltac run_method :=
  cbv beta iota zeta delta
    [bind ret lift try_except modify_shared modify_self self_transport
     self_user self_connections logging get_extra_info transport_close
     connections_append states_setitem];
  cbn beta iota zeta delta [self shared user transport].

Ltac run_with H := repeat (progress (run_method; rewrite ?H)).


Lemma delivered_nil (d : bytes) (sh : Shared) : delivered d [] sh = sh.
Proof. destruct sh. unfold delivered. cbn. rewrite app_nil_r. reflexivity. Qed.

Lemma delivered_written (d : bytes) (t : handle) (ts : list handle) (sh : Shared) :
  delivered d ts (written t d sh) = delivered d (t :: ts) sh.
Proof. unfold delivered, written. cbn. rewrite <- app_assoc. reflexivity. Qed.

Lemma broadcast_body_skip (d : bytes) (t : handle) (p : CluckServer) (sh : Shared) :
  is_Some (connection_states sh !! t) -> is_ready sh t = false ->
  broadcast_body d t (mkState p sh) = (Ok tt, mkState p sh).
Proof.
  intros [st Hst] Hr. unfold is_ready in Hr. rewrite Hst in Hr.
  unfold broadcast_body, bind, states_getitem. cbn [shared].
  rewrite Hst, Hr. reflexivity.
Qed.

Lemma broadcast_body_write (d : bytes) (t : handle) (p : CluckServer) (sh : Shared) :
  is_ready sh t = true -> t ∉ faulty sh ->
  broadcast_body d t (mkState p sh) = (Ok tt, mkState p (written t d sh)).
Proof.
  intros Hr Hf. unfold is_ready in Hr.
  destruct (connection_states sh !! t) as [st|] eqn:Hst; [|discriminate].
  unfold broadcast_body, bind, states_getitem, _send_to, transport_write.
  cbn [shared]. rewrite Hst, Hr. cbn [shared].
  destruct (decide (t ∈ faulty sh)); [contradiction|reflexivity].
Qed.

Lemma broadcast_body_raise (d : bytes) (t : handle) (p : CluckServer) (sh : Shared) :
  is_ready sh t = true -> t ∈ faulty sh ->
  broadcast_body d t (mkState p sh) = (Raise TransportError, mkState p sh).
Proof.
  intros Hr Hf. unfold is_ready in Hr.
  destruct (connection_states sh !! t) as [st|] eqn:Hst; [|discriminate].
  unfold broadcast_body, bind, states_getitem, _send_to, transport_write.
  cbn [shared]. rewrite Hst, Hr. cbn [shared].
  destruct (decide (t ∈ faulty sh)); [reflexivity|contradiction].
Qed.

(** The loop over a list of transports none of whose ready members refuses
    the write. *)
Lemma broadcast_loop_ok (d : bytes) (p : CluckServer) (ts : list handle) :
  forall sh,
    (forall t, In t ts -> is_Some (connection_states sh !! t)) ->
    (forall t, In t ts -> is_ready sh t = true -> t ∉ faulty sh) ->
    for_each ts (broadcast_body d) (mkState p sh)
    = (Ok tt, mkState p (delivered d (List.filter (is_ready sh) ts) sh)).
Proof.
  induction ts as [|t ts IH]; intros sh Hst Hok.
  - cbn. rewrite delivered_nil. reflexivity.
  - cbn [for_each List.filter]. unfold bind.
    destruct (is_ready sh t) eqn:Hr.
    + rewrite broadcast_body_write by (auto using in_eq).
      rewrite IH.
      * rewrite delivered_written. reflexivity.
      * intros u Hu. apply (Hst u). right. exact Hu.
      * intros u Hu. apply (Hok u). right. exact Hu.
    + rewrite broadcast_body_skip by (auto using in_eq).
      apply IH; intros u Hu; [apply (Hst u) | apply (Hok u)]; right; exact Hu.
Qed.

(** The loop stops at the first ready transport that refuses the write. *)
Lemma broadcast_loop_raise (d : bytes) (p : CluckServer) (pre : list handle)
    (t : handle) (post : list handle) :
  forall sh,
    (forall u, In u pre -> is_Some (connection_states sh !! u)) ->
    (forall u, In u pre -> is_ready sh u = true -> u ∉ faulty sh) ->
    is_ready sh t = true -> t ∈ faulty sh ->
    for_each (pre ++ t :: post) (broadcast_body d) (mkState p sh)
    = (Raise TransportError,
       mkState p (delivered d (List.filter (is_ready sh) pre) sh)).
Proof.
  induction pre as [|u pre IH]; intros sh Hst Hok Hr Hf.
  - cbn [app for_each List.filter]. unfold bind.
    rewrite broadcast_body_raise by assumption. rewrite delivered_nil. reflexivity.
  - cbn [app for_each List.filter]. unfold bind.
    destruct (is_ready sh u) eqn:Hu.
    + rewrite broadcast_body_write by (auto using in_eq).
      rewrite IH; try assumption.
      * rewrite delivered_written. reflexivity.
      * intros v Hv. apply (Hst v). right. exact Hv.
      * intros v Hv. apply (Hok v). right. exact Hv.
    + rewrite broadcast_body_skip by (auto using in_eq).
      apply IH; try assumption;
        intros v Hv; [apply (Hst v) | apply (Hok v)]; right; exact Hv.
Qed.

Lemma broadcast_unfold (d : bytes) (s : State) :
  _broadcast d s = for_each (connections (shared s)) (broadcast_body d) s.
Proof. reflexivity. Qed.

(** C6, as worded, fails: transports 1 and 2 are both ready and transport 1
    refuses the write; the exception leaves [_broadcast] and nothing is
    written to transport 2. *)
Lemma broadcast_stops_at_refusal :
  is_ready first_refuses 1%nat = true
  /\ is_ready first_refuses 2%nat = true
  /\ _broadcast [x00; x01; x00; x00] (mkState new_server first_refuses)
     = (Raise TransportError, mkState new_server first_refuses)
  /\ wire first_refuses = [].
Proof. repeat split; vm_compute; reflexivity. Qed.

(** C6, amended.  In a registry whose connections all have a state,
    [_broadcast] writes the frame to exactly the connections in state
    [STATE_READY], in the order of the connection list, and to no other,
    provided none of these writes raises.  When the write to a ready
    connection raises, the exception leaves [_broadcast]: the ready
    connections before it in the list have been written to and those after
    it have not. *)
Theorem broadcast_writes_ready (d : bytes) (p : CluckServer) (sh : Shared) :
  (forall t, In t (connections sh) -> is_Some (connection_states sh !! t)) ->
  ((forall t, In t (connections sh) -> is_ready sh t = true -> t ∉ faulty sh) ->
   _broadcast d (mkState p sh)
   = (Ok tt,
      mkState p (delivered d (List.filter (is_ready sh) (connections sh)) sh)))
  /\ (forall pre t post,
        connections sh = pre ++ t :: post ->
        (forall u, In u pre -> is_ready sh u = true -> u ∉ faulty sh) ->
        is_ready sh t = true -> t ∈ faulty sh ->
        _broadcast d (mkState p sh)
        = (Raise TransportError,
           mkState p (delivered d (List.filter (is_ready sh) pre) sh))).
Proof.
  intros Hst. split.
  - intros Hok. rewrite broadcast_unfold. cbn [shared].
    apply broadcast_loop_ok; assumption.
  - intros pre t post Hsplit Hok Hr Hf. rewrite broadcast_unfold. cbn [shared].
    rewrite Hsplit. apply broadcast_loop_raise; try assumption.
    intros u Hu. apply Hst. rewrite Hsplit. apply in_or_app. left. exact Hu.
Qed.

Lemma one_connecting_two_ready_states (t : handle) :
  In t (connections one_connecting_two_ready) ->
  is_Some (connection_states one_connecting_two_ready !! t).
Proof.
  cbn [connections one_connecting_two_ready In].
  intros [<-|[<-|[<-|[]]]]; eexists; vm_compute; reflexivity.
Defined.

Lemma broadcast_writes_ready_witness :
  (forall t, In t (connections one_connecting_two_ready) ->
             is_Some (connection_states one_connecting_two_ready !! t))
  /\ ((forall t, In t (connections one_connecting_two_ready) ->
         is_ready one_connecting_two_ready t = true ->
         t ∉ faulty one_connecting_two_ready) ->
      _broadcast [x00; x01; x00; x00] (mkState new_server one_connecting_two_ready)
      = (Ok tt,
         mkState new_server
           (delivered [x00; x01; x00; x00]
              (List.filter (is_ready one_connecting_two_ready)
                 (connections one_connecting_two_ready))
              one_connecting_two_ready))).
Proof.
  split; [exact one_connecting_two_ready_states|].
  exact (proj1 (broadcast_writes_ready [x00; x01; x00; x00] new_server
                  one_connecting_two_ready one_connecting_two_ready_states)).
Defined.

(** In that registry the two ready transports are written to, in order. *)
Example broadcast_two_of_three :
  List.filter (is_ready one_connecting_two_ready)
    (connections one_connecting_two_ready) = [2%nat; 3%nat].
Proof. vm_compute. reflexivity. Qed.

Lemma list_remove_absent (t : handle) (ts : list handle) :
  ~ In t ts -> list_remove t ts = None.
Proof.
  induction ts as [|u ts IH]; intros Hin; [reflexivity|].
  cbn [list_remove]. destruct (decide (t = u)) as [->|Hne].
  - exfalso. apply Hin. left. reflexivity.
  - rewrite IH; [reflexivity|]. intros Ht. apply Hin. right. exact Ht.
Qed.

Lemma list_remove_present (t : handle) (ts : list handle) :
  In t ts -> exists r, list_remove t ts = Some r.
Proof.
  induction ts as [|u ts IH]; intros Hin; [destruct Hin|].
  cbn [list_remove]. destruct (decide (t = u)) as [->|Hne]; [eauto|].
  destruct Hin as [->|Hin]; [congruence|].
  destruct (IH Hin) as [r ->]. eauto.
Qed.

(** C7, as worded, fails: after one [connection_made] and one
    [connection_lost], which succeeds, a second [connection_lost] on the
    same protocol raises. *)
Lemma second_connection_lost_raises :
  fst (connection_lost once_connected) = Ok tt
  /\ fst (connection_lost once_lost) = Raise ValueError.
Proof. split; vm_compute; reflexivity. Qed.

(** C7, amended.  [connection_lost] on a protocol whose transport is not in
    the connection list, because it was removed already or never added,
    raises [ValueError]; the connection list and the state map are left as
    they were (the transport has been closed and the call logged). *)
Theorem connection_lost_absent (p : CluckServer) (sh : Shared) (t : handle) :
  transport p = Some t -> ~ In t (connections sh) ->
  exists s',
    connection_lost (mkState p sh) = (Raise ValueError, s')
    /\ self s' = p
    /\ connections (shared s') = connections sh
    /\ connection_states (shared s') = connection_states sh
    /\ closed (shared s') = closed sh ++ [t].
Proof.
  intros Ht Hin. eexists.
  unfold connection_lost, connections_remove. run_with Ht.
  change (connections (closing t (logged (Log_connection_lost INFO) sh)))
    with (connections sh).
  rewrite (list_remove_absent t _ Hin).
  split; [reflexivity|]. repeat split; reflexivity.
Qed.

Lemma connection_lost_absent_witness :
  (transport (self once_lost) = Some 7%nat
   /\ ~ In 7%nat (connections (shared once_lost)))
  /\ exists s',
       connection_lost (mkState (self once_lost) (shared once_lost))
       = (Raise ValueError, s')
       /\ self s' = self once_lost
       /\ connections (shared s') = connections (shared once_lost)
       /\ connection_states (shared s') = connection_states (shared once_lost)
       /\ closed (shared s') = closed (shared once_lost) ++ [7%nat].
Proof.
  assert (Ht : transport (self once_lost) = Some 7%nat) by (vm_compute; reflexivity).
  assert (Hin : ~ In 7%nat (connections (shared once_lost))) by (vm_compute; tauto).
  split; [split; assumption|].
  exact (connection_lost_absent (self once_lost) (shared once_lost) 7%nat Ht Hin).
Defined.

(** The first removal: with the transport in the connection list and in
    the state map, [connection_lost] returns and removes it from both. *)
Lemma connection_lost_present (p : CluckServer) (sh : Shared) (t : handle) :
  transport p = Some t -> In t (connections sh) ->
  is_Some (connection_states sh !! t) ->
  exists r s',
    list_remove t (connections sh) = Some r
    /\ connection_lost (mkState p sh) = (Ok tt, s')
    /\ self s' = p
    /\ connections (shared s') = r
    /\ connection_states (shared s') = delete t (connection_states sh).
Proof.
  intros Ht Hin [st Hst]. destruct (list_remove_present t _ Hin) as [r Hr].
  exists r. eexists.
  unfold connection_lost, connections_remove, states_pop. run_with Ht.
  change (connections (closing t (logged (Log_connection_lost INFO) sh)))
    with (connections sh).
  rewrite Hr. run_with Ht.
  change (connection_states
            (with_connections r (closing t (logged (Log_connection_lost INFO) sh))))
    with (connection_states sh).
  rewrite Hst. run_with Ht.
  split; [reflexivity|]. repeat split; reflexivity.
Qed.

(** * The handlers leave the registry alone *)

Lemma same_registry_refl (s : State) : same_registry s s.
Proof. repeat split. Qed.

Lemma same_registry_trans (s1 s2 s3 : State) :
  same_registry s1 s2 -> same_registry s2 s3 -> same_registry s1 s3.
Proof.
  unfold same_registry. intros (A1 & A2 & A3 & A4) (B1 & B2 & B3 & B4).
  repeat split; congruence.
Qed.

Lemma keeps_ret {A} (a : A) : keeps (ret a).
Proof. intros s. apply same_registry_refl. Qed.

Lemma keeps_lift {A} (r : result A) : keeps (lift r).
Proof. intros s. apply same_registry_refl. Qed.

Lemma keeps_bind {A B} (m : M A) (k : A -> M B) :
  keeps m -> (forall a, keeps (k a)) -> keeps (bind m k).
Proof.
  intros Hm Hk s. unfold bind. specialize (Hm s).
  destruct (m s) as [[a|e] s1]; cbn [snd] in *; [|exact Hm].
  eapply same_registry_trans; [exact Hm|]. apply Hk.
Qed.

Lemma keeps_try_except (body : M unit) (handler : exn -> M unit) :
  keeps body -> (forall e, keeps (handler e)) -> keeps (try_except body handler).
Proof.
  intros Hb Hh s. unfold try_except. specialize (Hb s).
  destruct (body s) as [[a|e] s1]; cbn [snd] in *; [exact Hb|].
  eapply same_registry_trans; [exact Hb|]. apply Hh.
Qed.

Lemma keeps_if {A} (b : bool) (m1 m2 : M A) :
  keeps m1 -> keeps m2 -> keeps (if b then m1 else m2).
Proof. destruct b; auto. Qed.

Lemma keeps_self_transport : keeps self_transport.
Proof.
  intros s. unfold self_transport.
  destruct (transport (self s)); apply same_registry_refl.
Qed.

Lemma keeps_self_user : keeps self_user.
Proof. intros s. apply same_registry_refl. Qed.

Lemma keeps_logging (r : log_record) : keeps (logging r).
Proof. intros s. repeat split. Qed.

Lemma keeps_get_extra_info (t : handle) : keeps (get_extra_info t).
Proof. apply keeps_ret. Qed.

Lemma keeps_transport_write (t : handle) (d : bytes) : keeps (transport_write t d).
Proof.
  intros s. unfold transport_write.
  destruct (decide (t ∈ faulty (shared s))); repeat split.
Qed.

Lemma keeps_set_user (u : option str) :
  keeps (modify_self (fun p => mkCluckServer u (transport p))).
Proof. intros s. repeat split. Qed.

Create HintDb keeps.
#[local] Hint Resolve keeps_ret keeps_lift keeps_self_transport keeps_self_user
  keeps_logging keeps_get_extra_info keeps_transport_write keeps_set_user
  : keeps.
#[local] Hint Extern 2 (keeps (bind _ _)) => apply keeps_bind; [|intros ?] : keeps.
#[local] Hint Extern 2 (keeps (try_except _ _)) =>
  apply keeps_try_except; [|intros ?] : keeps.
#[local] Hint Extern 2 (keeps (if _ then _ else _)) => apply keeps_if : keeps.

Lemma keeps_send (d : bytes) : keeps (_send d).
Proof. unfold _send, _send_to. auto with keeps. Qed.

#[local] Hint Resolve keeps_send : keeps.

Section HandlersKeep.
Context `{External}.

Lemma keeps_handle_whoami_request (message : Message) :
  keeps (_handle_whoami_request message).
Proof. unfold _handle_whoami_request. auto 10 with keeps. Qed.

Lemma keeps_handle_register_user (message : Message) :
  keeps (_handle_register_user message).
Proof. unfold _handle_register_user. auto 12 with keeps. Qed.

Lemma keeps_handle_motd_request (message : Message) :
  keeps (_handle_motd_request message).
Proof. unfold _handle_motd_request, get_motd. auto 10 with keeps. Qed.

(** No handler of the recognised set touches the registry. *)
Lemma keeps_protocol_paths (c : Z) (handler : Message -> M unit) (message : Message) :
  _protocol_paths c = Some handler -> keeps (handler message).
Proof.
  unfold _protocol_paths. intros Hh.
  destruct (c =? CODE_MOTD_REQUEST);
    [injection Hh as <-; apply keeps_handle_motd_request|].
  destruct (c =? CODE_REGISTER_USER);
    [injection Hh as <-; apply keeps_handle_register_user|].
  destruct (c =? CODE_WHOAMI);
    [injection Hh as <-; apply keeps_handle_whoami_request|].
  discriminate.
Qed.

Lemma keeps_data_received (d : bytes) : keeps (data_received d).
Proof.
  unfold data_received.
  apply keeps_bind; [auto with keeps|]. intros t.
  apply keeps_bind; [auto with keeps|]. intros _.
  apply keeps_bind; [auto with keeps|]. intros _.
  apply keeps_try_except; [|auto with keeps].
  apply keeps_if; [auto 10 with keeps|].
  apply keeps_bind; [auto with keeps|]. intros message.
  destruct (_protocol_paths (get_code message)) as [handler|] eqn:Hh.
  - eapply keeps_protocol_paths. exact Hh.
  - auto 10 with keeps.
Qed.

End HandlersKeep.

(** * The invariant of the event loop *)

Lemma list_remove_In (t : handle) (ts r : list handle) :
  list_remove t ts = Some r -> List.NoDup ts ->
  List.NoDup r /\ forall u, In u r <-> In u ts /\ u <> t.
Proof.
  revert r. induction ts as [|v ts IH]; intros r Hr Hnd; [discriminate|].
  cbn [list_remove] in Hr. apply List.NoDup_cons_iff in Hnd as [Hv Hnd].
  destruct (decide (t = v)) as [->|Hne].
  - injection Hr as <-. split; [exact Hnd|]. intros u. cbn [In]. split.
    + intros Hu. split; [right; exact Hu|]. intros ->. contradiction.
    + intros [[->|Hu] Hneq]; [congruence|exact Hu].
  - destruct (list_remove t ts) as [r'|] eqn:E; [|discriminate].
    injection Hr as <-. destruct (IH r' eq_refl Hnd) as [Hnd' Hin].
    split.
    + apply List.NoDup_cons_iff. split; [|exact Hnd'].
      intros Hv'. apply Hin in Hv'. tauto.
    + intros u. cbn [In]. rewrite Hin. split.
      * intros [->|[Hu Hneq]]; [split; [left; reflexivity|congruence]|tauto].
      * intros [[->|Hu] Hneq]; [left; reflexivity|right; tauto].
Qed.

Lemma connection_made_new (t : handle) (sh : Shared) :
  connection_made t (mkState new_server sh)
  = (Ok tt,
     mkState (mkCluckServer None (Some t))
       (with_states (<[t := STATE_CONNECTED]> (connection_states sh))
          (with_connections (connections sh ++ [t])
             (logged (Log_connection_made INFO) sh)))).
Proof. reflexivity. Qed.

Lemma start_inv (bad : gset handle) : registry_inv (start bad).
Proof.
  split; cbn [start net protocols connections connection_states].
  - intros t. rewrite lookup_empty. split; [intros []|intros [? ?]; discriminate].
  - apply List.NoDup_nil.
  - intros t [].
  - intros t st. rewrite lookup_empty. discriminate.
  - intros t p. rewrite lookup_empty. discriminate.
Qed.

Section LoopInvariant.
Context `{External}.

Lemma step_inv (w w' : World) (e : event) :
  registry_inv w -> step w e w' -> registry_inv w'.
Proof.
  intros [Hlive Hnd Hconn Hst Htr] Hstep.
  destruct Hstep as [w t r s' Hnew Hrun | w t p d r s' Hp Hrun | w t p r s' Hp Hrun].
  - (* connection_made *)
    rewrite connection_made_new in Hrun. injection Hrun as _ <-.
    assert (Hfresh : ~ In t (connections (net w))).
    { intros Hin. apply Hlive in Hin. rewrite Hnew in Hin. destruct Hin. discriminate. }
    split; cbn [net protocols self shared connections connection_states
                with_states with_connections logged].
    + intros u. rewrite in_app_iff. cbn [In]. rewrite Hlive.
      destruct (decide (t = u)) as [->|Hne].
      * rewrite lookup_insert_eq. split; eauto.
      * rewrite lookup_insert_ne by exact Hne. tauto.
    + apply List.NoDup_app; [exact Hnd| |].
      * apply List.NoDup_cons; [intros []|apply List.NoDup_nil].
      * intros u Hu [->|[]]. contradiction.
    + intros u Hu. destruct (decide (t = u)) as [->|Hne].
      * apply lookup_insert_eq.
      * rewrite lookup_insert_ne by exact Hne. apply Hconn.
        apply in_app_iff in Hu. destruct Hu as [Hu|[Hu|[]]]; [exact Hu|congruence].
    + intros u st. destruct (decide (t = u)) as [->|Hne].
      * rewrite lookup_insert_eq. congruence.
      * rewrite lookup_insert_ne by exact Hne. apply Hst.
    + intros u q. destruct (decide (t = u)) as [->|Hne].
      * rewrite lookup_insert_eq. intros [= <-]. reflexivity.
      * rewrite lookup_insert_ne by exact Hne. apply Htr.
  - (* data_received *)
    pose proof (keeps_data_received d (mkState p (net w))) as Hk.
    rewrite Hrun in Hk. cbn [snd] in Hk.
    destruct Hk as (Kc & Ks & _ & Kt). cbn [self shared] in Kc, Ks, Kt.
    split; cbn [net protocols]; rewrite ?Kc, ?Ks.
    + intros u. rewrite Hlive. destruct (decide (t = u)) as [->|Hne].
      * rewrite lookup_insert_eq, Hp. split; eauto.
      * rewrite lookup_insert_ne by exact Hne. tauto.
    + exact Hnd.
    + exact Hconn.
    + exact Hst.
    + intros u q. destruct (decide (t = u)) as [->|Hne].
      * rewrite lookup_insert_eq. intros [= <-]. rewrite Kt. eapply Htr. exact Hp.
      * rewrite lookup_insert_ne by exact Hne. apply Htr.
  - (* connection_lost *)
    assert (Hin : In t (connections (net w))) by (apply Hlive; eauto).
    destruct (connection_lost_present p (net w) t (Htr t p Hp) Hin)
      as (r0 & s0 & Hr0 & Hrun0 & _ & Hc0 & Hs0).
    { rewrite (Hconn t Hin). eauto. }
    rewrite Hrun in Hrun0. injection Hrun0 as _ ->.
    destruct (list_remove_In t _ _ Hr0 Hnd) as [Hnd' Hin'].
    split; cbn [net protocols]; rewrite ?Hc0, ?Hs0.
    + intros u. rewrite Hin', Hlive. destruct (decide (t = u)) as [->|Hne].
      * rewrite lookup_delete_eq. split; [tauto|intros [? ?]; discriminate].
      * rewrite lookup_delete_ne by exact Hne. split; [tauto|]. intros Hu.
        split; [exact Hu|congruence].
    + exact Hnd'.
    + intros u Hu. apply Hin' in Hu as [Hu Hne].
      rewrite lookup_delete_ne by congruence. apply Hconn. exact Hu.
    + intros u st. destruct (decide (t = u)) as [->|Hne].
      * rewrite lookup_delete_eq. discriminate.
      * rewrite lookup_delete_ne by exact Hne. apply Hst.
    + intros u q. destruct (decide (t = u)) as [->|Hne].
      * rewrite lookup_delete_eq. discriminate.
      * rewrite lookup_delete_ne by exact Hne. apply Htr.
Qed.

Lemma reachable_inv (w : World) : reachable w -> registry_inv w.
Proof.
  induction 1 as [bad | w e w' _ IH Hstep].
  - apply start_inv.
  - eapply step_inv; eassumption.
Qed.

(** C9.  No handler of the recognised set changes the state map, nor does
    [data_received] as a whole.  So, from the start of the server and after
    any sequence of connections, received chunks and disconnections, every
    entry of the state map is [STATE_CONNECTED], every connection of the
    registry has such an entry, and [_broadcast], run by any protocol with
    any frame, returns without a write. *)
Theorem reachable_all_connecting (w : World) :
  reachable w ->
  (forall c handler message s,
      _protocol_paths c = Some handler ->
      connection_states (shared (snd (handler message s)))
      = connection_states (shared s))
  /\ (forall d s,
        connection_states (shared (snd (data_received d s)))
        = connection_states (shared s))
  /\ (forall t st, connection_states (net w) !! t = Some st -> st = STATE_CONNECTED)
  /\ (forall t, In t (connections (net w)) ->
                connection_states (net w) !! t = Some STATE_CONNECTED)
  /\ (forall p d, _broadcast d (mkState p (net w)) = (Ok tt, mkState p (net w))).
Proof.
  intros Hw. apply reachable_inv in Hw. destruct Hw as [_ _ Hconn Hst _].
  split; [|split; [|split; [|split]]].
  - intros c handler message s Hh.
    apply (keeps_protocol_paths c handler message Hh s).
  - intros d s. apply (keeps_data_received d s).
  - exact Hst.
  - exact Hconn.
  - intros p d.
    assert (Hnone : forall t, In t (connections (net w)) -> is_ready (net w) t = false).
    { intros t Ht. unfold is_ready. rewrite (Hconn t Ht). reflexivity. }
    rewrite broadcast_unfold. cbn [shared]. rewrite broadcast_loop_ok.
    + replace (List.filter (is_ready (net w)) (connections (net w))) with (@nil handle).
      * rewrite delivered_nil. reflexivity.
      * symmetry. induction (connections (net w)) as [|t ts IH]; [reflexivity|].
        cbn [List.filter]. rewrite Hnone by (left; reflexivity).
        apply IH; intros u Hu; [apply Hconn|apply Hnone]; right; exact Hu.
    + intros t Ht. rewrite (Hconn t Ht). eauto.
    + intros t Ht Hr. rewrite (Hnone t Ht) in Hr. discriminate.
Qed.

End LoopInvariant.

(** * Properties of the dispatcher *)

Lemma send_ok (d : bytes) (p : CluckServer) (sh : Shared) (t : handle) :
  transport p = Some t -> t ∉ faulty sh ->
  _send d (mkState p sh) = (Ok tt, mkState p (written t d sh)).
Proof.
  intros Ht Hf. unfold _send, _send_to, transport_write. run_with Ht.
  destruct (decide (t ∈ faulty sh)); [contradiction|reflexivity].
Qed.

Section Dispatcher.
Context `{External}.

(** A chunk with a whole header and a recognised code goes to the handler
    of the code, inside the [try]. *)
Lemma data_received_dispatch (d : bytes) (p : CluckServer) (sh : Shared)
    (t : handle) (m : Message) (handler : Message -> M unit) :
  transport p = Some t -> 4 <= len d -> decode d = Ok m ->
  _protocol_paths (get_code m) = Some handler ->
  data_received d (mkState p sh)
  = try_except (handler m) (fun e => logging (Log_exception ERROR e))
      (mkState p (logged (Log_data_received DEBUG d) sh)).
Proof.
  intros Ht Hlen Hdec Hh. unfold data_received.
  replace (len d <? HEADER_SIZE) with false
    by (symmetry; apply Z.ltb_ge; exact Hlen).
  unfold bind at 1. unfold self_transport at 1. cbn [self]. rewrite Ht.
  unfold bind at 1. unfold get_extra_info, ret.
  unfold bind at 1. unfold logging at 1, modify_shared. cbn [self shared].
  unfold try_except. unfold bind at 1. unfold lift at 1. rewrite Hdec, Hh.
  reflexivity.
Qed.

Lemma whoami_anonymous (m : Message) (p : CluckServer) (sh : Shared)
    (t : handle) (frame : bytes) :
  transport p = Some t -> user p = None -> t ∉ faulty sh ->
  pack_cmd_error (lit "user_status: host has no registered users.") = Ok frame ->
  _handle_whoami_request m (mkState p sh) = (Ok tt, mkState p (written t frame sh)).
Proof.
  intros Ht Hu Hf Hframe. unfold _handle_whoami_request.
  unfold bind at 1. unfold self_user. cbn [self]. rewrite Hu. cbn [truthy].
  unfold bind, lift. rewrite Hframe. apply send_ok; assumption.
Qed.

Lemma whoami_registered (m : Message) (p : CluckServer) (sh : Shared)
    (t : handle) (c : Z) (name : str) (frame : bytes) :
  transport p = Some t -> user p = Some (c :: name) -> t ∉ faulty sh ->
  pack_user_status (c :: name) = Ok frame ->
  _handle_whoami_request m (mkState p sh) = (Ok tt, mkState p (written t frame sh)).
Proof.
  intros Ht Hu Hf Hframe. unfold _handle_whoami_request.
  unfold bind at 1. unfold self_user. cbn [self]. rewrite Hu. cbn [truthy].
  change (default [] (Some (c :: name))) with (c :: name).
  unfold bind, lift. rewrite Hframe. apply send_ok; assumption.
Qed.

(** A name that decodes and passes validation is stored and confirmed. *)
Lemma register_valid (m : Message) (p : CluckServer) (sh : Shared) (t : handle)
    (payload : bytes) (name : str) (frame : bytes) :
  transport p = Some t -> t ∉ faulty sh ->
  data m = Some payload -> truthy (Some payload) = true ->
  bytes_decode payload = Ok name ->
  validate_username name = None ->
  pack_cmd_success (lit "register_user_success: " ++ name ++ lit " confirmed.")
  = Ok frame ->
  _handle_register_user m (mkState p sh)
  = (Ok tt,
     mkState (mkCluckServer (Some name) (Some t))
       (written t frame (logged (Log_creating_user INFO name) sh))).
Proof.
  intros Ht Hf Hdata Htruthy Hdec Hval Hframe.
  unfold _handle_register_user, has_data, get_data_ascii.
  rewrite Hdata, Htruthy, Hdec.
  unfold bind at 1. unfold lift at 1. rewrite Hval. cbn [truthy].
  unfold bind at 1. unfold logging, modify_shared. cbn [self shared].
  unfold bind at 1. unfold modify_self. cbn [self shared]. rewrite Ht.
  unfold bind, lift. rewrite Hframe. apply send_ok; [reflexivity|exact Hf].
Qed.

(** A payload that does not decode leaves the handler by the exception:
    [data_received] logs it and writes nothing. *)
Lemma register_undecodable_is_silent (d : bytes) (m : Message) (p : CluckServer)
    (sh : Shared) (t : handle) (payload : bytes) (e : exn) :
  transport p = Some t -> 4 <= len d -> decode d = Ok m ->
  get_code m = CODE_REGISTER_USER ->
  data m = Some payload -> truthy (Some payload) = true ->
  bytes_decode payload = Raise e ->
  data_received d (mkState p sh)
  = (Ok tt,
     mkState p (logged (Log_exception ERROR e)
                  (logged (Log_data_received DEBUG d) sh))).
Proof.
  intros Ht Hlen Hdec Hcode Hdata Htruthy Hraise.
  rewrite (data_received_dispatch d p sh t m _handle_register_user Ht Hlen Hdec)
    by (rewrite Hcode; reflexivity).
  unfold try_except, _handle_register_user, has_data, get_data_ascii.
  rewrite Hdata, Htruthy, Hraise. reflexivity.
Qed.

(** C5.  A protocol with no user answers a [WHOAMI] chunk with the
    [COMMAND_ERROR] frame of the text [user_status: host has no registered
    users.]; a [REGISTER_USER] chunk with payload [Bob] then stores the
    name and is answered with the [COMMAND_SUCCESS] confirmation; and the
    next [WHOAMI] chunk is answered with the [USER_STATUS] frame whose data
    is [Bob]. *)
Theorem whoami_before_and_after_register (p : CluckServer) (sh : Shared)
    (t : handle) (whoami register : bytes) (m : Message) :
  transport p = Some t -> user p = None -> t ∉ faulty sh ->
  4 <= len whoami -> decode whoami = Ok m -> get_code m = CODE_WHOAMI ->
  4 <= len register ->
  decode register = Ok (mkMessage CODE_REGISTER_USER (Some [x42; x6f; x62])) ->
  exists no_user confirmed status error_text s1 s2 s3,
    pack_cmd_error (lit "user_status: host has no registered users.") = Ok no_user
    /\ decode no_user = Ok (mkMessage CODE_COMMAND_ERROR (Some error_text))
    /\ bytes_decode error_text = Ok (lit "user_status: host has no registered users.")
    /\ pack_cmd_success (lit "register_user_success: Bob confirmed.") = Ok confirmed
    /\ pack_user_status (lit "Bob") = Ok status
    /\ decode status = Ok (mkMessage CODE_USER_STATUS (Some [x42; x6f; x62]))
    /\ data_received whoami (mkState p sh) = (Ok tt, s1)
    /\ self s1 = p
    /\ wire (shared s1) = wire sh ++ [(t, no_user)]
    /\ data_received register s1 = (Ok tt, s2)
    /\ user (self s2) = Some (lit "Bob")
    /\ wire (shared s2) = wire (shared s1) ++ [(t, confirmed)]
    /\ data_received whoami s2 = (Ok tt, s3)
    /\ self s3 = self s2
    /\ wire (shared s3) = wire (shared s2) ++ [(t, status)].
Proof.
  intros Ht Hu Hf Hlw Hdw Hcw Hlr Hdr.
  destruct (pack_cmd_error (lit "user_status: host has no registered users."))
    as [no_user|] eqn:Eno; [|vm_compute in Eno; discriminate].
  destruct (pack_cmd_success (lit "register_user_success: Bob confirmed."))
    as [confirmed|] eqn:Econf; [|vm_compute in Econf; discriminate].
  destruct (pack_user_status (lit "Bob"))
    as [status|] eqn:Estat; [|vm_compute in Estat; discriminate].
  exists no_user, confirmed, status. eexists. eexists. eexists. eexists.
  split; [reflexivity|].
  split; [vm_compute in Eno; injection Eno as <-; vm_compute; reflexivity|].
  split; [vm_compute; reflexivity|].
  split; [reflexivity|]. split; [reflexivity|].
  split; [vm_compute in Estat; injection Estat as <-; vm_compute; reflexivity|].
  assert (Hpw : _protocol_paths (get_code m) = Some _handle_whoami_request)
    by (rewrite Hcw; reflexivity).
  split.
  { rewrite (data_received_dispatch whoami p sh t m _ Ht Hlw Hdw Hpw).
    unfold try_except.
    rewrite (whoami_anonymous m p _ t no_user);
      [reflexivity|exact Ht|exact Hu|exact Hf|exact Eno]. }
  split; [reflexivity|]. split; [reflexivity|].
  split.
  { rewrite (data_received_dispatch register p _ t _ _handle_register_user Ht Hlr Hdr)
      by reflexivity.
    unfold try_except.
    rewrite (register_valid _ p _ t [x42; x6f; x62] (lit "Bob") confirmed Ht);
      [reflexivity|exact Hf|reflexivity|reflexivity|reflexivity|reflexivity|exact Econf]. }
  split; [reflexivity|]. split; [reflexivity|].
  split.
  { rewrite (data_received_dispatch whoami _ _ t m _handle_whoami_request);
      [|reflexivity|exact Hlw|exact Hdw|exact Hpw].
    unfold try_except.
    rewrite (whoami_registered m _ _ t 66 (lit "ob") status);
      [reflexivity|reflexivity|reflexivity|exact Hf|exact Estat]. }
  split; reflexivity.
Qed.

End Dispatcher.

Lemma once_connected_healthy : 7%nat ∉ faulty (shared once_connected).
Proof. apply not_elem_of_empty. Defined.

Lemma whoami_before_and_after_register_witness :
  (transport (self once_connected) = Some 7%nat
   /\ user (self once_connected) = None
   /\ (7%nat ∉ faulty (shared once_connected))
   /\ 4 <= len whoami_chunk
   /\ decode whoami_chunk = Ok (mkMessage CODE_WHOAMI None)
   /\ get_code (mkMessage CODE_WHOAMI None) = CODE_WHOAMI
   /\ 4 <= len register_bob_chunk
   /\ decode register_bob_chunk
      = Ok (mkMessage CODE_REGISTER_USER (Some [x42; x6f; x62])))
  /\ exists no_user confirmed status error_text s1 s2 s3,
       pack_cmd_error (lit "user_status: host has no registered users.") = Ok no_user
       /\ decode no_user = Ok (mkMessage CODE_COMMAND_ERROR (Some error_text))
       /\ bytes_decode error_text = Ok (lit "user_status: host has no registered users.")
       /\ pack_cmd_success (lit "register_user_success: Bob confirmed.") = Ok confirmed
       /\ pack_user_status (lit "Bob") = Ok status
       /\ decode status = Ok (mkMessage CODE_USER_STATUS (Some [x42; x6f; x62]))
       /\ @data_received latin1 whoami_chunk
            (mkState (self once_connected) (shared once_connected)) = (Ok tt, s1)
       /\ self s1 = self once_connected
       /\ wire (shared s1) = wire (shared once_connected) ++ [(7%nat, no_user)]
       /\ @data_received latin1 register_bob_chunk s1 = (Ok tt, s2)
       /\ user (self s2) = Some (lit "Bob")
       /\ wire (shared s2) = wire (shared s1) ++ [(7%nat, confirmed)]
       /\ @data_received latin1 whoami_chunk s2 = (Ok tt, s3)
       /\ self s3 = self s2
       /\ wire (shared s3) = wire (shared s2) ++ [(7%nat, status)].
Proof.
  assert (Ht : transport (self once_connected) = Some 7%nat) by reflexivity.
  assert (Hu : user (self once_connected) = None) by reflexivity.
  assert (Hlw : 4 <= len whoami_chunk) by (vm_compute; discriminate).
  assert (Hdw : decode whoami_chunk = Ok (mkMessage CODE_WHOAMI None)) by reflexivity.
  assert (Hcw : get_code (mkMessage CODE_WHOAMI None) = CODE_WHOAMI) by reflexivity.
  assert (Hlr : 4 <= len register_bob_chunk) by (vm_compute; discriminate).
  assert (Hdr : decode register_bob_chunk
                = Ok (mkMessage CODE_REGISTER_USER (Some [x42; x6f; x62])))
    by reflexivity.
  split; [repeat split; try assumption; exact once_connected_healthy|].
  exact (@whoami_before_and_after_register latin1 (self once_connected)
           (shared once_connected) 7%nat whoami_chunk register_bob_chunk
           (mkMessage CODE_WHOAMI None)
           Ht Hu once_connected_healthy Hlw Hdw Hcw Hlr Hdr).
Defined.

(** C8 at its failing input.  The payload 61 c3 a9 of this [REGISTER_USER]
    chunk has bytes above 127, so it is not ASCII; [data.decode()] reads it
    as UTF-8, the name passes validation, it is stored on the protocol and
    the [COMMAND_SUCCESS] confirmation is written to the peer. *)
Theorem register_utf8_name_is_answered `{External} :
  exists confirmed confirmation s',
    existsb (fun b => Z_of_byte b >=? 128) [x61; xc3; xa9] = true
    /\ decode register_utf8_chunk
       = Ok (mkMessage CODE_REGISTER_USER (Some [x61; xc3; xa9]))
    /\ data_received register_utf8_chunk once_connected = (Ok tt, s')
    /\ user (self once_connected) = None
    /\ user (self s') = Some [97; 233]
    /\ wire (shared once_connected) = []
    /\ wire (shared s') = [(7%nat, confirmed)]
    /\ decode confirmed = Ok (mkMessage CODE_COMMAND_SUCCESS (Some confirmation))
    /\ bytes_decode confirmation
       = Ok (lit "register_user_success: " ++ [97; 233] ++ lit " confirmed.").
Proof.
  eexists _, _, _.
  split; [reflexivity|]. split; [reflexivity|].
  split; [vm_compute; reflexivity|].
  split; [reflexivity|]. split; [reflexivity|]. split; [reflexivity|].
  split; [reflexivity|]. split; [vm_compute; reflexivity|].
  vm_compute. reflexivity.
Qed.

(** Bytes below 128 always decode, to themselves. *)
Lemma bytes_decode_ascii (bs : bytes) :
  forallb (fun b => Z_of_byte b <? 128) bs = true ->
  bytes_decode bs = Ok (map Z_of_byte bs).
Proof.
  induction bs as [|b bs IH]; [reflexivity|].
  cbn [forallb]. intros [Hb Hbs]%andb_prop.
  cbn [bytes_decode map]. cbv zeta.
  change 0x80 with 128. rewrite Hb, (IH Hbs). reflexivity.
Qed.

Lemma after_connect_reachable : @reachable latin1 after_connect.
Proof.
  apply (@reachable_step latin1 (start ∅) (Connect 7%nat)).
  - apply reachable_start.
  - exact (@step_connect latin1 (start ∅) 7%nat (Ok tt) once_connected
             eq_refl eq_refl).
Defined.

Lemma reachable_all_connecting_witness :
  @reachable latin1 after_connect
  /\ (forall c handler message s,
        @_protocol_paths latin1 c = Some handler ->
        connection_states (shared (snd (handler message s)))
        = connection_states (shared s))
  /\ (forall d s,
        connection_states (shared (snd (@data_received latin1 d s)))
        = connection_states (shared s))
  /\ (forall t st, connection_states (net after_connect) !! t = Some st ->
                   st = STATE_CONNECTED)
  /\ (forall t, In t (connections (net after_connect)) ->
                connection_states (net after_connect) !! t = Some STATE_CONNECTED)
  /\ (forall p d, _broadcast d (mkState p (net after_connect))
                  = (Ok tt, mkState p (net after_connect))).
Proof.
  split; [exact after_connect_reachable|].
  exact (@reachable_all_connecting latin1 after_connect after_connect_reachable).
Defined.

(** * Further properties of the codec *)

(** X1.  [decode] fails, with the error of [struct], exactly on the chunks that
    are too short to hold a header. *)
Theorem decode_raises_iff_short (raw : bytes) :
  (decode raw = Raise StructError <-> len raw < 4)
  /\ (forall e, decode raw = Raise e -> e = StructError)
  /\ ((exists m, decode raw = Ok m) <-> 4 <= len raw).
Proof.
  destruct raw as [|c1 [|c2 [|l1 [|l2 rest]]]].
  1-4: (split; [split; [intros _; unfold len; cbn [length]; lia|reflexivity]|];
        split; [intros e [= <-]; reflexivity|];
        split; [intros [m Hm]; discriminate|unfold len; cbn [length]; lia]).
  rewrite decode_frame. cbn zeta.
  assert (Hlen : 4 <= len (c1 :: c2 :: l1 :: l2 :: rest))
    by (unfold len; cbn [length]; lia).
  split; [split; [discriminate|lia]|].
  split; [discriminate|]. split; [intros _; exact Hlen|eauto].
Qed.

(** X2.  The outcome of [pack]: a frame of four bytes more than the data when
    the data is present and code and length fit in 16 bits; the error of
    [struct] when the code or the length does not fit, whether the data is
    present or not; a [TypeError] when they fit and the data is absent. *)
Theorem pack_outcome (m : Message) :
  match pack m with
  | Ok raw =>
      exists d, data m = Some d /\ 0 <= code m <= 65535 /\ len d <= 65535
                /\ drop 4 raw = d /\ len raw = 4 + len d
  | Raise e =>
      (e = StructError
       /\ (code m < 0 \/ 65535 < code m \/ 65535 < get_length m))
      \/ (e = TypeError /\ data m = None /\ 0 <= code m <= 65535)
  end.
Proof.
  destruct m as [c [d|]].
  - destruct (Z_le_gt_dec 0 c) as [Hc0|Hc0];
      [destruct (Z_le_gt_dec c 65535) as [Hc1|Hc1]|].
    + destruct (Z_le_gt_dec (len d) 65535) as [Hd|Hd].
      * rewrite pack_layout by (cbn; lia). exists d. cbn [code data].
        split; [reflexivity|]. split; [lia|]. split; [exact Hd|].
        split; [reflexivity|]. unfold len. cbn [length app]. lia.
      * assert (HL : get_length (mkMessage c (Some d)) = len d).
        { unfold get_length. destruct d; [|reflexivity].
          unfold len in Hd. cbn in Hd. lia. }
        unfold pack, _pack_header, _pack_code, _pack_length. rewrite HL.
        cbn [code]. destruct (struct_pack_unpack_H c) as (hi & lo & -> & _); [lia|].
        rewrite (struct_pack_H_out_of_range (len d)) by lia.
        left. cbn [code]. split; [reflexivity|]. lia.
    + unfold pack, _pack_header, _pack_code. cbn [code].
      rewrite struct_pack_H_out_of_range by lia. left. cbn [code]. split; [reflexivity|lia].
    + unfold pack, _pack_header, _pack_code. cbn [code].
      rewrite struct_pack_H_out_of_range by lia. left. cbn [code]. split; [reflexivity|lia].
  - destruct (Z_le_gt_dec 0 c) as [Hc0|Hc0];
      [destruct (Z_le_gt_dec c 65535) as [Hc1|Hc1]|].
    + unfold pack, _pack_header, _pack_code, _pack_length. cbn [code data].
      destruct (struct_pack_unpack_H c) as (hi & lo & -> & _); [lia|].
      cbn. right. split; [reflexivity|]. split; [reflexivity|lia].
    + unfold pack, _pack_header, _pack_code. cbn [code].
      rewrite struct_pack_H_out_of_range by lia. left. cbn [code]. split; [reflexivity|lia].
    + unfold pack, _pack_header, _pack_code. cbn [code].
      rewrite struct_pack_H_out_of_range by lia. left. cbn [code]. split; [reflexivity|lia].
Qed.

(** X3.  [decode] reads one frame from the front of a chunk and ignores what
    follows it: bytes after a packed message do not change the decoded
    code, and a non-empty payload is recovered whole.  After a message with
    empty data the payload is absent whatever follows. *)
Theorem decode_ignores_trailing (c : Z) (d extra : bytes) :
  0 <= c <= 65535 -> len d <= 65535 ->
  exists raw,
    pack (mkMessage c (Some d)) = Ok raw
    /\ decode (raw ++ extra)
       = Ok (mkMessage c (match d with [] => None | _ :: _ => Some d end)).
Proof.
  intros Hc Hd.
  destruct (pack_bytes c d Hc Hd) as (c1 & c2 & l1 & l2 & Hp & Hcode & Hlen).
  eexists. split; [exact Hp|].
  change ((c1 :: c2 :: l1 :: l2 :: d) ++ extra)
    with (c1 :: c2 :: l1 :: l2 :: (d ++ extra)).
  rewrite decode_frame. cbn zeta. rewrite Hcode, Hlen. f_equal. f_equal.
  destruct d as [|b d']; [reflexivity|].
  rewrite Z.gtb_ltb.
  replace ((0 <? len (b :: d')) && (len (b :: d') <? 4 + len ((b :: d') ++ extra)))
    with true.
  - f_equal. unfold len. rewrite Nat2Z.id. apply take_app_length.
  - symmetry. apply andb_true_intro. rewrite len_app.
    pose proof (len_nonneg extra). unfold len. cbn [length].
    split; apply Z.ltb_lt; unfold len in *; lia.
Qed.

Lemma decode_ignores_trailing_witness :
  (0 <= CODE_USER_STATUS <= 65535 /\ len [x5a; x65; x64] <= 65535)
  /\ exists raw,
       pack (mkMessage CODE_USER_STATUS (Some [x5a; x65; x64])) = Ok raw
       /\ decode (raw ++ [x00; x6e; x00; x00])
          = Ok (mkMessage CODE_USER_STATUS (Some [x5a; x65; x64])).
Proof.
  assert (Hc : 0 <= CODE_USER_STATUS <= 65535) by (vm_compute; split; discriminate).
  assert (Hd : len [x5a; x65; x64] <= 65535) by (vm_compute; discriminate).
  split; [split; assumption|].
  exact (decode_ignores_trailing CODE_USER_STATUS [x5a; x65; x64]
           [x00; x6e; x00; x00] Hc Hd).
Defined.

(** * The text codec *)

Ltac arith := Z.div_mod_to_equations; lia.

(** Decide the comparisons of the goal from the arithmetic context. *)
Ltac decide_cmp :=
  repeat match goal with
  | |- context [?a <? ?b] =>
      first [ replace (a <? b) with true by (symmetry; apply Z.ltb_lt; arith)
            | replace (a <? b) with false by (symmetry; apply Z.ltb_ge; arith) ]
  | |- context [?a <=? ?b] =>
      first [ replace (a <=? b) with true by (symmetry; apply Z.leb_le; arith)
            | replace (a <=? b) with false by (symmetry; apply Z.leb_gt; arith) ]
  | |- context [?a =? ?b] => destruct (Z.eqb_spec a b)
  end.

(** Split on the comparisons of a hypothesis. *)
Ltac split_cmp H :=
  repeat match type of H with
  | context [?a =? ?b] => destruct (Z.eqb_spec a b); cbv iota in H
  | context [?a <? ?b] => destruct (Z.ltb_spec a b)
  | context [?a <=? ?b] => destruct (Z.leb_spec a b)
  end.

(** The bytes of one character decode to it, whatever follows. *)
Lemma utf8_char_round_trip (c : Z) (bs rest : bytes) :
  utf8_encode_char c = Ok bs ->
  bytes_decode (bs ++ rest) = push c (bytes_decode rest).
Proof.
  unfold utf8_encode_char. intros Henc.
  split_cmp Henc; cbn [andb] in Henc; try discriminate;
    injection Henc as <-; cbn [app bytes_decode]; cbv zeta; unfold in_range;
    rewrite !Z_of_byte_of_Z by arith; decide_cmp; cbn [andb];
    f_equal; arith.
Qed.

Lemma str_encode_decode (text : str) (bs : bytes) :
  str_encode text = Ok bs -> bytes_decode bs = Ok text.
Proof.
  revert bs. induction text as [|c text IH]; intros bs Henc.
  - injection Henc as <-. reflexivity.
  - cbn [str_encode] in Henc.
    destruct (utf8_encode_char c) as [b|] eqn:Ec; [|discriminate].
    destruct (str_encode text) as [bs'|] eqn:Et; [|discriminate].
    cbn [rbind] in Henc. injection Henc as <-.
    rewrite (utf8_char_round_trip c b bs' Ec), (IH bs' eq_refl). reflexivity.
Qed.

Lemma push_Ok (c : Z) (r : result str) (s : str) :
  push c r = Ok s -> exists s', r = Ok s' /\ s = c :: s'.
Proof.
  destruct r as [s'|e]; cbn; [|discriminate]. intros [= <-]. eauto.
Qed.

Lemma byte_of_Z_eq (z : Z) (b : byte) : z = Z_of_byte b -> byte_of_Z z = b.
Proof. intros ->. apply byte_of_Z_of_byte. Qed.

(** A text that was decoded from bytes encodes to the same bytes. *)
Lemma bytes_decode_encode_bounded (n : nat) :
  forall (bs : bytes) (s : str),
    (length bs <= n)%nat -> bytes_decode bs = Ok s -> str_encode s = Ok bs.
Proof.
  induction n as [|n IH]; intros bs s Hn Hdec.
  - destruct bs; [injection Hdec as <-; reflexivity|cbn in Hn; lia].
  - destruct bs as [|b0 r0]; [injection Hdec as <-; reflexivity|].
    cbn [bytes_decode] in Hdec. cbv zeta in Hdec. cbn [length] in Hn.
    pose proof (Z_of_byte_range b0) as R0.
    destruct (Z.ltb_spec (Z_of_byte b0) 0x80).
    { apply push_Ok in Hdec as (s' & Hs' & ->).
      apply IH in Hs'; [|lia]. cbn [str_encode]. unfold utf8_encode_char.
      decide_cmp. rewrite Hs'. cbn [rbind app].
      rewrite byte_of_Z_of_byte. reflexivity. }
    destruct (Z.ltb_spec (Z_of_byte b0) 0xC2); [discriminate|].
    destruct (Z.ltb_spec (Z_of_byte b0) 0xE0).
    { destruct r0 as [|b1 r1]; [discriminate|].
      pose proof (Z_of_byte_range b1) as R1. unfold in_range in Hdec.
      split_cmp Hdec; cbn [andb] in Hdec; try discriminate.
      apply push_Ok in Hdec as (s' & Hs' & ->).
      apply IH in Hs'; [|cbn [length] in Hn; lia].
      cbn [str_encode]. unfold utf8_encode_char.
      decide_cmp; cbn [andb]. rewrite Hs'. cbn [rbind app].
      repeat f_equal; apply byte_of_Z_eq; arith. }
    destruct (Z.ltb_spec (Z_of_byte b0) 0xF0).
    { destruct r0 as [|b1 [|b2 r2]]; try discriminate.
      pose proof (Z_of_byte_range b1) as R1.
      pose proof (Z_of_byte_range b2) as R2. unfold in_range in Hdec.
      split_cmp Hdec; cbn [andb] in Hdec; try discriminate;
        try (exfalso; congruence);
        apply push_Ok in Hdec as (s' & Hs' & ->);
        (apply IH in Hs'; [|cbn [length] in Hn; lia]);
        cbn [str_encode]; unfold utf8_encode_char;
        destruct (Z.ltb_spec (Z_of_byte b0) 0xED); try lia;
        decide_cmp; cbn [andb]; rewrite Hs'; cbn [rbind app];
        repeat f_equal; apply byte_of_Z_eq; arith. }
    destruct (Z.ltb_spec (Z_of_byte b0) 0xF5); [|discriminate].
    destruct r0 as [|b1 [|b2 [|b3 r3]]]; try discriminate.
    pose proof (Z_of_byte_range b1) as R1.
    pose proof (Z_of_byte_range b2) as R2.
    pose proof (Z_of_byte_range b3) as R3. unfold in_range in Hdec.
    split_cmp Hdec; cbn [andb] in Hdec; try discriminate;
      try (exfalso; congruence);
      apply push_Ok in Hdec as (s' & Hs' & ->);
      (apply IH in Hs'; [|cbn [length] in Hn; lia]);
      cbn [str_encode]; unfold utf8_encode_char;
      decide_cmp; cbn [andb]; rewrite Hs'; cbn [rbind app];
      repeat f_equal; apply byte_of_Z_eq; arith.
Qed.

Lemma bytes_decode_encode (bs : bytes) (s : str) :
  bytes_decode bs = Ok s -> str_encode s = Ok bs.
Proof. apply (bytes_decode_encode_bounded (length bs)). lia. Qed.

Lemma str_encode_app (a b : str) :
  str_encode (a ++ b)
  = (x <- str_encode a ;; y <- str_encode b ;; Ok (x ++ y))%R.
Proof.
  induction a as [|c a IH]; cbn [app str_encode rbind].
  - destruct (str_encode b); reflexivity.
  - rewrite IH. destruct (utf8_encode_char c) as [bc|]; [|reflexivity].
    cbn [rbind]. destruct (str_encode a) as [ba|]; [|reflexivity].
    cbn [rbind]. destruct (str_encode b) as [bb|]; [|reflexivity].
    cbn [rbind]. rewrite app_assoc. reflexivity.
Qed.

(** Every character takes between one and four bytes. *)
Lemma utf8_encode_char_length (c : Z) (bs : bytes) :
  utf8_encode_char c = Ok bs -> 1 <= len bs <= 4.
Proof.
  unfold utf8_encode_char. intros Henc.
  split_cmp Henc; cbn [andb] in Henc; try discriminate;
    injection Henc as <-; unfold len; cbn [length]; lia.
Qed.

Lemma str_encode_length (s : str) (bs : bytes) :
  str_encode s = Ok bs -> len s <= len bs <= 4 * len s.
Proof.
  revert bs. induction s as [|c s IH]; intros bs Henc.
  - injection Henc as <-. unfold len. cbn. lia.
  - cbn [str_encode] in Henc.
    destruct (utf8_encode_char c) as [b|] eqn:Ec; [|discriminate].
    destruct (str_encode s) as [bs'|] eqn:Es; [|discriminate].
    cbn [rbind] in Henc. injection Henc as <-.
    pose proof (utf8_encode_char_length c b Ec). pose proof (IH bs' eq_refl).
    rewrite len_app. unfold len in *. cbn [length]. lia.
Qed.

Lemma ascii_text_app (a b : str) :
  ascii_text (a ++ b) = ascii_text a && ascii_text b.
Proof. unfold ascii_text. apply forallb_app. Qed.

(** An ASCII text encodes, one byte for each character. *)
Lemma str_encode_ascii (s : str) :
  ascii_text s = true -> str_encode s = Ok (map byte_of_Z s).
Proof.
  induction s as [|c s IH]; [reflexivity|].
  cbn [ascii_text forallb]. intros [Hc Hs]%andb_prop.
  apply andb_prop in Hc as [Hc0%Z.leb_le Hc1%Z.ltb_lt].
  cbn [str_encode map]. unfold ascii_text in IH. rewrite (IH Hs).
  unfold utf8_encode_char. decide_cmp. reflexivity.
Qed.

(** [pack] returns only when code and length fit in 16 bits. *)
Lemma pack_Ok_inv (c : Z) (d raw : bytes) :
  pack (mkMessage c (Some d)) = Ok raw -> 0 <= c <= 65535 /\ len d <= 65535.
Proof.
  unfold pack, _pack_header, _pack_code, _pack_length, struct_pack_H.
  replace (get_length (mkMessage c (Some d))) with (len d)
    by (unfold get_length; destruct d; reflexivity).
  cbn [code]. intros Hp.
  destruct ((0 <=? c) && (c <=? 65535)) eqn:Ec; [|discriminate].
  destruct ((0 <=? len d) && (len d <=? 65535)) eqn:Ed; [|discriminate].
  apply andb_prop in Ec as [?%Z.leb_le ?%Z.leb_le].
  apply andb_prop in Ed as [?%Z.leb_le ?%Z.leb_le]. lia.
Qed.

(** A text that packs comes back from the frame, with the code. *)
Lemma pack_with_decode (c : Z) (text : str) (raw : bytes) :
  pack_with c text = Ok raw -> text <> [] ->
  exists d m,
    str_encode text = Ok d /\ decode raw = Ok m /\ get_code m = c
    /\ get_data m = Some d /\ has_data m = true
    /\ get_data_ascii m = Ok text.
Proof.
  intros Hp Hne. unfold pack_with in Hp.
  destruct (str_encode text) as [d|] eqn:Ed; [|discriminate]. cbn [rbind] in Hp.
  destruct (pack_Ok_inv c d raw Hp) as [Hc Hd].
  destruct (pack_bytes c d Hc Hd) as (c1 & c2 & l1 & l2 & Hp' & Hcode & Hlen).
  rewrite Hp in Hp'. injection Hp' as ->.
  assert (Hd1 : 1 <= len d).
  { pose proof (str_encode_length text d Ed). destruct text; [congruence|].
    unfold len in *. cbn [length] in *. lia. }
  exists d. eexists. split; [reflexivity|]. split; [apply decode_frame|].
  cbn zeta. rewrite Hcode, Hlen, Z.gtb_ltb.
  replace ((0 <? len d) && (len d <? 4 + len d)) with true
    by (symmetry; apply andb_true_intro; split; apply Z.ltb_lt; lia).
  assert (Htake : take (Z.to_nat (len d)) d = d)
    by (unfold len; rewrite Nat2Z.id; apply firstn_all).
  rewrite Htake. unfold get_code, get_data, has_data, get_data_ascii.
  cbn [code data]. split; [reflexivity|]. split; [reflexivity|].
  split; [destruct d; [unfold len in Hd1; cbn in Hd1; lia|reflexivity]|].
  apply str_encode_decode. exact Ed.
Qed.

(** When [pack_with] succeeds: the text encodes, in at most 65535 bytes,
    and the code fits in 16 bits. *)
Lemma pack_with_Ok (c : Z) (text : str) (d : bytes) :
  0 <= c <= 65535 -> str_encode text = Ok d -> len d <= 65535 ->
  exists raw, pack_with c text = Ok raw.
Proof.
  intros Hc Ed Hd. unfold pack_with. rewrite Ed. cbn [rbind].
  rewrite pack_layout by assumption. eauto.
Qed.

(** X5.  Text round trip.  Whenever one of the five text helpers returns a
    frame for a non-empty text, [decode] of the frame gives a message with
    the helper's code whose [get_data_ascii] is the text. *)
Theorem packed_text_round_trip (text : str) (raw : bytes) :
  text <> [] ->
  (pack_motd text = Ok raw ->
   exists m, decode raw = Ok m /\ get_code m = CODE_MOTD
             /\ get_data_ascii m = Ok text)
  /\ (pack_cmd_success text = Ok raw ->
      exists m, decode raw = Ok m /\ get_code m = CODE_COMMAND_SUCCESS
                /\ get_data_ascii m = Ok text)
  /\ (pack_cmd_error text = Ok raw ->
      exists m, decode raw = Ok m /\ get_code m = CODE_COMMAND_ERROR
                /\ get_data_ascii m = Ok text)
  /\ (pack_register_user text = Ok raw ->
      exists m, decode raw = Ok m /\ get_code m = CODE_REGISTER_USER
                /\ get_data_ascii m = Ok text)
  /\ (pack_user_status text = Ok raw ->
      exists m, decode raw = Ok m /\ get_code m = CODE_USER_STATUS
                /\ get_data_ascii m = Ok text).
Proof.
  intros Hne.
  assert (Hall : forall c, pack_with c text = Ok raw ->
            exists m, decode raw = Ok m /\ get_code m = c
                      /\ get_data_ascii m = Ok text).
  { intros c Hp.
    destruct (pack_with_decode c text raw Hp Hne) as (d & m & _ & Hm & Hc & _ & _ & Ha).
    eauto. }
  repeat split; apply Hall.
Qed.

Lemma packed_text_round_trip_witness :
  lit "Zed" <> []
  /\ (pack_motd (lit "Zed") = Ok [x00; x65; x00; x03; x5a; x65; x64] ->
      exists m, decode [x00; x65; x00; x03; x5a; x65; x64] = Ok m
                /\ get_code m = CODE_MOTD
                /\ get_data_ascii m = Ok (lit "Zed"))
  /\ (pack_cmd_success (lit "Zed") = Ok [x00; x65; x00; x03; x5a; x65; x64] ->
      exists m, decode [x00; x65; x00; x03; x5a; x65; x64] = Ok m
                /\ get_code m = CODE_COMMAND_SUCCESS
                /\ get_data_ascii m = Ok (lit "Zed"))
  /\ (pack_cmd_error (lit "Zed") = Ok [x00; x65; x00; x03; x5a; x65; x64] ->
      exists m, decode [x00; x65; x00; x03; x5a; x65; x64] = Ok m
                /\ get_code m = CODE_COMMAND_ERROR
                /\ get_data_ascii m = Ok (lit "Zed"))
  /\ (pack_register_user (lit "Zed") = Ok [x00; x65; x00; x03; x5a; x65; x64] ->
      exists m, decode [x00; x65; x00; x03; x5a; x65; x64] = Ok m
                /\ get_code m = CODE_REGISTER_USER
                /\ get_data_ascii m = Ok (lit "Zed"))
  /\ (pack_user_status (lit "Zed") = Ok [x00; x65; x00; x03; x5a; x65; x64] ->
      exists m, decode [x00; x65; x00; x03; x5a; x65; x64] = Ok m
                /\ get_code m = CODE_USER_STATUS
                /\ get_data_ascii m = Ok (lit "Zed")).
Proof.
  assert (Hne : lit "Zed" <> []) by discriminate.
  split; [exact Hne|].
  exact (packed_text_round_trip (lit "Zed") [x00; x65; x00; x03; x5a; x65; x64] Hne).
Defined.

(** * Texts of the replies *)

Lemma repr_byte_ascii (quote : Z) (b : byte) :
  quote = 34 \/ quote = 39 ->
  ascii_text (repr_byte quote b) = true /\ len (repr_byte quote b) <= 4.
Proof.
  intros [-> | ->]; destruct b; split; vm_compute; first [reflexivity|discriminate].
Qed.

Lemma flat_map_repr_ascii (quote : Z) (bs : bytes) :
  quote = 34 \/ quote = 39 ->
  ascii_text (flat_map (repr_byte quote) bs) = true
  /\ len (flat_map (repr_byte quote) bs) <= 4 * len bs.
Proof.
  intros Hq. induction bs as [|b bs [IHa IHl]].
  - split; [reflexivity|unfold len; cbn; lia].
  - cbn [flat_map]. destruct (repr_byte_ascii quote b Hq) as [Ha Hl].
    rewrite ascii_text_app, Ha, IHa, len_app.
    split; [reflexivity|]. unfold len in *. cbn [length]. lia.
Qed.

(** The [repr] of a [bytes] object is an ASCII text of at most four
    characters for each byte, and three more. *)
Lemma bytes_repr_ascii (bs : bytes) :
  ascii_text (bytes_repr bs) = true /\ 3 <= len (bytes_repr bs) <= 3 + 4 * len bs.
Proof.
  unfold bytes_repr. cbv zeta.
  match goal with
  | |- context [if ?b then 34 else 39] =>
      set (quote := if b then 34 else 39);
      assert (Hq : quote = 34 \/ quote = 39) by (subst quote; destruct b; auto)
  end.
  destruct (flat_map_repr_ascii quote bs Hq) as [Ha Hl].
  pose proof (len_nonneg (flat_map (repr_byte quote) bs)).
  rewrite !ascii_text_app, Ha, !len_app.
  split.
  - destruct Hq as [-> | ->]; reflexivity.
  - unfold len in *. cbn [length]. lia.
Qed.

Lemma digits_ascii (d : Decimal.uint) :
  ascii_text (lit (NilEmpty.string_of_uint d)) = true
  /\ length (lit (NilEmpty.string_of_uint d)) = Decimal.nb_digits d.
Proof.
  induction d as [|d [IHa IHl]|d [IHa IHl]|d [IHa IHl]|d [IHa IHl]|d [IHa IHl]
                  |d [IHa IHl]|d [IHa IHl]|d [IHa IHl]|d [IHa IHl]|d [IHa IHl]];
    [split; reflexivity|..];
    cbn [NilEmpty.string_of_uint lit Decimal.nb_digits length];
    (split; [|rewrite IHl; reflexivity]);
    unfold ascii_text in *; cbn [forallb]; rewrite IHa; reflexivity.
Qed.

Lemma little_double_digits (d : Decimal.uint) :
  (Decimal.nb_digits (Decimal.Little.double d) <= S (Decimal.nb_digits d))%nat
  /\ (Decimal.nb_digits (Decimal.Little.succ_double d) <= S (Decimal.nb_digits d))%nat.
Proof.
  induction d as [|d [IH1 IH2]|d [IH1 IH2]|d [IH1 IH2]|d [IH1 IH2]|d [IH1 IH2]
                  |d [IH1 IH2]|d [IH1 IH2]|d [IH1 IH2]|d [IH1 IH2]|d [IH1 IH2]];
    cbn [Decimal.Little.double Decimal.Little.succ_double Decimal.nb_digits];
    split; lia.
Qed.

Lemma to_little_uint_digits (p : positive) :
  (Decimal.nb_digits (Pos.to_little_uint p) <= Pos.size_nat p)%nat.
Proof.
  induction p as [p IH|p IH|]; cbn [Pos.to_little_uint Pos.size_nat].
  - pose proof (proj2 (little_double_digits (Pos.to_little_uint p))). lia.
  - pose proof (proj1 (little_double_digits (Pos.to_little_uint p))). lia.
  - cbn. lia.
Qed.

(** The decimal text of a 16-bit code is an ASCII text of at most
    seventeen characters. *)
Lemma int_str_ascii (n : Z) :
  0 <= n <= 65535 ->
  ascii_text (int_str n) = true /\ 1 <= len (int_str n) <= 17.
Proof.
  intros Hn. destruct n as [|p|p];
    [split; [reflexivity|vm_compute; split; discriminate]| |lia].
  unfold int_str. cbn [Z.to_int NilZero.string_of_int].
  unfold NilZero.string_of_uint.
  pose proof (DecimalPos.Unsigned.to_uint_nonnil p) as Hnil.
  destruct (digits_ascii (Pos.to_uint p)) as [Ha Hl].
  assert (Hd : (Decimal.nb_digits (Pos.to_uint p) <= 17)%nat).
  { unfold Pos.to_uint. rewrite DecimalFacts.nb_digits_rev.
    pose proof (to_little_uint_digits p).
    assert (Hs : (Pos.size_nat p <= Pos.size_nat 65536)%nat)
      by (apply Pos.size_nat_monotone; lia).
    change (Pos.size_nat 65536) with 17%nat in Hs. lia. }
  destruct (Pos.to_uint p) eqn:Eu; try congruence;
    (split; [exact Ha|unfold len; rewrite Hl; cbn [Decimal.nb_digits] in *; lia]).
Qed.

(** * Further properties of username validation *)

Section ValidationMore.
Context `{External}.

(** An error of [validate_username] is one of the four texts. *)
Lemma validate_username_errors (username error : str) :
  validate_username username = Some error ->
  In error [lit "user names must contain least one character.";
            lit "user names cannot contain more than twelve characters.";
            lit "user names must begin with alphanumeric characters.";
            lit "user names cannot contain whitespace."].
Proof.
  unfold validate_username. cbn [In].
  destruct (len username <? 1); [intros [= <-]; auto|].
  destruct (len username >? 12); [intros [= <-]; auto|].
  destruct (negb (str_isalpha (take 1 username))); [intros [= <-]; auto|].
  destruct (re_search_space username); [intros [= <-]; auto 6|discriminate].
Qed.

(** X6.  The names that pass are exactly those of one to twelve characters that
    begin with an alphabetic character and have no whitespace; and the
    truth test that [_handle_register_user] applies to the result tells an
    error from a pass, since no error text is empty. *)
Theorem validate_username_accepts_iff (username : str) :
  (validate_username username = None
   <-> 1 <= len username <= 12
       /\ (exists c rest, username = c :: rest /\ char_isalpha c = true)
       /\ (forall w, In w username -> char_isspace w = false))
  /\ (truthy (validate_username username) = false
      <-> validate_username username = None).
Proof.
  split.
  - unfold validate_username. rewrite Z.gtb_ltb.
    destruct (Z.ltb_spec (len username) 1) as [H1|H1].
    { split; [discriminate|]. intros [Hlen _]. lia. }
    destruct (Z.ltb_spec 12 (len username)) as [H12|H12].
    { split; [discriminate|]. intros [Hlen _]. lia. }
    destruct username as [|c rest]; [unfold len in H1; cbn in H1; lia|].
    rewrite str_isalpha_first.
    destruct (char_isalpha c) eqn:Hc; cbn [negb].
    + destruct (re_search_space (c :: rest)) eqn:Hs.
      * split; [discriminate|]. intros (_ & _ & Hw).
        apply re_search_space_spec in Hs as (w & Hin & Hsp).
        rewrite (Hw w Hin) in Hsp. discriminate.
      * split; [|reflexivity]. intros _. split; [lia|]. split; [eauto|].
        intros w Hin. destruct (char_isspace w) eqn:Hsp; [|reflexivity].
        assert (Hex : re_search_space (c :: rest) = true)
          by (apply re_search_space_spec; eauto).
        congruence.
    + split; [discriminate|]. intros (_ & (c' & rest' & [= <- <-] & Hc') & _).
      congruence.
  - destruct (validate_username username) as [error|] eqn:Hv; [|split; reflexivity].
    apply validate_username_errors in Hv. cbn [In] in Hv.
    split; [|discriminate].
    destruct Hv as [<-|[<-|[<-|[<-|[]]]]]; discriminate.
Qed.

Lemma validate_username_None_len (username : str) :
  validate_username username = None -> 1 <= len username <= 12.
Proof.
  unfold validate_username. rewrite Z.gtb_ltb.
  destruct (Z.ltb_spec (len username) 1); [discriminate|].
  destruct (Z.ltb_spec 12 (len username)); [discriminate|]. lia.
Qed.

End ValidationMore.

(** * Further properties of the dispatcher *)

(** A text that encodes in at most 65535 bytes makes a frame that decodes
    to it. *)
Lemma reply_frame (c : Z) (text : str) (d : bytes) :
  0 <= c <= 65535 -> str_encode text = Ok d -> text <> [] -> len d <= 65535 ->
  exists frame m,
    pack_with c text = Ok frame /\ decode frame = Ok m /\ get_code m = c
    /\ get_data_ascii m = Ok text.
Proof.
  intros Hc Ed Hne Hd.
  destruct (pack_with_Ok c text d Hc Ed Hd) as [frame Hp].
  destruct (pack_with_decode c text frame Hp Hne) as (d' & m & _ & Hm & Hcm & _ & _ & Ha).
  eauto 6.
Qed.

Lemma ascii_reply_frame (c : Z) (text : str) :
  0 <= c <= 65535 -> ascii_text text = true -> 1 <= len text <= 65535 ->
  exists frame m,
    pack_with c text = Ok frame /\ decode frame = Ok m /\ get_code m = c
    /\ get_data_ascii m = Ok text.
Proof.
  intros Hc Ha Hl. apply (reply_frame c text (map byte_of_Z text) Hc).
  - apply str_encode_ascii. exact Ha.
  - intros ->. unfold len in Hl. cbn in Hl. lia.
  - unfold len in *. rewrite length_map. lia.
Qed.

Lemma decode_code_range (d : bytes) (m : Message) :
  4 <= len d -> decode d = Ok m -> 0 <= get_code m <= 65535.
Proof.
  intros Hlen Hdec.
  destruct (header_split d Hlen) as (c1 & c2 & l1 & l2 & rest & ->).
  rewrite decode_frame in Hdec. injection Hdec as <-.
  unfold get_code. cbn [code].
  pose proof (Z_of_byte_range c1). pose proof (Z_of_byte_range c2). lia.
Qed.

Section DispatcherMore.
Context `{External}.

(** A chunk shorter than a header. *)
Lemma data_received_short (d : bytes) (p : CluckServer) (sh : Shared)
    (t : handle) (frame : bytes) :
  transport p = Some t -> t ∉ faulty sh -> len d < 4 ->
  pack_cmd_error (lit "malformed_packet_error: incomplete header, " ++ bytes_repr d)
  = Ok frame ->
  data_received d (mkState p sh)
  = (Ok tt,
     mkState p (written t frame
                  (logged (Log_bad_header WARNING d)
                     (logged (Log_data_received DEBUG d) sh)))).
Proof.
  intros Ht Hf Hlen Hframe. unfold data_received.
  replace (len d <? HEADER_SIZE) with true
    by (symmetry; apply Z.ltb_lt; exact Hlen).
  unfold bind at 1. unfold self_transport at 1. cbn [self]. rewrite Ht.
  unfold bind at 1. unfold get_extra_info, ret.
  unfold bind at 1. unfold logging at 1, modify_shared. cbn [self shared].
  unfold try_except. unfold bind at 1. unfold logging at 1, modify_shared.
  cbn [self shared]. unfold bind, lift. rewrite Hframe.
  rewrite (send_ok _ _ _ t) by assumption. reflexivity.
Qed.

(** A chunk with a whole header and a code outside the recognised set. *)
Lemma data_received_unknown (d : bytes) (p : CluckServer) (sh : Shared)
    (t : handle) (m : Message) (frame : bytes) :
  transport p = Some t -> t ∉ faulty sh -> 4 <= len d -> decode d = Ok m ->
  _protocol_paths (get_code m) = None ->
  pack_cmd_error (lit "malformed_packet_error: bad message code ("
                  ++ int_str (get_code m) ++ lit ")") = Ok frame ->
  data_received d (mkState p sh)
  = (Ok tt,
     mkState p (written t frame
                  (logged (Log_bad_code WARNING (get_code m))
                     (logged (Log_data_received DEBUG d) sh)))).
Proof.
  intros Ht Hf Hlen Hdec Hnone Hframe. unfold data_received.
  replace (len d <? HEADER_SIZE) with false
    by (symmetry; apply Z.ltb_ge; exact Hlen).
  unfold bind at 1. unfold self_transport at 1. cbn [self]. rewrite Ht.
  unfold bind at 1. unfold get_extra_info, ret.
  unfold bind at 1. unfold logging at 1, modify_shared. cbn [self shared].
  unfold try_except. unfold bind at 1. unfold lift at 1. rewrite Hdec, Hnone.
  unfold bind at 1. unfold logging at 1, modify_shared. cbn [self shared].
  unfold bind, lift. rewrite Hframe.
  rewrite (send_ok _ _ _ t) by assumption. reflexivity.
Qed.

(** X7.  A chunk of fewer than four bytes is answered with one [COMMAND_ERROR]
    frame whose text is [malformed_packet_error: incomplete header, ]
    followed by the [repr] of the chunk; the protocol is unchanged. *)
Theorem short_chunk_is_refused (d : bytes) (p : CluckServer) (sh : Shared)
    (t : handle) :
  transport p = Some t -> t ∉ faulty sh -> len d < 4 ->
  exists frame m,
    pack_cmd_error (lit "malformed_packet_error: incomplete header, "
                    ++ bytes_repr d) = Ok frame
    /\ decode frame = Ok m
    /\ get_code m = CODE_COMMAND_ERROR
    /\ get_data_ascii m
       = Ok (lit "malformed_packet_error: incomplete header, " ++ bytes_repr d)
    /\ data_received d (mkState p sh)
       = (Ok tt,
          mkState p (written t frame
                       (logged (Log_bad_header WARNING d)
                          (logged (Log_data_received DEBUG d) sh)))).
Proof.
  intros Ht Hf Hlen.
  destruct (bytes_repr_ascii d) as [Ha Hl]. pose proof (len_nonneg d).
  destruct (ascii_reply_frame CODE_COMMAND_ERROR
              (lit "malformed_packet_error: incomplete header, " ++ bytes_repr d))
    as (frame & m & Hp & Hm & Hc & Hd).
  - vm_compute. split; discriminate.
  - rewrite ascii_text_app, Ha. reflexivity.
  - rewrite len_app.
    change (len (lit "malformed_packet_error: incomplete header, ")) with 43. lia.
  - exists frame, m. split; [exact Hp|]. split; [exact Hm|]. split; [exact Hc|].
    split; [exact Hd|]. apply data_received_short; assumption.
Qed.

(** X8.  A chunk with a whole header whose code is not one of [MOTD_REQUEST],
    [REGISTER_USER], [WHOAMI] is answered with one [COMMAND_ERROR] frame
    whose text names the code in decimal; no handler runs and the protocol
    is unchanged. *)
Theorem unknown_code_is_refused (d : bytes) (p : CluckServer) (sh : Shared)
    (t : handle) (m : Message) :
  transport p = Some t -> t ∉ faulty sh -> 4 <= len d -> decode d = Ok m ->
  get_code m <> CODE_MOTD_REQUEST -> get_code m <> CODE_REGISTER_USER ->
  get_code m <> CODE_WHOAMI ->
  exists frame r,
    pack_cmd_error (lit "malformed_packet_error: bad message code ("
                    ++ int_str (get_code m) ++ lit ")") = Ok frame
    /\ decode frame = Ok r
    /\ get_code r = CODE_COMMAND_ERROR
    /\ get_data_ascii r
       = Ok (lit "malformed_packet_error: bad message code ("
             ++ int_str (get_code m) ++ lit ")")
    /\ data_received d (mkState p sh)
       = (Ok tt,
          mkState p (written t frame
                       (logged (Log_bad_code WARNING (get_code m))
                          (logged (Log_data_received DEBUG d) sh)))).
Proof.
  intros Ht Hf Hlen Hdec H2 H100 H110.
  pose proof (decode_code_range d m Hlen Hdec) as Hrange.
  destruct (int_str_ascii (get_code m) Hrange) as [Ha Hl].
  destruct (ascii_reply_frame CODE_COMMAND_ERROR
              (lit "malformed_packet_error: bad message code ("
               ++ int_str (get_code m) ++ lit ")"))
    as (frame & r & Hp & Hr & Hc & Hd).
  - vm_compute. split; discriminate.
  - rewrite !ascii_text_app, Ha. reflexivity.
  - rewrite !len_app.
    change (len (lit "malformed_packet_error: bad message code (")) with 42.
    change (len (lit ")")) with 1. lia.
  - exists frame, r. split; [exact Hp|]. split; [exact Hr|]. split; [exact Hc|].
    split; [exact Hd|]. apply data_received_unknown; try assumption.
    unfold _protocol_paths.
    rewrite (proj2 (Z.eqb_neq _ _) H2), (proj2 (Z.eqb_neq _ _) H100),
      (proj2 (Z.eqb_neq _ _) H110). reflexivity.
Qed.

End DispatcherMore.

(** * What a received chunk can do *)

Lemma reply_run (r : result bytes) (p : CluckServer) (sh : Shared) (t : handle) :
  transport p = Some t ->
  bind (lift r) _send (mkState p sh) = reply r p sh t.
Proof.
  intros Ht. unfold bind, lift, reply. destruct r as [frame|e]; [|reflexivity].
  unfold _send, _send_to, transport_write, bind, self_transport.
  cbn [self shared]. rewrite Ht. cbn [self shared].
  destruct (decide (t ∈ faulty sh)); reflexivity.
Qed.

Lemma reply_contained (c : Z) (text : str) (p : CluckServer) (sh : Shared)
    (t : handle) :
  transport p = Some t -> In c response_codes ->
  contained t sh (snd (reply (pack_with c text) p sh t)).
Proof.
  intros Ht Hc. unfold reply, contained.
  destruct (pack_with c text) as [frame|e] eqn:Hp; cbn [snd self shared].
  - destruct (decide (t ∈ faulty sh)) as [Hf|Hf]; cbn [snd self shared];
      repeat (split; [first [exact Ht|reflexivity]|]).
    + left. reflexivity.
    + right. split; [exact Hf|]. exists c, text, frame. auto.
  - repeat (split; [first [exact Ht|reflexivity]|]). left. reflexivity.
Qed.

(** The fields that [contained] reads are not the log. *)
Lemma contained_logged (t : handle) (r : log_record) (sh : Shared) (s' : State) :
  contained t (logged r sh) s' -> contained t sh s'.
Proof. intros Hc. exact Hc. Qed.

Lemma contained_log_after (t : handle) (r : log_record) (sh : Shared) (s' : State) :
  contained t sh s' ->
  contained t sh (mkState (self s') (logged r (shared s'))).
Proof. intros Hc. exact Hc. Qed.

Lemma contained_idle (t : handle) (p : CluckServer) (sh : Shared) :
  transport p = Some t -> contained t sh (mkState p sh).
Proof.
  intros Ht. unfold contained. cbn [self shared].
  repeat (split; [first [exact Ht|reflexivity]|]). left. reflexivity.
Qed.

Section Contained.
Context `{External}.

Lemma whoami_run (m : Message) (p : CluckServer) (sh : Shared) (t : handle) :
  transport p = Some t ->
  _handle_whoami_request m (mkState p sh)
  = reply (if truthy (user p) then pack_user_status (default [] (user p))
           else pack_cmd_error (lit "user_status: host has no registered users."))
      p sh t.
Proof.
  intros Ht. unfold _handle_whoami_request.
  unfold bind at 1. unfold self_user. cbn [self].
  destruct (truthy (user p)); apply reply_run; exact Ht.
Qed.

Lemma motd_run (m : Message) (p : CluckServer) (sh : Shared) (t : handle) :
  transport p = Some t ->
  _handle_motd_request m (mkState p sh)
  = reply (pack_motd (renderText (lit "Cluck!"))) p sh t.
Proof.
  intros Ht. unfold _handle_motd_request, get_motd.
  unfold bind at 1. unfold ret. apply reply_run. exact Ht.
Qed.

Lemma register_run (m : Message) (p : CluckServer) (sh : Shared) (t : handle) :
  transport p = Some t ->
  _handle_register_user m (mkState p sh)
  = match requested_name m with
    | Raise e => (Raise e, mkState p sh)
    | Ok name =>
        match validate_username name with
        | Some error =>
            reply (pack_cmd_error (lit "register_user_error: " ++ error)) p
              (logged (Log_register_error DEBUG error) sh) t
        | None =>
            reply (pack_cmd_success
                     (lit "register_user_success: " ++ name ++ lit " confirmed."))
              (mkCluckServer (Some name) (Some t))
              (logged (Log_creating_user INFO name) sh) t
        end
    end.
Proof.
  intros Ht. unfold _handle_register_user, requested_name.
  unfold bind at 1.
  assert (Hname : (if has_data m then lift (get_data_ascii m) else ret [])
                    (mkState p sh)
                  = ((if has_data m then get_data_ascii m else Ok []), mkState p sh))
    by (destruct (has_data m); reflexivity).
  rewrite Hname. destruct (if has_data m then get_data_ascii m else Ok [])
    as [name|e]; [|reflexivity].
  destruct (validate_username name) as [error|] eqn:Hv.
  - pose proof (validate_username_errors name error Hv) as Hin. cbn [In] in Hin.
    assert (Htr : truthy (Some error) = true)
      by (destruct Hin as [<-|[<-|[<-|[<-|[]]]]]; reflexivity).
    rewrite Htr. change (default [] (Some error)) with error.
    unfold bind at 1. unfold logging, modify_shared. cbn [self shared].
    apply reply_run. exact Ht.
  - cbn [truthy]. unfold bind at 1. unfold logging, modify_shared.
    cbn [self shared]. unfold bind at 1. unfold modify_self. cbn [self shared].
    rewrite Ht. apply reply_run. reflexivity.
Qed.

End Contained.

Lemma reply_self (r : result bytes) (p : CluckServer) (sh : Shared) (t : handle) :
  self (snd (reply r p sh t)) = p.
Proof.
  unfold reply. destruct r; [|reflexivity].
  destruct (decide (t ∈ faulty sh)); reflexivity.
Qed.

(** The [except] clause of [data_received] turns every outcome of the body
    into a return, and adds to the log only. *)
Lemma caught_contained (t : handle) (sh : Shared) (o : result unit * State) :
  contained t sh (snd o) ->
  exists s',
    (let (r, s1) := o in
     match r with
     | Ok a => (Ok a, s1)
     | Raise e => logging (Log_exception ERROR e) s1
     end) = (Ok tt, s')
    /\ contained t sh s' /\ self s' = self (snd o).
Proof.
  destruct o as [[[]|e] s1]; cbn [snd]; intros Hc.
  - exists s1. auto.
  - eexists. split; [reflexivity|]. split; [|reflexivity].
    apply contained_log_after. exact Hc.
Qed.

Section ContainedChunk.
Context `{External}.

(** The body of the [try] in [data_received], run on a connected
    protocol. *)
Lemma body_contained (d : bytes) (p : CluckServer) (sh : Shared) (t : handle) :
  transport p = Some t ->
  exists o,
    (if len d <? HEADER_SIZE then
       (logging (Log_bad_header WARNING d) ;;
        frame <- lift (pack_cmd_error
                         (lit "malformed_packet_error: incomplete header, "
                          ++ bytes_repr d)) ;;
        _send frame)%M
     else
       (message <- lift (decode d) ;;
        match _protocol_paths (get_code message) with
        | Some handler => handler message
        | None =>
            logging (Log_bad_code WARNING (get_code message)) ;;
            frame <- lift (pack_cmd_error
                             (lit "malformed_packet_error: bad message code ("
                              ++ int_str (get_code message) ++ lit ")")) ;;
            _send frame
        end)%M) (mkState p sh) = o
    /\ contained t sh (snd o) /\ user_effect d p (snd o).
Proof.
  intros Ht.
  destruct (len d <? HEADER_SIZE).
  - unfold bind at 1. unfold logging, modify_shared. cbn [self shared].
    rewrite (reply_run _ _ _ t) by exact Ht.
    eexists. split; [reflexivity|]. split.
    + apply (contained_logged t (Log_bad_header WARNING d)).
      apply (reply_contained CODE_COMMAND_ERROR); [exact Ht|cbn; tauto].
    + left. rewrite reply_self. reflexivity.
  - unfold bind at 1. unfold lift at 1.
    destruct (decode d) as [m|e] eqn:Hdec.
    2: { eexists. split; [reflexivity|]. cbn [snd].
         split; [apply contained_idle; exact Ht|left; reflexivity]. }
    unfold _protocol_paths.
    destruct (get_code m =? CODE_MOTD_REQUEST).
    { rewrite (motd_run m p sh t Ht). eexists. split; [reflexivity|]. split.
      - apply (reply_contained CODE_MOTD); [exact Ht|cbn; tauto].
      - left. rewrite reply_self. reflexivity. }
    destruct (Z.eqb_spec (get_code m) CODE_REGISTER_USER) as [Hcode|_].
    { rewrite (register_run m p sh t Ht).
      destruct (requested_name m) as [name|e] eqn:Hname.
      2: { eexists. split; [reflexivity|]. cbn [snd].
           split; [apply contained_idle; exact Ht|left; reflexivity]. }
      destruct (validate_username name) as [error|] eqn:Hv;
        (eexists; split; [reflexivity|]; split).
      - apply (contained_logged t (Log_register_error DEBUG error)).
        apply (reply_contained CODE_COMMAND_ERROR); [exact Ht|cbn; tauto].
      - left. rewrite reply_self. reflexivity.
      - apply (contained_logged t (Log_creating_user INFO name)).
        apply (reply_contained CODE_COMMAND_SUCCESS); [reflexivity|cbn; tauto].
      - right. exists m, name. rewrite reply_self. auto. }
    destruct (get_code m =? CODE_WHOAMI).
    { rewrite (whoami_run m p sh t Ht). eexists. split; [reflexivity|]. split.
      - destruct (truthy (user p)).
        + apply (reply_contained CODE_USER_STATUS); [exact Ht|cbn; tauto].
        + apply (reply_contained CODE_COMMAND_ERROR); [exact Ht|cbn; tauto].
      - left. rewrite reply_self. reflexivity. }
    unfold bind at 1. unfold logging, modify_shared. cbn [self shared].
    rewrite (reply_run _ _ _ t) by exact Ht.
    eexists. split; [reflexivity|]. split.
    + apply (contained_logged t (Log_bad_code WARNING (get_code m))).
      apply (reply_contained CODE_COMMAND_ERROR); [exact Ht|cbn; tauto].
    + left. rewrite reply_self. reflexivity.
Qed.

(** [data_received] on a connected protocol. *)
Lemma data_received_effects (d : bytes) (p : CluckServer) (sh : Shared) (t : handle) :
  transport p = Some t ->
  exists s',
    data_received d (mkState p sh) = (Ok tt, s')
    /\ contained t sh s' /\ user_effect d p s'.
Proof.
  intros Ht.
  destruct (body_contained d p (logged (Log_data_received DEBUG d) sh) t Ht)
    as (o & Ho & Hc & Hu).
  destruct (caught_contained t sh o Hc) as (s' & Hs' & Hc' & Hself).
  exists s'. split; [|split; [exact Hc'|]].
  - unfold data_received.
    unfold bind at 1. unfold self_transport at 1. cbn [self]. rewrite Ht.
    unfold bind at 1. unfold get_extra_info, ret.
    unfold bind at 1. unfold logging at 1, modify_shared. cbn [self shared].
    unfold try_except. rewrite Ho. exact Hs'.
  - unfold user_effect in *. rewrite Hself. exact Hu.
Qed.

End ContainedChunk.

(** A frame made by [pack_with] decodes, to a message with its code. *)
Lemma pack_with_code (c : Z) (text : str) (frame : bytes) :
  pack_with c text = Ok frame ->
  exists m, decode frame = Ok m /\ get_code m = c.
Proof.
  unfold pack_with. intros Hp.
  destruct (str_encode text) as [d|]; [|discriminate]. cbn [rbind] in Hp.
  destruct (pack_Ok_inv c d frame Hp) as [Hc Hd].
  destruct (pack_bytes c d Hc Hd) as (c1 & c2 & l1 & l2 & Hp' & Hcode & _).
  rewrite Hp in Hp'. injection Hp' as ->.
  eexists. split; [apply decode_frame|]. exact Hcode.
Qed.

Section Containment.
Context `{External}.

(** X15.  Whatever chunk a connected protocol receives, [data_received] returns
    normally: no exception leaves it.  The connection list, the state map,
    the closed transports and the transport of the protocol are unchanged.
    At most one frame is written, and only to the protocol's own
    transport; a written frame decodes to a message whose code is one of
    [MOTD], [COMMAND_SUCCESS], [COMMAND_ERROR], [USER_STATUS].  When the
    transport refuses writes nothing is written. *)
Theorem data_received_is_contained (d : bytes) (p : CluckServer) (sh : Shared)
    (t : handle) :
  transport p = Some t ->
  exists s',
    data_received d (mkState p sh) = (Ok tt, s')
    /\ transport (self s') = Some t
    /\ connections (shared s') = connections sh
    /\ connection_states (shared s') = connection_states sh
    /\ closed (shared s') = closed sh
    /\ (wire (shared s') = wire sh
        \/ exists frame m,
             wire (shared s') = wire sh ++ [(t, frame)]
             /\ decode frame = Ok m /\ In (get_code m) response_codes)
    /\ (t ∈ faulty sh -> wire (shared s') = wire sh).
Proof.
  intros Ht.
  destruct (data_received_effects d p sh t Ht)
    as (s' & Hrun & (Htr & Hc & Hs & _ & Hcl & Hw) & _).
  exists s'. repeat (split; [assumption|]). split.
  - destruct Hw as [Hw|(_ & c & text & frame & Hin & Hp & Hw)]; [left; exact Hw|].
    right. destruct (pack_with_code c text frame Hp) as (m & Hm & <-). eauto.
  - intros Hf. destruct Hw as [Hw|(Hnf & _)]; [exact Hw|contradiction].
Qed.

(** X16.  A received chunk changes the user of the protocol only when it is a
    [REGISTER_USER] message whose name passes validation; the user is then
    that name. *)
Theorem user_changes_only_by_registration (d : bytes) (p : CluckServer)
    (sh : Shared) (t : handle) :
  transport p = Some t ->
  exists s',
    data_received d (mkState p sh) = (Ok tt, s')
    /\ (user (self s') = user p
        \/ exists m name,
             decode d = Ok m /\ get_code m = CODE_REGISTER_USER
             /\ requested_name m = Ok name /\ validate_username name = None
             /\ user (self s') = Some name).
Proof.
  intros Ht.
  destruct (data_received_effects d p sh t Ht) as (s' & Hrun & _ & Hu).
  exists s'. split; [exact Hrun|exact Hu].
Qed.

End Containment.

Lemma data_received_is_contained_witness :
  transport (self once_connected) = Some 7%nat
  /\ exists s',
       @data_received latin1 register_bob_chunk
         (mkState (self once_connected) (shared once_connected)) = (Ok tt, s')
       /\ transport (self s') = Some 7%nat
       /\ connections (shared s') = connections (shared once_connected)
       /\ connection_states (shared s') = connection_states (shared once_connected)
       /\ closed (shared s') = closed (shared once_connected)
       /\ (wire (shared s') = wire (shared once_connected)
           \/ exists frame m,
                wire (shared s') = wire (shared once_connected) ++ [(7%nat, frame)]
                /\ decode frame = Ok m /\ In (get_code m) response_codes)
       /\ (7%nat ∈ faulty (shared once_connected) ->
           wire (shared s') = wire (shared once_connected)).
Proof.
  assert (Ht : transport (self once_connected) = Some 7%nat) by reflexivity.
  split; [exact Ht|].
  exact (@data_received_is_contained latin1 register_bob_chunk
           (self once_connected) (shared once_connected) 7%nat Ht).
Defined.

Lemma user_changes_only_by_registration_witness :
  transport (self once_connected) = Some 7%nat
  /\ exists s',
       @data_received latin1 register_bob_chunk
         (mkState (self once_connected) (shared once_connected)) = (Ok tt, s')
       /\ (user (self s') = user (self once_connected)
           \/ exists m name,
                decode register_bob_chunk = Ok m
                /\ get_code m = CODE_REGISTER_USER
                /\ requested_name m = Ok name
                /\ @validate_username latin1 name = None
                /\ user (self s') = Some name).
Proof.
  assert (Ht : transport (self once_connected) = Some 7%nat) by reflexivity.
  split; [exact Ht|].
  exact (@user_changes_only_by_registration latin1 register_bob_chunk
           (self once_connected) (shared once_connected) 7%nat Ht).
Defined.

(** * Registration and the banner *)

Lemma str_encode_lit_app (a : str) (name : str) (b : str) (payload : bytes) :
  ascii_text a = true -> ascii_text b = true -> str_encode name = Ok payload ->
  str_encode (a ++ name ++ b)
  = Ok (map byte_of_Z a ++ payload ++ map byte_of_Z b).
Proof.
  intros Ha Hb Hn.
  rewrite !str_encode_app, (str_encode_ascii a Ha), (str_encode_ascii b Hb), Hn.
  reflexivity.
Qed.

Lemma len_map_byte (s : str) : len (map byte_of_Z s) = len s.
Proof. unfold len. rewrite length_map. reflexivity. Qed.

Section Registration.
Context `{External}.

(** A requested name that passes validation was decoded from the payload,
    so it encodes again, in at most four bytes for each character. *)
Lemma valid_name_encodes (m : Message) (name : str) :
  requested_name m = Ok name -> validate_username name = None ->
  exists payload, str_encode name = Ok payload /\ len payload <= 48.
Proof.
  unfold requested_name, get_data_ascii. intros Hname Hv.
  pose proof (validate_username_None_len name Hv) as Hlen.
  destruct (has_data m).
  - destruct (data m) as [payload|]; [|discriminate].
    apply bytes_decode_encode in Hname. exists payload. split; [exact Hname|].
    pose proof (str_encode_length name payload Hname). lia.
  - injection Hname as <-. unfold len in Hlen. cbn in Hlen. lia.
Qed.

(** The confirmation of a valid name always packs. *)
Lemma confirmation_packs (m : Message) (name : str) :
  requested_name m = Ok name -> validate_username name = None ->
  exists frame r,
    pack_cmd_success (lit "register_user_success: " ++ name ++ lit " confirmed.")
    = Ok frame
    /\ decode frame = Ok r /\ get_code r = CODE_COMMAND_SUCCESS
    /\ get_data_ascii r
       = Ok (lit "register_user_success: " ++ name ++ lit " confirmed.").
Proof.
  intros Hname Hv.
  destruct (valid_name_encodes m name Hname Hv) as (payload & Henc & Hlen).
  pose proof (len_nonneg payload).
  apply (reply_frame CODE_COMMAND_SUCCESS _
           (map byte_of_Z (lit "register_user_success: ") ++ payload
            ++ map byte_of_Z (lit " confirmed."))).
  - vm_compute. split; discriminate.
  - apply str_encode_lit_app; [reflexivity|reflexivity|exact Henc].
  - discriminate.
  - rewrite !len_app, !len_map_byte.
    change (len (lit "register_user_success: ")) with 23.
    change (len (lit " confirmed.")) with 11. lia.
Qed.

(** The refusal of an invalid name always packs. *)
Lemma refusal_packs (name error : str) :
  validate_username name = Some error ->
  exists frame r,
    pack_cmd_error (lit "register_user_error: " ++ error) = Ok frame
    /\ decode frame = Ok r /\ get_code r = CODE_COMMAND_ERROR
    /\ get_data_ascii r = Ok (lit "register_user_error: " ++ error).
Proof.
  intros Hv. apply validate_username_errors in Hv. cbn [In] in Hv.
  apply ascii_reply_frame.
  - vm_compute. split; discriminate.
  - destruct Hv as [<-|[<-|[<-|[<-|[]]]]]; reflexivity.
  - destruct Hv as [<-|[<-|[<-|[<-|[]]]]]; vm_compute; split; discriminate.
Qed.

(** A [REGISTER_USER] chunk on a connected protocol, up to the reply. *)
Lemma data_received_register (d : bytes) (p : CluckServer) (sh : Shared)
    (t : handle) (m : Message) :
  transport p = Some t -> 4 <= len d -> decode d = Ok m ->
  get_code m = CODE_REGISTER_USER ->
  data_received d (mkState p sh)
  = try_except (fun s => _handle_register_user m s)
      (fun e => logging (Log_exception ERROR e))
      (mkState p (logged (Log_data_received DEBUG d) sh)).
Proof.
  intros Ht Hlen Hdec Hcode.
  apply (data_received_dispatch d p sh t m _handle_register_user Ht Hlen Hdec).
  rewrite Hcode. reflexivity.
Qed.

(** The run of [data_received] on a valid registration. *)
Lemma valid_registration_run (d : bytes) (p : CluckServer)
    (sh : Shared) (t : handle) (m : Message) (name : str) :
  transport p = Some t -> t ∉ faulty sh -> 4 <= len d -> decode d = Ok m ->
  get_code m = CODE_REGISTER_USER ->
  requested_name m = Ok name -> validate_username name = None ->
  exists frame,
    data_received d (mkState p sh)
    = (Ok tt,
       mkState (mkCluckServer (Some name) (Some t))
         (written t frame
            (logged (Log_creating_user INFO name)
               (logged (Log_data_received DEBUG d) sh)))).
Proof.
  intros Ht Hf Hlen Hdec Hcode Hname Hv.
  destruct (confirmation_packs m name Hname Hv) as (frame & r & Hp & _).
  exists frame.
  rewrite (data_received_register d p sh t m Ht Hlen Hdec Hcode).
  unfold try_except. rewrite (register_run m p _ t Ht), Hname, Hv.
  unfold reply. rewrite Hp. cbn [faulty logged].
  destruct (decide (t ∈ faulty sh)); [contradiction|reflexivity].
Qed.

(** X9.  A [REGISTER_USER] chunk whose name passes validation: the name becomes
    the user of the protocol, whatever the user was before, and the peer is
    sent the [COMMAND_SUCCESS] frame of [register_user_success: NAME
    confirmed.], which always packs. *)
Theorem register_valid_name_is_confirmed (d : bytes) (p : CluckServer)
    (sh : Shared) (t : handle) (m : Message) (name : str) :
  transport p = Some t -> t ∉ faulty sh -> 4 <= len d -> decode d = Ok m ->
  get_code m = CODE_REGISTER_USER ->
  requested_name m = Ok name -> validate_username name = None ->
  exists frame r,
    pack_cmd_success (lit "register_user_success: " ++ name ++ lit " confirmed.")
    = Ok frame
    /\ decode frame = Ok r /\ get_code r = CODE_COMMAND_SUCCESS
    /\ get_data_ascii r
       = Ok (lit "register_user_success: " ++ name ++ lit " confirmed.")
    /\ data_received d (mkState p sh)
       = (Ok tt,
          mkState (mkCluckServer (Some name) (Some t))
            (written t frame
               (logged (Log_creating_user INFO name)
                  (logged (Log_data_received DEBUG d) sh)))).
Proof.
  intros Ht Hf Hlen Hdec Hcode Hname Hv.
  destruct (confirmation_packs m name Hname Hv) as (frame & r & Hp & Hr & Hc & Ha).
  exists frame, r. repeat (split; [assumption|]).
  rewrite (data_received_register d p sh t m Ht Hlen Hdec Hcode).
  unfold try_except. rewrite (register_run m p _ t Ht), Hname, Hv.
  unfold reply. rewrite Hp. cbn [faulty logged].
  destruct (decide (t ∈ faulty sh)); [contradiction|reflexivity].
Qed.

(** X12.  The same chunk on a protocol whose transport refuses the write: the
    name is stored all the same, nothing is written, and the error of the
    write is logged; [data_received] returns normally. *)
Theorem registration_survives_refused_write (d : bytes) (p : CluckServer)
    (sh : Shared) (t : handle) (m : Message) (name : str) :
  transport p = Some t -> t ∈ faulty sh -> 4 <= len d -> decode d = Ok m ->
  get_code m = CODE_REGISTER_USER ->
  requested_name m = Ok name -> validate_username name = None ->
  data_received d (mkState p sh)
  = (Ok tt,
     mkState (mkCluckServer (Some name) (Some t))
       (logged (Log_exception ERROR TransportError)
          (logged (Log_creating_user INFO name)
             (logged (Log_data_received DEBUG d) sh)))).
Proof.
  intros Ht Hf Hlen Hdec Hcode Hname Hv.
  destruct (confirmation_packs m name Hname Hv) as (frame & r & Hp & _).
  rewrite (data_received_register d p sh t m Ht Hlen Hdec Hcode).
  unfold try_except. rewrite (register_run m p _ t Ht), Hname, Hv.
  unfold reply. rewrite Hp. cbn [faulty logged].
  destruct (decide (t ∈ faulty sh)); [reflexivity|contradiction].
Qed.

(** X10.  A [REGISTER_USER] chunk whose name fails validation, the empty name of
    a chunk without payload included: the peer is sent the
    [COMMAND_ERROR] frame of [register_user_error: ] followed by the error
    text, which always packs, and the protocol keeps the user it had. *)
Theorem register_invalid_name_is_refused (d : bytes) (p : CluckServer)
    (sh : Shared) (t : handle) (m : Message) (name error : str) :
  transport p = Some t -> t ∉ faulty sh -> 4 <= len d -> decode d = Ok m ->
  get_code m = CODE_REGISTER_USER ->
  requested_name m = Ok name -> validate_username name = Some error ->
  exists frame r,
    pack_cmd_error (lit "register_user_error: " ++ error) = Ok frame
    /\ decode frame = Ok r /\ get_code r = CODE_COMMAND_ERROR
    /\ get_data_ascii r = Ok (lit "register_user_error: " ++ error)
    /\ data_received d (mkState p sh)
       = (Ok tt,
          mkState p
            (written t frame
               (logged (Log_register_error DEBUG error)
                  (logged (Log_data_received DEBUG d) sh)))).
Proof.
  intros Ht Hf Hlen Hdec Hcode Hname Hv.
  destruct (refusal_packs name error Hv) as (frame & r & Hp & Hr & Hc & Ha).
  exists frame, r. repeat (split; [assumption|]).
  rewrite (data_received_register d p sh t m Ht Hlen Hdec Hcode).
  unfold try_except. rewrite (register_run m p _ t Ht), Hname, Hv.
  unfold reply. rewrite Hp. cbn [faulty logged].
  destruct (decide (t ∈ faulty sh)); [contradiction|reflexivity].
Qed.

(** X13.  A [MOTD_REQUEST] chunk: when the banner packs, it is sent as a [MOTD]
    frame; when it does not (it has a character that cannot be encoded, or
    more than 65535 bytes), the request is dropped with a log record and no
    reply.  The protocol is unchanged either way. *)
Theorem motd_request_is_answered (d : bytes) (p : CluckServer) (sh : Shared)
    (t : handle) (m : Message) :
  transport p = Some t -> t ∉ faulty sh -> 4 <= len d -> decode d = Ok m ->
  get_code m = CODE_MOTD_REQUEST ->
  match pack_motd (renderText (lit "Cluck!")) with
  | Ok frame =>
      data_received d (mkState p sh)
      = (Ok tt,
         mkState p (written t frame (logged (Log_data_received DEBUG d) sh)))
      /\ exists r, decode frame = Ok r /\ get_code r = CODE_MOTD
  | Raise e =>
      data_received d (mkState p sh)
      = (Ok tt,
         mkState p (logged (Log_exception ERROR e)
                      (logged (Log_data_received DEBUG d) sh)))
  end.
Proof.
  intros Ht Hf Hlen Hdec Hcode.
  rewrite (data_received_dispatch d p sh t m _handle_motd_request Ht Hlen Hdec)
    by (rewrite Hcode; reflexivity).
  unfold try_except. rewrite (motd_run m p _ t Ht). unfold reply.
  destruct (pack_motd (renderText (lit "Cluck!"))) as [frame|e] eqn:Hp.
  - cbn [faulty logged].
    destruct (decide (t ∈ faulty sh)); [contradiction|].
    split; [reflexivity|]. apply (pack_with_code CODE_MOTD _ frame Hp).
  - reflexivity.
Qed.

End Registration.

(** * Further properties of the registry and of the event loop *)

Lemma list_remove_app_fresh (t : handle) (ts : list handle) :
  ~ In t ts -> list_remove t (ts ++ [t]) = Some ts.
Proof.
  induction ts as [|u ts IH]; intros Hin; cbn [app list_remove].
  - destruct (decide (t = t)); [reflexivity|congruence].
  - destruct (decide (t = u)) as [->|Hne]; [exfalso; apply Hin; left; reflexivity|].
    rewrite IH; [reflexivity|]. intros Ht. apply Hin. right. exact Ht.
Qed.

(** X17.  Connecting a new transport and then losing the connection leaves the
    registry as it was: in between the transport is in the connection list
    with the state [STATE_CONNECTED]; afterwards the list and the state map
    are the ones before the connection, nothing has been written, and the
    transport has been closed. *)
Theorem connect_then_lose_restores_registry (sh : Shared) (t : handle) :
  ~ In t (connections sh) -> connection_states sh !! t = None ->
  exists s1 s2,
    connection_made t (mkState new_server sh) = (Ok tt, s1)
    /\ In t (connections (shared s1))
    /\ connection_states (shared s1) !! t = Some STATE_CONNECTED
    /\ connection_lost s1 = (Ok tt, s2)
    /\ connections (shared s2) = connections sh
    /\ connection_states (shared s2) = connection_states sh
    /\ wire (shared s2) = wire sh
    /\ closed (shared s2) = closed sh ++ [t].
Proof.
  intros Hin Hst. eexists. eexists.
  split; [apply connection_made_new|].
  cbn [shared connections connection_states with_states with_connections logged].
  split; [apply in_or_app; right; left; reflexivity|].
  split; [apply lookup_insert_eq|].
  split.
  - unfold connection_lost, connections_remove, states_pop.
    run_with (@eq_refl (option handle) (Some t)).
    cbn [connections closing logged with_states with_connections].
    rewrite (list_remove_app_fresh t _ Hin).
    run_with (@eq_refl (option handle) (Some t)).
    cbn [connection_states closing logged with_states with_connections].
    rewrite lookup_insert_eq. run_with (@eq_refl (option handle) (Some t)).
    reflexivity.
  - cbn [shared connections connection_states wire closed with_states
         with_connections closing logged].
    split; [reflexivity|]. split; [apply delete_insert_id; exact Hst|].
    split; reflexivity.
Qed.

Lemma connect_then_lose_restores_registry_witness :
  (~ In 7%nat (connections (net (start ∅)))
   /\ connection_states (net (start ∅)) !! 7%nat = None)
  /\ exists s1 s2,
       connection_made 7%nat (mkState new_server (net (start ∅))) = (Ok tt, s1)
       /\ In 7%nat (connections (shared s1))
       /\ connection_states (shared s1) !! 7%nat = Some STATE_CONNECTED
       /\ connection_lost s1 = (Ok tt, s2)
       /\ connections (shared s2) = connections (net (start ∅))
       /\ connection_states (shared s2) = connection_states (net (start ∅))
       /\ wire (shared s2) = wire (net (start ∅))
       /\ closed (shared s2) = closed (net (start ∅)) ++ [7%nat].
Proof.
  assert (Hin : ~ In 7%nat (connections (net (start ∅)))) by (cbn; tauto).
  assert (Hst : connection_states (net (start ∅)) !! 7%nat = None)
    by (vm_compute; reflexivity).
  split; [split; assumption|].
  exact (connect_then_lose_restores_registry (net (start ∅)) 7%nat Hin Hst).
Defined.

(** X18.  [_set_state] writes the entry of the protocol's own transport and no
    other: [_get_state] then returns the state that was set, the entries of
    the other transports, the connection list and the written frames are
    as before.  Without an entry [_get_state] raises [KeyError], and
    before [connection_made] both methods raise [AttributeError]. *)
Theorem set_state_then_get_state (p : CluckServer) (sh : Shared) (st : conn_state) :
  (forall t, transport p = Some t ->
     exists sh',
       _set_state st (mkState p sh) = (Ok tt, mkState p sh')
       /\ _get_state (mkState p sh') = (Ok st, mkState p sh')
       /\ (forall u, u <> t ->
             connection_states sh' !! u = connection_states sh !! u)
       /\ connections sh' = connections sh
       /\ wire sh' = wire sh)
  /\ (forall t, transport p = Some t -> connection_states sh !! t = None ->
        _get_state (mkState p sh) = (Raise KeyError, mkState p sh))
  /\ (transport p = None ->
        _set_state st (mkState p sh) = (Raise AttributeError, mkState p sh)
        /\ _get_state (mkState p sh) = (Raise AttributeError, mkState p sh)).
Proof.
  split; [|split].
  - intros t Ht. eexists. split; [|split; [|split; [|split]]].
    + unfold _set_state. run_with Ht. reflexivity.
    + unfold _get_state, states_getitem. run_with Ht.
      cbn [connection_states with_states]. rewrite lookup_insert_eq. reflexivity.
    + intros u Hu. cbn [connection_states with_states].
      apply lookup_insert_ne. congruence.
    + reflexivity.
    + reflexivity.
  - intros t Ht Hnone. unfold _get_state, states_getitem. run_with Ht.
    rewrite Hnone. reflexivity.
  - intros Hnone. unfold _set_state, _get_state. run_with Hnone.
    split; reflexivity.
Qed.

Lemma is_ready_set_ready (sh : Shared) (t u : handle) :
  is_ready (with_states (<[t := STATE_READY]> (connection_states sh)) sh) u
  = if decide (u = t) then true else is_ready sh u.
Proof.
  unfold is_ready. cbn [connection_states with_states].
  destruct (decide (u = t)) as [->|Hne].
  - rewrite lookup_insert_eq. reflexivity.
  - rewrite lookup_insert_ne by congruence. reflexivity.
Qed.

(** X19.  A session that has set its state to [STATE_READY] is a target of the
    next broadcast: the frame goes to the sessions that were ready before
    and to this one, in the order of the connection list (all connections
    having a state entry and accepting writes). *)
Theorem ready_session_receives_broadcast (p : CluckServer) (sh : Shared)
    (t : handle) (d : bytes) :
  transport p = Some t ->
  (forall u, In u (connections sh) -> is_Some (connection_states sh !! u)) ->
  (forall u, In u (connections sh) -> u ∉ faulty sh) ->
  exists sh1 s2,
    _set_state STATE_READY (mkState p sh) = (Ok tt, mkState p sh1)
    /\ _broadcast d (mkState p sh1) = (Ok tt, s2)
    /\ wire (shared s2)
       = wire sh
         ++ map (fun u => (u, d))
              (List.filter (fun u => if decide (u = t) then true else is_ready sh u)
                 (connections sh))
    /\ (In t (connections sh) -> In (t, d) (wire (shared s2))).
Proof.
  intros Ht Hst Hok.
  exists (with_states (<[t := STATE_READY]> (connection_states sh)) sh).
  eexists. split; [unfold _set_state; run_with Ht; reflexivity|].
  split.
  - rewrite broadcast_unfold. cbn [shared connections with_states].
    apply broadcast_loop_ok.
    + intros u Hu. cbn [connection_states with_states].
      destruct (decide (t = u)) as [->|Hne].
      * rewrite lookup_insert_eq. eauto.
      * rewrite lookup_insert_ne by exact Hne. apply Hst. exact Hu.
    + intros u Hu _. apply Hok. exact Hu.
  - cbn [shared wire delivered connections with_states].
    assert (Hfilter :
      List.filter
        (is_ready (with_states (<[t := STATE_READY]> (connection_states sh)) sh))
        (connections sh)
      = List.filter (fun u => if decide (u = t) then true else is_ready sh u)
          (connections sh)).
    { apply List.filter_ext. intros u. apply is_ready_set_ready. }
    rewrite Hfilter. split; [reflexivity|].
    intros Hin. apply in_or_app. right. apply in_map_iff. exists t.
    split; [reflexivity|]. apply filter_In. split; [exact Hin|].
    destruct (decide (t = t)); [reflexivity|congruence].
Qed.

Lemma one_connecting_two_ready_healthy (u : handle) :
  In u (connections one_connecting_two_ready) ->
  u ∉ faulty one_connecting_two_ready.
Proof. intros _. apply not_elem_of_empty. Defined.

Lemma ready_session_receives_broadcast_witness :
  (transport (mkCluckServer None (Some 1%nat)) = Some 1%nat
   /\ (forall u, In u (connections one_connecting_two_ready) ->
                 is_Some (connection_states one_connecting_two_ready !! u))
   /\ (forall u, In u (connections one_connecting_two_ready) ->
                 u ∉ faulty one_connecting_two_ready))
  /\ exists sh1 s2,
       _set_state STATE_READY
         (mkState (mkCluckServer None (Some 1%nat)) one_connecting_two_ready)
       = (Ok tt, mkState (mkCluckServer None (Some 1%nat)) sh1)
       /\ _broadcast [x00; x01; x00; x00]
            (mkState (mkCluckServer None (Some 1%nat)) sh1) = (Ok tt, s2)
       /\ wire (shared s2)
          = wire one_connecting_two_ready
            ++ map (fun u => (u, [x00; x01; x00; x00]))
                 (List.filter
                    (fun u => if decide (u = 1%nat) then true
                              else is_ready one_connecting_two_ready u)
                    (connections one_connecting_two_ready))
       /\ (In 1%nat (connections one_connecting_two_ready) ->
           In (1%nat, [x00; x01; x00; x00]) (wire (shared s2))).
Proof.
  assert (Ht : transport (mkCluckServer None (Some 1%nat)) = Some 1%nat)
    by reflexivity.
  split; [split; [exact Ht|split;
     [exact one_connecting_two_ready_states|exact one_connecting_two_ready_healthy]]|].
  exact (ready_session_receives_broadcast (mkCluckServer None (Some 1%nat))
           one_connecting_two_ready 1%nat [x00; x01; x00; x00] Ht
           one_connecting_two_ready_states one_connecting_two_ready_healthy).
Defined.

Lemma connection_lost_wire (s : State) :
  wire (shared (snd (connection_lost s))) = wire (shared s).
Proof.
  unfold connection_lost, connections_remove, states_pop.
  destruct s as [p sh]. destruct (transport p) as [t|] eqn:Ht.
  - run_with Ht. cbn [connections closing logged].
    destruct (list_remove t (connections sh)) as [r|]; [|reflexivity].
    run_with Ht. cbn [connection_states closing logged with_connections].
    destruct (connection_states sh !! t); reflexivity.
  - run_with Ht. reflexivity.
Qed.

Section LoopMore.
Context `{External}.

Lemma step_replies_inv (w w' : World) (e : event) :
  registry_inv w -> replies_inv w -> step w e w' -> replies_inv w'.
Proof.
  intros Hreg [Hframes Husers] Hstep.
  destruct Hstep as [w t r s' Hnew Hrun | w t p d r s' Hp Hrun | w t p r s' Hp Hrun].
  - rewrite connection_made_new in Hrun. injection Hrun as _ <-.
    split; cbn [net protocols self shared wire with_states with_connections logged].
    + exact Hframes.
    + intros u q. destruct (decide (t = u)) as [->|Hne].
      * rewrite lookup_insert_eq. intros [= <-] name Hname. discriminate.
      * rewrite lookup_insert_ne by exact Hne. apply Husers.
  - destruct (data_received_effects d p (net w) t (inv_transport w Hreg t p Hp))
      as (s'' & Hrun' & (_ & _ & _ & _ & _ & Hw) & Hu).
    rewrite Hrun in Hrun'. injection Hrun' as _ ->.
    split; cbn [net protocols].
    + intros u frame Hin.
      destruct Hw as [Hw|(_ & c & text & f & Hc & Hpack & Hw)]; rewrite Hw in Hin.
      * eapply Hframes. exact Hin.
      * apply in_app_iff in Hin as [Hin|[[= <- <-]|[]]]; [eapply Hframes; exact Hin|].
        destruct (pack_with_code c text f Hpack) as (m & Hm & <-). eauto.
    + intros u q. destruct (decide (t = u)) as [->|Hne].
      * rewrite lookup_insert_eq. intros [= <-] name Hname.
        destruct Hu as [Hu|(m & name' & _ & _ & _ & Hv & Hu)].
        -- apply (Husers u p Hp). congruence.
        -- congruence.
      * rewrite lookup_insert_ne by exact Hne. apply Husers.
  - split; cbn [net protocols].
    + intros u frame Hin.
      pose proof (connection_lost_wire (mkState p (net w))) as Hw.
      rewrite Hrun in Hw. cbn [snd shared] in Hw. rewrite Hw in Hin.
      eapply Hframes. exact Hin.
    + intros u q. destruct (decide (t = u)) as [->|Hne].
      * rewrite lookup_delete_eq. discriminate.
      * rewrite lookup_delete_ne by exact Hne. apply Husers.
Qed.

(** X20.  In every world the server can reach, every frame it has written
    decodes to a message with one of the four response codes, and the user
    of every live protocol is a name that passes validation. *)
Theorem reachable_replies_and_users (w : World) :
  reachable w ->
  (forall t frame, In (t, frame) (wire (net w)) ->
     exists m, decode frame = Ok m /\ In (get_code m) response_codes)
  /\ (forall t p name, protocols w !! t = Some p -> user p = Some name ->
        validate_username name = None).
Proof.
  intros Hw.
  assert (Hinv : registry_inv w /\ replies_inv w).
  { induction Hw as [bad | w e w' Hw [IHr IHp] Hstep].
    - split; [apply start_inv|]. split; cbn [start net protocols wire].
      + intros t frame [].
      + intros t p. rewrite lookup_empty. discriminate.
    - split; [eapply step_inv; eassumption|eapply step_replies_inv; eassumption]. }
  destruct Hinv as [_ [Hframes Husers]]. split; [exact Hframes|].
  intros t p name Hp Hname. exact (Husers t p Hp name Hname).
Qed.

End LoopMore.

Lemma after_register_reachable : @reachable latin1 after_register.
Proof.
  apply (@reachable_step latin1 after_connect (Receive 7%nat register_bob_chunk)).
  - exact after_connect_reachable.
  - exact (@step_receive latin1 after_connect 7%nat (self once_connected)
             register_bob_chunk (Ok tt)
             (snd (@data_received latin1 register_bob_chunk once_connected))
             eq_refl eq_refl).
Defined.

Lemma reachable_replies_and_users_witness :
  @reachable latin1 after_register
  /\ (forall t frame, In (t, frame) (wire (net after_register)) ->
        exists m, decode frame = Ok m /\ In (get_code m) response_codes)
  /\ (forall t p name, protocols after_register !! t = Some p ->
        user p = Some name -> @validate_username latin1 name = None).
Proof.
  split; [exact after_register_reachable|].
  exact (@reachable_replies_and_users latin1 after_register after_register_reachable).
Defined.

(** * Decoding and packing again *)

Lemma header_bytes (b1 b2 : byte) :
  byte_of_Z ((256 * Z_of_byte b1 + Z_of_byte b2) / 256) = b1
  /\ byte_of_Z ((256 * Z_of_byte b1 + Z_of_byte b2) mod 256) = b2.
Proof.
  pose proof (Z_of_byte_range b1). pose proof (Z_of_byte_range b2).
  split; apply byte_of_Z_eq; arith.
Qed.

(** X4.  Packing a decoded message.  When the declared length is exactly the
    number of bytes after the header, and not zero, the message packs to
    the frame it came from.  When the chunk has more bytes than declared,
    it packs to the frame without them.  When the declared length is zero,
    or is the length of the whole chunk or more, the payload was decoded as
    absent and the message does not pack: a bare header, such as the one of
    [WHOAMI], decodes to a message on which [pack] raises. *)
Theorem decode_then_pack (raw : bytes) :
  4 <= len raw ->
  exists m L,
    decode raw = Ok m /\ unpack_length raw = Ok L
    /\ (0 < L -> L = len raw - 4 -> pack m = Ok raw)
    /\ (0 < L -> L < len raw - 4 -> pack m = Ok (take (Z.to_nat (4 + L)) raw))
    /\ (L = 0 \/ len raw <= L -> pack m = Raise TypeError).
Proof.
  intros Hraw. destruct (header_split raw Hraw) as (c1 & c2 & l1 & l2 & rest & ->).
  eexists _, _. split; [apply decode_frame|]. split; [reflexivity|].
  cbn zeta. set (L := 256 * Z_of_byte l1 + Z_of_byte l2).
  set (c := 256 * Z_of_byte c1 + Z_of_byte c2).
  replace (len (c1 :: c2 :: l1 :: l2 :: rest)) with (4 + len rest)
    by (unfold len; cbn [length]; lia).
  pose proof (Z_of_byte_range c1). pose proof (Z_of_byte_range c2).
  pose proof (Z_of_byte_range l1). pose proof (Z_of_byte_range l2).
  pose proof (len_nonneg rest) as Hrest.
  assert (Hc : 0 <= c <= 65535) by (subst c; lia).
  assert (HL : 0 <= L <= 65535) by (subst L; lia).
  destruct (header_bytes c1 c2) as [Hc1 Hc2].
  destruct (header_bytes l1 l2) as [Hl1 Hl2]. fold c in Hc1, Hc2. fold L in Hl1, Hl2.
  rewrite Z.gtb_ltb.
  assert (Hpack : forall n, (n <= length rest)%nat -> 0 < L -> Z.of_nat n = L ->
            pack (mkMessage c (Some (take n rest)))
            = Ok (c1 :: c2 :: l1 :: l2 :: take n rest)).
  { intros n Hn Hpos HnL.
    assert (Hlen : len (take n rest) = L).
    { unfold len. rewrite length_take. lia. }
    rewrite pack_layout by lia. rewrite Hlen, Hc1, Hc2, Hl1, Hl2. reflexivity. }
  split; [|split].
  - intros Hpos Hex.
    replace ((0 <? L) && (L <? 4 + len rest)) with true
      by (symmetry; apply andb_true_intro; split; apply Z.ltb_lt; lia).
    rewrite Hpack by (unfold len in *; lia).
    replace (Z.to_nat L) with (length rest) by (unfold len in *; lia).
    rewrite firstn_all. reflexivity.
  - intros Hpos Hlt.
    replace ((0 <? L) && (L <? 4 + len rest)) with true
      by (symmetry; apply andb_true_intro; split; apply Z.ltb_lt; lia).
    rewrite Hpack by (unfold len in *; lia).
    replace (Z.to_nat (4 + L)) with (S (S (S (S (Z.to_nat L))))) by lia.
    reflexivity.
  - intros Hnone.
    replace ((0 <? L) && (L <? 4 + len rest)) with false.
    + unfold pack, _pack_header, _pack_code, _pack_length. cbn [code data].
      destruct (struct_pack_unpack_H c Hc) as (hi & lo & -> & _).
      reflexivity.
    + symmetry. apply andb_false_iff.
      destruct Hnone as [Hz|Hge]; [left|right]; apply Z.ltb_ge; lia.
Qed.

Lemma decode_then_pack_witness :
  4 <= len whoami_chunk
  /\ exists m L,
       decode whoami_chunk = Ok m /\ unpack_length whoami_chunk = Ok L
       /\ (0 < L -> L = len whoami_chunk - 4 -> pack m = Ok whoami_chunk)
       /\ (0 < L -> L < len whoami_chunk - 4 ->
           pack m = Ok (take (Z.to_nat (4 + L)) whoami_chunk))
       /\ (L = 0 \/ len whoami_chunk <= L -> pack m = Raise TypeError).
Proof.
  assert (Hl : 4 <= len whoami_chunk) by (vm_compute; discriminate).
  split; [exact Hl|]. exact (decode_then_pack whoami_chunk Hl).
Defined.

(** * Registration followed by [WHOAMI] *)

Section Echo.
Context `{External}.

(** X14.  After a [REGISTER_USER] chunk whose name passes validation, a [WHOAMI]
    chunk on the same protocol is answered with one [USER_STATUS] frame
    whose text is the registered name and whose payload is, byte for byte,
    the payload of the registration. *)
Theorem whoami_echoes_registered_name (p : CluckServer) (sh : Shared)
    (t : handle) (register whoami : bytes) (m mw : Message) (name : str) :
  transport p = Some t -> t ∉ faulty sh ->
  4 <= len register -> decode register = Ok m ->
  get_code m = CODE_REGISTER_USER ->
  requested_name m = Ok name -> validate_username name = None ->
  4 <= len whoami -> decode whoami = Ok mw -> get_code mw = CODE_WHOAMI ->
  exists s1 s2 status r,
    data_received register (mkState p sh) = (Ok tt, s1)
    /\ user (self s1) = Some name
    /\ data_received whoami s1 = (Ok tt, s2)
    /\ self s2 = self s1
    /\ wire (shared s2) = wire (shared s1) ++ [(t, status)]
    /\ decode status = Ok r
    /\ get_code r = CODE_USER_STATUS
    /\ get_data_ascii r = Ok name
    /\ get_data r = get_data m.
Proof.
  intros Ht Hf Hlr Hdr Hcr Hname Hv Hlw Hdw Hcw.
  destruct (valid_registration_run register p sh t m name
              Ht Hf Hlr Hdr Hcr Hname Hv) as (frame & Hrun).
  destruct (valid_name_encodes m name Hname Hv) as (payload & Henc & Hlen).
  pose proof (validate_username_None_len name Hv) as Hnlen.
  assert (Hne : name <> []) by (intros ->; unfold len in Hnlen; cbn in Hnlen; lia).
  assert (Hcode : 0 <= CODE_USER_STATUS <= 65535) by (vm_compute; split; discriminate).
  destruct (pack_with_Ok CODE_USER_STATUS name payload Hcode Henc) as [status Hp]; [lia|].
  destruct (pack_with_decode CODE_USER_STATUS name status Hp Hne)
    as (d' & r & Henc' & Hr & Hcr' & Hdata & _ & Ha).
  rewrite Henc in Henc'. injection Henc' as <-.
  eexists. eexists. exists status, r.
  split; [exact Hrun|]. split; [reflexivity|].
  split.
  { rewrite (data_received_dispatch whoami _ _ t mw _handle_whoami_request);
      [|reflexivity|exact Hlw|exact Hdw|rewrite Hcw; reflexivity].
    unfold try_except.
    rewrite (whoami_run mw (mkCluckServer (Some name) (Some t)) _ t eq_refl).
    cbn [user].
    replace (truthy (Some name)) with true by (destruct name; [congruence|reflexivity]).
    change (default [] (Some name)) with name. unfold reply.
    change (pack_user_status name) with (pack_with CODE_USER_STATUS name).
    rewrite Hp. cbn [faulty logged written].
    destruct (decide (t ∈ faulty sh)); [contradiction|reflexivity]. }
  split; [reflexivity|]. split; [reflexivity|].
  split; [exact Hr|]. split; [exact Hcr'|]. split; [exact Ha|].
  rewrite Hdata. unfold requested_name, get_data_ascii in Hname. unfold get_data.
  destruct (has_data m).
  - destruct (data m) as [pl|]; [|discriminate].
    apply bytes_decode_encode in Hname. congruence.
  - congruence.
Qed.

End Echo.

(** * Closed instances *)

Lemma refusing_connected_refuses : 7%nat ∈ faulty (shared refusing_connected).
Proof. vm_compute. reflexivity. Defined.

Lemma short_chunk_is_refused_witness :
  (transport (self once_connected) = Some 7%nat
   /\ (7%nat ∉ faulty (shared once_connected))
   /\ len [x00; x6e] < 4)
  /\ exists frame m,
       pack_cmd_error (lit "malformed_packet_error: incomplete header, "
                       ++ bytes_repr [x00; x6e]) = Ok frame
       /\ decode frame = Ok m
       /\ get_code m = CODE_COMMAND_ERROR
       /\ get_data_ascii m
          = Ok (lit "malformed_packet_error: incomplete header, "
                ++ bytes_repr [x00; x6e])
       /\ @data_received latin1 [x00; x6e]
            (mkState (self once_connected) (shared once_connected))
          = (Ok tt,
             mkState (self once_connected)
               (written 7%nat frame
                  (logged (Log_bad_header WARNING [x00; x6e])
                     (logged (Log_data_received DEBUG [x00; x6e])
                        (shared once_connected))))).
Proof.
  assert (Ht : transport (self once_connected) = Some 7%nat) by reflexivity.
  assert (Hl : len [x00; x6e] < 4) by (vm_compute; reflexivity).
  split; [split; [exact Ht|split; [exact once_connected_healthy|exact Hl]]|].
  exact (@short_chunk_is_refused latin1 [x00; x6e] (self once_connected)
           (shared once_connected) 7%nat Ht once_connected_healthy Hl).
Defined.

Lemma unknown_code_is_refused_witness :
  (transport (self once_connected) = Some 7%nat
   /\ (7%nat ∉ faulty (shared once_connected))
   /\ 4 <= len unknown_chunk
   /\ decode unknown_chunk = Ok (mkMessage 9999 None)
   /\ get_code (mkMessage 9999 None) <> CODE_MOTD_REQUEST
   /\ get_code (mkMessage 9999 None) <> CODE_REGISTER_USER
   /\ get_code (mkMessage 9999 None) <> CODE_WHOAMI)
  /\ exists frame r,
       pack_cmd_error (lit "malformed_packet_error: bad message code ("
                       ++ int_str (get_code (mkMessage 9999 None)) ++ lit ")")
       = Ok frame
       /\ decode frame = Ok r
       /\ get_code r = CODE_COMMAND_ERROR
       /\ get_data_ascii r
          = Ok (lit "malformed_packet_error: bad message code ("
                ++ int_str (get_code (mkMessage 9999 None)) ++ lit ")")
       /\ @data_received latin1 unknown_chunk
            (mkState (self once_connected) (shared once_connected))
          = (Ok tt,
             mkState (self once_connected)
               (written 7%nat frame
                  (logged (Log_bad_code WARNING (get_code (mkMessage 9999 None)))
                     (logged (Log_data_received DEBUG unknown_chunk)
                        (shared once_connected))))).
Proof.
  assert (Ht : transport (self once_connected) = Some 7%nat) by reflexivity.
  assert (Hl : 4 <= len unknown_chunk) by (vm_compute; discriminate).
  assert (Hd : decode unknown_chunk = Ok (mkMessage 9999 None)) by reflexivity.
  assert (H2 : get_code (mkMessage 9999 None) <> CODE_MOTD_REQUEST) by discriminate.
  assert (H100 : get_code (mkMessage 9999 None) <> CODE_REGISTER_USER) by discriminate.
  assert (H110 : get_code (mkMessage 9999 None) <> CODE_WHOAMI) by discriminate.
  split; [repeat split; try assumption; exact once_connected_healthy|].
  exact (@unknown_code_is_refused latin1 unknown_chunk (self once_connected)
           (shared once_connected) 7%nat (mkMessage 9999 None)
           Ht once_connected_healthy Hl Hd H2 H100 H110).
Defined.

Lemma register_valid_name_is_confirmed_witness :
  (transport (self once_connected) = Some 7%nat
   /\ (7%nat ∉ faulty (shared once_connected))
   /\ 4 <= len register_bob_chunk
   /\ decode register_bob_chunk
      = Ok (mkMessage CODE_REGISTER_USER (Some [x42; x6f; x62]))
   /\ get_code (mkMessage CODE_REGISTER_USER (Some [x42; x6f; x62]))
      = CODE_REGISTER_USER
   /\ requested_name (mkMessage CODE_REGISTER_USER (Some [x42; x6f; x62]))
      = Ok (lit "Bob")
   /\ @validate_username latin1 (lit "Bob") = None)
  /\ exists frame r,
       pack_cmd_success
         (lit "register_user_success: " ++ lit "Bob" ++ lit " confirmed.")
       = Ok frame
       /\ decode frame = Ok r /\ get_code r = CODE_COMMAND_SUCCESS
       /\ get_data_ascii r
          = Ok (lit "register_user_success: " ++ lit "Bob" ++ lit " confirmed.")
       /\ @data_received latin1 register_bob_chunk
            (mkState (self once_connected) (shared once_connected))
          = (Ok tt,
             mkState (mkCluckServer (Some (lit "Bob")) (Some 7%nat))
               (written 7%nat frame
                  (logged (Log_creating_user INFO (lit "Bob"))
                     (logged (Log_data_received DEBUG register_bob_chunk)
                        (shared once_connected))))).
Proof.
  assert (Ht : transport (self once_connected) = Some 7%nat) by reflexivity.
  assert (Hl : 4 <= len register_bob_chunk) by (vm_compute; discriminate).
  assert (Hd : decode register_bob_chunk
               = Ok (mkMessage CODE_REGISTER_USER (Some [x42; x6f; x62])))
    by reflexivity.
  assert (Hc : get_code (mkMessage CODE_REGISTER_USER (Some [x42; x6f; x62]))
               = CODE_REGISTER_USER) by reflexivity.
  assert (Hn : requested_name (mkMessage CODE_REGISTER_USER (Some [x42; x6f; x62]))
               = Ok (lit "Bob")) by reflexivity.
  assert (Hv : @validate_username latin1 (lit "Bob") = None) by reflexivity.
  split; [repeat split; try assumption; exact once_connected_healthy|].
  exact (@register_valid_name_is_confirmed latin1 register_bob_chunk
           (self once_connected) (shared once_connected) 7%nat _ (lit "Bob")
           Ht once_connected_healthy Hl Hd Hc Hn Hv).
Defined.

Lemma registration_survives_refused_write_witness :
  (transport (self refusing_connected) = Some 7%nat
   /\ 7%nat ∈ faulty (shared refusing_connected)
   /\ 4 <= len register_bob_chunk
   /\ decode register_bob_chunk
      = Ok (mkMessage CODE_REGISTER_USER (Some [x42; x6f; x62]))
   /\ get_code (mkMessage CODE_REGISTER_USER (Some [x42; x6f; x62]))
      = CODE_REGISTER_USER
   /\ requested_name (mkMessage CODE_REGISTER_USER (Some [x42; x6f; x62]))
      = Ok (lit "Bob")
   /\ @validate_username latin1 (lit "Bob") = None)
  /\ @data_received latin1 register_bob_chunk
       (mkState (self refusing_connected) (shared refusing_connected))
     = (Ok tt,
        mkState (mkCluckServer (Some (lit "Bob")) (Some 7%nat))
          (logged (Log_exception ERROR TransportError)
             (logged (Log_creating_user INFO (lit "Bob"))
                (logged (Log_data_received DEBUG register_bob_chunk)
                   (shared refusing_connected))))).
Proof.
  assert (Ht : transport (self refusing_connected) = Some 7%nat) by reflexivity.
  assert (Hl : 4 <= len register_bob_chunk) by (vm_compute; discriminate).
  assert (Hd : decode register_bob_chunk
               = Ok (mkMessage CODE_REGISTER_USER (Some [x42; x6f; x62])))
    by reflexivity.
  assert (Hc : get_code (mkMessage CODE_REGISTER_USER (Some [x42; x6f; x62]))
               = CODE_REGISTER_USER) by reflexivity.
  assert (Hn : requested_name (mkMessage CODE_REGISTER_USER (Some [x42; x6f; x62]))
               = Ok (lit "Bob")) by reflexivity.
  assert (Hv : @validate_username latin1 (lit "Bob") = None) by reflexivity.
  split; [repeat split; try assumption; exact refusing_connected_refuses|].
  exact (@registration_survives_refused_write latin1 register_bob_chunk
           (self refusing_connected) (shared refusing_connected) 7%nat _ (lit "Bob")
           Ht refusing_connected_refuses Hl Hd Hc Hn Hv).
Defined.

Lemma register_invalid_name_is_refused_witness :
  (transport (self once_connected) = Some 7%nat
   /\ (7%nat ∉ faulty (shared once_connected))
   /\ 4 <= len register_digit_chunk
   /\ decode register_digit_chunk
      = Ok (mkMessage CODE_REGISTER_USER (Some [x31; x61; x62; x63]))
   /\ get_code (mkMessage CODE_REGISTER_USER (Some [x31; x61; x62; x63]))
      = CODE_REGISTER_USER
   /\ requested_name (mkMessage CODE_REGISTER_USER (Some [x31; x61; x62; x63]))
      = Ok (lit "1abc")
   /\ @validate_username latin1 (lit "1abc")
      = Some (lit "user names must begin with alphanumeric characters."))
  /\ exists frame r,
       pack_cmd_error
         (lit "register_user_error: "
          ++ lit "user names must begin with alphanumeric characters.")
       = Ok frame
       /\ decode frame = Ok r /\ get_code r = CODE_COMMAND_ERROR
       /\ get_data_ascii r
          = Ok (lit "register_user_error: "
                ++ lit "user names must begin with alphanumeric characters.")
       /\ @data_received latin1 register_digit_chunk
            (mkState (self once_connected) (shared once_connected))
          = (Ok tt,
             mkState (self once_connected)
               (written 7%nat frame
                  (logged
                     (Log_register_error DEBUG
                        (lit "user names must begin with alphanumeric characters."))
                     (logged (Log_data_received DEBUG register_digit_chunk)
                        (shared once_connected))))).
Proof.
  assert (Ht : transport (self once_connected) = Some 7%nat) by reflexivity.
  assert (Hl : 4 <= len register_digit_chunk) by (vm_compute; discriminate).
  assert (Hd : decode register_digit_chunk
               = Ok (mkMessage CODE_REGISTER_USER (Some [x31; x61; x62; x63])))
    by reflexivity.
  assert (Hc : get_code (mkMessage CODE_REGISTER_USER (Some [x31; x61; x62; x63]))
               = CODE_REGISTER_USER) by reflexivity.
  assert (Hn : requested_name
                 (mkMessage CODE_REGISTER_USER (Some [x31; x61; x62; x63]))
               = Ok (lit "1abc")) by reflexivity.
  assert (Hv : @validate_username latin1 (lit "1abc")
               = Some (lit "user names must begin with alphanumeric characters."))
    by reflexivity.
  split; [repeat split; try assumption; exact once_connected_healthy|].
  exact (@register_invalid_name_is_refused latin1 register_digit_chunk
           (self once_connected) (shared once_connected) 7%nat _ (lit "1abc") _
           Ht once_connected_healthy Hl Hd Hc Hn Hv).
Defined.

Lemma motd_request_is_answered_witness :
  (transport (self once_connected) = Some 7%nat
   /\ (7%nat ∉ faulty (shared once_connected))
   /\ 4 <= len motd_chunk
   /\ decode motd_chunk = Ok (mkMessage CODE_MOTD_REQUEST None)
   /\ get_code (mkMessage CODE_MOTD_REQUEST None) = CODE_MOTD_REQUEST)
  /\ match pack_motd (@renderText latin1 (lit "Cluck!")) with
     | Ok frame =>
         @data_received latin1 motd_chunk
           (mkState (self once_connected) (shared once_connected))
         = (Ok tt,
            mkState (self once_connected)
              (written 7%nat frame
                 (logged (Log_data_received DEBUG motd_chunk)
                    (shared once_connected))))
         /\ exists r, decode frame = Ok r /\ get_code r = CODE_MOTD
     | Raise e =>
         @data_received latin1 motd_chunk
           (mkState (self once_connected) (shared once_connected))
         = (Ok tt,
            mkState (self once_connected)
              (logged (Log_exception ERROR e)
                 (logged (Log_data_received DEBUG motd_chunk)
                    (shared once_connected))))
     end.
Proof.
  assert (Ht : transport (self once_connected) = Some 7%nat) by reflexivity.
  assert (Hl : 4 <= len motd_chunk) by (vm_compute; discriminate).
  assert (Hd : decode motd_chunk = Ok (mkMessage CODE_MOTD_REQUEST None))
    by reflexivity.
  assert (Hc : get_code (mkMessage CODE_MOTD_REQUEST None) = CODE_MOTD_REQUEST)
    by reflexivity.
  split; [repeat split; try assumption; exact once_connected_healthy|].
  exact (@motd_request_is_answered latin1 motd_chunk (self once_connected)
           (shared once_connected) 7%nat _ Ht once_connected_healthy Hl Hd Hc).
Defined.

Lemma register_undecodable_is_silent_witness :
  (transport (self once_connected) = Some 7%nat
   /\ 4 <= len register_broken_chunk
   /\ decode register_broken_chunk = Ok (mkMessage CODE_REGISTER_USER (Some [xff]))
   /\ get_code (mkMessage CODE_REGISTER_USER (Some [xff])) = CODE_REGISTER_USER
   /\ data (mkMessage CODE_REGISTER_USER (Some [xff])) = Some [xff]
   /\ truthy (Some [xff]) = true
   /\ bytes_decode [xff] = Raise UnicodeDecodeError)
  /\ @data_received latin1 register_broken_chunk
       (mkState (self once_connected) (shared once_connected))
     = (Ok tt,
        mkState (self once_connected)
          (logged (Log_exception ERROR UnicodeDecodeError)
             (logged (Log_data_received DEBUG register_broken_chunk)
                (shared once_connected)))).
Proof.
  assert (Ht : transport (self once_connected) = Some 7%nat) by reflexivity.
  assert (Hl : 4 <= len register_broken_chunk) by (vm_compute; discriminate).
  assert (Hd : decode register_broken_chunk
               = Ok (mkMessage CODE_REGISTER_USER (Some [xff]))) by reflexivity.
  assert (Hc : get_code (mkMessage CODE_REGISTER_USER (Some [xff]))
               = CODE_REGISTER_USER) by reflexivity.
  assert (Hp : data (mkMessage CODE_REGISTER_USER (Some [xff])) = Some [xff])
    by reflexivity.
  assert (Htr : truthy (Some [xff]) = true) by reflexivity.
  assert (Hr : bytes_decode [xff] = Raise UnicodeDecodeError) by reflexivity.
  split; [repeat split; assumption|].
  exact (@register_undecodable_is_silent latin1 register_broken_chunk _
           (self once_connected) (shared once_connected) 7%nat [xff]
           UnicodeDecodeError Ht Hl Hd Hc Hp Htr Hr).
Defined.

Lemma whoami_echoes_registered_name_witness :
  (transport (self once_connected) = Some 7%nat
   /\ (7%nat ∉ faulty (shared once_connected))
   /\ 4 <= len register_utf8_chunk
   /\ decode register_utf8_chunk
      = Ok (mkMessage CODE_REGISTER_USER (Some [x61; xc3; xa9]))
   /\ get_code (mkMessage CODE_REGISTER_USER (Some [x61; xc3; xa9]))
      = CODE_REGISTER_USER
   /\ requested_name (mkMessage CODE_REGISTER_USER (Some [x61; xc3; xa9]))
      = Ok [97; 233]
   /\ @validate_username latin1 [97; 233] = None
   /\ 4 <= len whoami_chunk
   /\ decode whoami_chunk = Ok (mkMessage CODE_WHOAMI None)
   /\ get_code (mkMessage CODE_WHOAMI None) = CODE_WHOAMI)
  /\ exists s1 s2 status r,
       @data_received latin1 register_utf8_chunk
         (mkState (self once_connected) (shared once_connected)) = (Ok tt, s1)
       /\ user (self s1) = Some [97; 233]
       /\ @data_received latin1 whoami_chunk s1 = (Ok tt, s2)
       /\ self s2 = self s1
       /\ wire (shared s2) = wire (shared s1) ++ [(7%nat, status)]
       /\ decode status = Ok r
       /\ get_code r = CODE_USER_STATUS
       /\ get_data_ascii r = Ok [97; 233]
       /\ get_data r
          = get_data (mkMessage CODE_REGISTER_USER (Some [x61; xc3; xa9])).
Proof.
  assert (Ht : transport (self once_connected) = Some 7%nat) by reflexivity.
  assert (Hlr : 4 <= len register_utf8_chunk) by (vm_compute; discriminate).
  assert (Hdr : decode register_utf8_chunk
                = Ok (mkMessage CODE_REGISTER_USER (Some [x61; xc3; xa9])))
    by reflexivity.
  assert (Hcr : get_code (mkMessage CODE_REGISTER_USER (Some [x61; xc3; xa9]))
                = CODE_REGISTER_USER) by reflexivity.
  assert (Hn : requested_name (mkMessage CODE_REGISTER_USER (Some [x61; xc3; xa9]))
               = Ok [97; 233]) by reflexivity.
  assert (Hv : @validate_username latin1 [97; 233] = None) by reflexivity.
  assert (Hlw : 4 <= len whoami_chunk) by (vm_compute; discriminate).
  assert (Hdw : decode whoami_chunk = Ok (mkMessage CODE_WHOAMI None))
    by reflexivity.
  assert (Hcw : get_code (mkMessage CODE_WHOAMI None) = CODE_WHOAMI) by reflexivity.
  split; [repeat split; try assumption; exact once_connected_healthy|].
  exact (@whoami_echoes_registered_name latin1 (self once_connected)
           (shared once_connected) 7%nat register_utf8_chunk whoami_chunk
           _ _ [97; 233]
           Ht once_connected_healthy Hlr Hdr Hcr Hn Hv Hlw Hdw Hcw).
Defined.
